(** * cryptiga/ui: the backtest engine, the run comparator and the history
      selection, embedded from the sources.

    - [Technical]  : [TechnicalProcessor] of
      [docs/plans/2026-02-16-backtest-ui.md] (Task 1).
    - [Backtesting]: [BacktestReport], [BacktestRunner] (Task 2).
    - [Api]        : [BacktestRequest], [run_backtest] (Task 4) and the form
      [Params] of [app/backtest/page.tsx] that is posted to it.
    - [Compare]    : [CompareContent] of [app/backtest/compare/page.tsx].
    - [History]    : [toggle] of the history page.

    Python floats and JavaScript numbers are idealised as exact rationals
    ([Q]); timestamps are seconds ([Z]), and an ISO time string is identified
    with the timestamp it prints. *)

From Stdlib Require Import ZArith QArith Qround Qabs Qreduction Sorted Lia.
From stdpp Require Import base option list strings gmap pretty sorting.

Local Open Scope Z_scope.

(** ** Python values and exceptions *)

Module Py.

Inductive exn : Type :=
| IndexError
| KeyError
| ZeroDivisionError
| HTTPException (status_code : Z).

Inductive result (A : Type) : Type :=
| Ok (a : A)
| Raise (e : exn).
Arguments Ok {A} a.
Arguments Raise {A} e.

Definition bind {A B} (m : result A) (k : A -> result B) : result B :=
  match m with
  | Ok a => k a
  | Raise e => Raise e
  end.

Definition Qlt_bool (a b : Q) : bool := negb (Qle_bool b a).

(** [int(x)] on a float: truncation towards zero. *)
Definition int (x : Q) : Z :=
  if Qle_bool 0 x then Qfloor x else Qceiling x.

(** [round(x)]: to the nearest integer, halves to the even neighbour. *)
Definition round (x : Q) : Z :=
  let f := Qfloor x in
  let r := (x - inject_Z f)%Q in
  if Qlt_bool r (1 # 2) then f
  else if Qlt_bool (1 # 2) r then f + 1
  else if Z.even f then f else f + 1.

(** [round(x, ndigits)]. *)
Definition round_nd (x : Q) (ndigits : nat) : Q :=
  let scale := inject_Z (10 ^ Z.of_nat ndigits) in
  Qred (inject_Z (round (x * scale)) / scale).

(** [a / b] on floats raises on a zero divisor. *)
Definition div (a b : Q) : result Q :=
  if Qeq_bool b 0 then Raise ZeroDivisionError else Ok (a / b)%Q.

(** [max(first :: rest, key=key)]: the first item whose key is maximal. *)
Definition max_by {A} (key : A -> Q) (first : A) (rest : list A) : A :=
  fold_left (fun best x => if Qlt_bool (key best) (key x) then x else best)
            rest first.

(** [xs[i]] for [i >= 0]. *)
Definition index {A} (xs : list A) (i : nat) : result A :=
  match xs !! i with
  | Some x => Ok x
  | None => Raise IndexError
  end.

(** [xs[-k]] (and [series.iloc[-k]]) for [k >= 1]. *)
Definition index_neg {A} (xs : list A) (k : nat) : result A :=
  match k with
  | O => Raise IndexError
  | S k' => index (reverse xs) k'
  end.

End Py.

Import Py.

Declare Scope py_scope.
Delimit Scope py_scope with py.
Notation "x <- m ;; k" := (Py.bind m (fun x => k))
  (at level 100, m at next level, right associativity) : py_scope.
Local Open Scope py_scope.

(** ** Models of [analytics.models] (fields as the sources use them) *)

Inductive Direction : Type := bullish | bearish.

Inductive Side : Type := buy | sell.

Definition Direction_eqb (a b : Direction) : bool :=
  match a, b with
  | bullish, bullish | bearish, bearish => true
  | _, _ => false
  end.

Module Candle.
Record t : Type := mk {
  coin : string;
  timeframe : string;
  open : Q;
  high : Q;
  low : Q;
  close : Q;
  volume : Q;
  timestamp : Z
}.
End Candle.

Module Signal.
Record t : Type := mk {
  coin : string;
  direction : Direction;
  confidence : Z;
  source : string;
  timestamp : Z;
  expires_at : Z
}.
End Signal.

(** ** [analytics/signals/technical.py] *)

Module Technical.

(** A pandas [Series] of floats; [None] is NaN. *)
Definition Series : Type := list (option Q).

(** The three [pandas_ta] entry points the processor calls.  Each returns
    [None] or a series; [ta_macd] stands for the histogram column
    [macd_df.iloc[:, 2]] of the frame [ta.macd] returns. *)
Record TaLib : Type := {
  ta_rsi : list Q -> Z -> option Series;
  ta_macd : list Q -> Z -> Z -> Z -> option Series;
  ta_sma : list Q -> Z -> option Series
}.

Definition MIN_CANDLES : nat := 30.

(** [SIGNAL_TTL = timedelta(hours=1)]. *)
Definition SIGNAL_TTL : Z := 3600.

Record TechnicalProcessor : Type := {
  _rsi_period : Z;
  _rsi_oversold : Z;
  _rsi_overbought : Z;
  _macd_fast : Z;
  _macd_slow : Z;
  _macd_signal : Z;
  _sma_short : Z;
  _sma_long : Z
}.

Record DataFrame : Type := {
  df_open : list Q;
  df_high : list Q;
  df_low : list Q;
  df_close : list Q;
  df_volume : list Q
}.

Definition _candles_to_df (candles : list Candle.t) : DataFrame :=
  {| df_open := map Candle.open candles;
     df_high := map Candle.high candles;
     df_low := map Candle.low candles;
     df_close := map Candle.close candles;
     df_volume := map Candle.volume candles |}.

Definition _make_signal (coin : string) (direction : Direction)
    (confidence : Z) (source : string) (now : Z) : Signal.t :=
  {| Signal.coin := coin;
     Signal.direction := direction;
     Signal.confidence := confidence;
     Signal.source := source;
     Signal.timestamp := now;
     Signal.expires_at := now + SIGNAL_TTL |}.

Section Processor.
Variable ta : TaLib.
Variable self : TechnicalProcessor.

Definition _rsi_signals (df : DataFrame) (coin : string) (now : Z)
    : list Signal.t :=
  match ta_rsi ta (df_close df) (_rsi_period self) with
  | None => []
  | Some rsi =>
    match last rsi with
    | None => []
    | Some None => []
    | Some (Some current_rsi) =>
      if Qlt_bool current_rsi (inject_Z (_rsi_oversold self)) then
        let confidence :=
          Z.min 100 (Py.int ((inject_Z (_rsi_oversold self) - current_rsi)
                             * (33 # 10))) in
        [_make_signal coin bullish confidence "technical/rsi_oversold" now]
      else if Qlt_bool (inject_Z (_rsi_overbought self)) current_rsi then
        let confidence :=
          Z.min 100 (Py.int ((current_rsi - inject_Z (_rsi_overbought self))
                             * (33 # 10))) in
        [_make_signal coin bearish confidence "technical/rsi_overbought" now]
      else []
    end
  end.

Definition _macd_signals (df : DataFrame) (coin : string) (now : Z)
    : list Signal.t :=
  match ta_macd ta (df_close df) (_macd_fast self) (_macd_slow self)
                (_macd_signal self) with
  | None => []
  | Some hist =>
    match reverse hist with
    | [] => []
    | [_] => []
    | Some current :: Some previous :: _ =>
      if Qlt_bool previous 0 && Qlt_bool 0 current then
        let confidence :=
          Z.min 100 (Z.max 30 (Py.int (Qabs current * 1000))) in
        [_make_signal coin bullish confidence "technical/macd_crossover" now]
      else if Qlt_bool 0 previous && Qlt_bool current 0 then
        let confidence :=
          Z.min 100 (Z.max 30 (Py.int (Qabs current * 1000))) in
        [_make_signal coin bearish confidence "technical/macd_crossover" now]
      else []
    | _ :: _ :: _ => []
    end
  end.

Definition _sma_signals (df : DataFrame) (coin : string) (now : Z)
    : result (list Signal.t) :=
  match ta_sma ta (df_close df) (_sma_short self),
        ta_sma ta (df_close df) (_sma_long self) with
  | Some sma_short, Some sma_long =>
    match sma_short, sma_long with
    | [], _ | _, [] => Ok []
    | _, _ =>
      short_val <- index_neg sma_short 1 ;;
      long_val <- index_neg sma_long 1 ;;
      prev_short <- index_neg sma_short 2 ;;
      prev_long <- index_neg sma_long 2 ;;
      match short_val, long_val, prev_short, prev_long with
      | Some short_val, Some long_val, Some prev_short, Some prev_long =>
        if Qle_bool prev_short prev_long && Qlt_bool long_val short_val then
          Ok [_make_signal coin bullish 55 "technical/sma_golden_cross" now]
        else if Qle_bool prev_long prev_short
                && Qlt_bool short_val long_val then
          Ok [_make_signal coin bearish 55 "technical/sma_death_cross" now]
        else Ok []
      | _, _, _, _ => Ok []
      end
    end
  | _, _ => Ok []
  end.

Definition process (candles : list Candle.t) : result (list Signal.t) :=
  if (length candles <? MIN_CANDLES)%nat then Ok []
  else
    let df := _candles_to_df candles in
    first <- index candles 0 ;;
    final <- index_neg candles 1 ;;
    let coin := Candle.coin first in
    let now := Candle.timestamp final in
    let signals := _rsi_signals df coin now in
    let signals := signals ++ _macd_signals df coin now in
    sma <- _sma_signals df coin now ;;
    Ok (signals ++ sma).

End Processor.

End Technical.

(** ** [analytics/backtesting]: portfolio, executor, report and runner *)

(** Modelled from the spec: [Position], [Trade] and [Portfolio] of
    [analytics.models] are missing from the sources; the fields are those of
    section 3, and the runner reads [portfolio.cash],
    [portfolio.positions], [pos.quantity], [trade.side], [trade.coin] and
    [trade.price]. *)
Module Position.
Record t : Type := mk {
  coin : string;
  entry_price : Q;
  quantity : Q;
  opened_at : Z;
  closed_at : option Z;
  exit_price : option Q;
  realized_pnl : option Q
}.
End Position.

Module Trade.
Record t : Type := mk {
  coin : string;
  side : Side;
  quantity : Q;
  price : Q;
  amount : Q;
  timestamp : Z
}.
End Trade.

Module Portfolio.
(** [positions] is the dict of open positions, in insertion order. *)
Record t : Type := mk {
  cash : Q;
  positions : list (string * Position.t)
}.

(** [coin in portfolio.positions]. *)
Definition holds (coin : string) (p : t) : bool :=
  existsb (fun kv => String.eqb coin (fst kv)) (positions p).

Definition get (coin : string) (p : t) : option Position.t :=
  snd <$> find (fun kv => String.eqb coin (fst kv)) (positions p).
End Portfolio.

Module Backtesting.
Import Technical.

(** Modelled from the spec: [BacktestExecutor]
    ([analytics/backtesting/executor.py]) is missing from the sources; this
    follows section 4.4.  Buy deducts [amount] from cash, opens a position
    at the current close with [quantity = amount / close] and appends a buy
    trade; sell credits [quantity * close], marks the position closed with
    its exit price and realised profit, removes it from the open positions
    and appends a sell trade.  The executor owns the portfolio object the
    runner reads. *)
Record BacktestExecutor : Type := {
  portfolio : Portfolio.t;
  closed : list Position.t;
  trades : list Trade.t
}.

(** Modelled from the spec: [BacktestExecutor.execute_buy], missing from
    the sources (section 4.4, "Buy"). *)
Definition execute_buy (self : BacktestExecutor) (coin : string)
    (amount : Q) (candle : Candle.t) : result BacktestExecutor :=
  let price := Candle.close candle in
  quantity <- Py.div amount price ;;
  let position :=
    {| Position.coin := coin;
       Position.entry_price := price;
       Position.quantity := quantity;
       Position.opened_at := Candle.timestamp candle;
       Position.closed_at := None;
       Position.exit_price := None;
       Position.realized_pnl := None |} in
  let trade :=
    {| Trade.coin := coin;
       Trade.side := buy;
       Trade.quantity := quantity;
       Trade.price := price;
       Trade.amount := amount;
       Trade.timestamp := Candle.timestamp candle |} in
  let p := portfolio self in
  Ok {| portfolio :=
          {| Portfolio.cash := (Portfolio.cash p - amount)%Q;
             Portfolio.positions :=
               Portfolio.positions p ++ [(coin, position)] |};
        closed := closed self;
        trades := trades self ++ [trade] |}.

(** Modelled from the spec: [BacktestExecutor.execute_sell], missing from
    the sources (section 4.4, "Sell"). *)
Definition execute_sell (self : BacktestExecutor) (coin : string)
    (candle : Candle.t) : result BacktestExecutor :=
  let p := portfolio self in
  match Portfolio.get coin p with
  | None => Raise KeyError
  | Some position =>
    let price := Candle.close candle in
    let quantity := Position.quantity position in
    let proceeds := (quantity * price)%Q in
    let done :=
      {| Position.coin := Position.coin position;
         Position.entry_price := Position.entry_price position;
         Position.quantity := quantity;
         Position.opened_at := Position.opened_at position;
         Position.closed_at := Some (Candle.timestamp candle);
         Position.exit_price := Some price;
         Position.realized_pnl :=
           Some (quantity * (price - Position.entry_price position))%Q |} in
    let trade :=
      {| Trade.coin := coin;
         Trade.side := sell;
         Trade.quantity := quantity;
         Trade.price := price;
         Trade.amount := proceeds;
         Trade.timestamp := Candle.timestamp candle |} in
    Ok {| portfolio :=
            {| Portfolio.cash := (Portfolio.cash p + proceeds)%Q;
               Portfolio.positions :=
                 filter (fun kv => negb (String.eqb coin (fst kv)))
                        (Portfolio.positions p) |};
          closed := closed self ++ [done];
          trades := trades self ++ [trade] |}
  end.

(** [report.py] *)
Record EquityPoint : Type := { time : Z; value : Q }.

Record BacktestReport : Type := {
  starting_capital : Q;
  final_value : Q;
  total_return_pct : Q;
  buy_hold_return_pct : Q;
  trade_count : nat;
  win_count : nat;
  loss_count : nat;
  report_trades : list Trade.t;
  equity_curve : list EquityPoint;
  max_drawdown_pct : Q
}.

Definition win_rate (self : BacktestReport) : Q :=
  let total := (win_count self + loss_count self)%nat in
  if (total =? 0)%nat then 0%Q
  else (inject_Z (Z.of_nat (win_count self))
        / inject_Z (Z.of_nat total))%Q.

(** [runner.py] *)
Record BacktestRunner : Type := {
  _capital : Q;
  _position_size_pct : Q;
  _indicator_params : TechnicalProcessor
}.

(** The variables the loop of [run] updates. *)
Record LoopState : Type := {
  executor : BacktestExecutor;
  curve : list EquityPoint;
  peak : Q;
  max_drawdown : Q
}.

(** [value = portfolio.cash; for c, pos in positions.items(): value +=
    pos.quantity * close]. *)
Definition mark_to_market (p : Portfolio.t) (close : Q) : Q :=
  fold_left (fun value kv => (value + Position.quantity (snd kv) * close)%Q)
            (Portfolio.positions p) (Portfolio.cash p).

(** Lines "Track max drawdown" of the loop body. *)
Definition track_drawdown (peak max_drawdown value : Q) : Q * Q :=
  let peak := if Qlt_bool peak value then value else peak in
  let drawdown :=
    if Qlt_bool 0 peak then ((peak - value) / peak * 100)%Q else 0%Q in
  let max_drawdown :=
    if Qlt_bool max_drawdown drawdown then drawdown else max_drawdown in
  (peak, max_drawdown).

Section Runner.
Variable ta : TaLib.
(** [Signal.score] is a property of the signal model, which is not among
    the sources: the runner only ranks signals by [abs(s.score)]. *)
Variable score : Signal.t -> Q.
Variable self : BacktestRunner.

(** The signal-driven part of the loop body ([if signals: ...]). *)
Definition act (ex : BacktestExecutor) (signals : list Signal.t)
    (coin : string) (current_candle : Candle.t)
    : result BacktestExecutor :=
  match signals with
  | [] => Ok ex
  | s :: rest =>
    let best := max_by (fun s => Qabs (score s)) s rest in
    if Direction_eqb (Signal.direction best) bullish
       && negb (Portfolio.holds coin (portfolio ex)) then
      let amount :=
        (Portfolio.cash (portfolio ex) * (_position_size_pct self / 100))%Q in
      if Qlt_bool 1 amount then execute_buy ex coin amount current_candle
      else Ok ex
    else if Direction_eqb (Signal.direction best) bearish
            && Portfolio.holds coin (portfolio ex) then
      execute_sell ex coin current_candle
    else Ok ex
  end.

(** One iteration of [for i in range(30, len(candles))]. *)
Definition step (candles : list Candle.t) (st : LoopState) (i : nat)
    : result LoopState :=
  let window := take (i + 1) candles in
  current_candle <- index candles i ;;
  let coin := Candle.coin current_candle in
  signals <- process ta (_indicator_params self) window ;;
  ex <- act (executor st) signals coin current_candle ;;
  let value := mark_to_market (portfolio ex) (Candle.close current_candle) in
  let point :=
    {| time := Candle.timestamp current_candle;
       value := round_nd value 2 |} in
  let '(peak, max_drawdown) :=
    track_drawdown (peak st) (max_drawdown st) value in
  Ok {| executor := ex;
        curve := curve st ++ [point];
        peak := peak;
        max_drawdown := max_drawdown |}.

Fixpoint loop (candles : list Candle.t) (indices : list nat)
    (st : LoopState) : result LoopState :=
  match indices with
  | [] => Ok st
  | i :: indices =>
    st <- step candles st i ;;
    loop candles indices st
  end.

Fixpoint _count_wins_losses_go (trades : list Trade.t)
    (buy_prices : gmap string Q) (wins losses : nat) : nat * nat :=
  match trades with
  | [] => (wins, losses)
  | trade :: trades =>
    let coin := Trade.coin trade in
    match Trade.side trade with
    | buy =>
      _count_wins_losses_go trades (<[coin := Trade.price trade]> buy_prices)
                            wins losses
    | sell =>
      match buy_prices !! coin with
      | Some bought =>
        if Qlt_bool bought (Trade.price trade)
        then _count_wins_losses_go trades (delete coin buy_prices)
                                   (S wins) losses
        else _count_wins_losses_go trades (delete coin buy_prices)
                                   wins (S losses)
      | None => _count_wins_losses_go trades buy_prices wins losses
      end
    end
  end.

Definition _count_wins_losses (trades : list Trade.t) : nat * nat :=
  _count_wins_losses_go trades ∅ 0%nat 0%nat.

Definition initial (first : Candle.t) : LoopState :=
  {| executor :=
       {| portfolio :=
            {| Portfolio.cash := _capital self; Portfolio.positions := [] |};
          closed := [];
          trades := [] |};
     curve := [{| time := Candle.timestamp first; value := _capital self |}];
     peak := _capital self;
     max_drawdown := 0 |}.

Definition run (candles : list Candle.t) : result BacktestReport :=
  first <- index candles 0 ;;
  final <- index_neg candles 1 ;;
  let buy_hold_start := Candle.close first in
  let buy_hold_end := Candle.close final in
  st <- loop candles (seq 30 (length candles - 30)) (initial first) ;;
  let ex := executor st in
  let final_value := mark_to_market (portfolio ex) (Candle.close final) in
  total <- Py.div (final_value - _capital self) (_capital self) ;;
  let total_return_pct := (total * 100)%Q in
  hold <- Py.div (buy_hold_end - buy_hold_start) buy_hold_start ;;
  let buy_hold_return_pct := (hold * 100)%Q in
  let '(wins, losses) := _count_wins_losses (trades ex) in
  Ok {| starting_capital := _capital self;
        final_value := final_value;
        total_return_pct := total_return_pct;
        buy_hold_return_pct := buy_hold_return_pct;
        trade_count := length (trades ex);
        win_count := wins;
        loss_count := losses;
        report_trades := trades ex;
        equity_curve := curve st;
        max_drawdown_pct := round_nd (max_drawdown st) 2 |}.

End Runner.

End Backtesting.

(** ** [analytics/api.py] and the form that posts to it *)

Module Api.
Import Technical Backtesting.

(** [type Params] of [app/backtest/page.tsx]: the JSON body of
    [POST /api/backtest/run]. *)
Record Params : Type := {
  p_name : string;
  p_symbol : string;
  p_timeframe : string;
  p_days : Z;
  p_capital : Q;
  p_position_size_pct : Q;
  p_use_rsi : bool;
  p_rsi_period : Z;
  p_rsi_oversold : Z;
  p_rsi_overbought : Z;
  p_use_macd : bool;
  p_macd_fast : Z;
  p_macd_slow : Z;
  p_macd_signal : Z;
  p_use_sma : bool;
  p_sma_short : Z;
  p_sma_long : Z;
  p_stop_loss_pct : option Q;
  p_take_profit_pct : option Q
}.

(** [class BacktestRequest(BaseModel)]. *)
Record BacktestRequest : Type := {
  name : option string;
  symbol : string;
  timeframe : string;
  days : Z;
  capital : Q;
  position_size_pct : Q;
  rsi_period : Z;
  rsi_oversold : Z;
  rsi_overbought : Z;
  macd_fast : Z;
  macd_slow : Z;
  macd_signal : Z;
  sma_short : Z;
  sma_long : Z
}.

(** The request model built from the posted body: the declared fields are
    read, the keys the model does not declare are dropped. *)
Definition parse_body (body : Params) : BacktestRequest :=
  {| name := Some (p_name body);
     symbol := p_symbol body;
     timeframe := p_timeframe body;
     days := p_days body;
     capital := p_capital body;
     position_size_pct := p_position_size_pct body;
     rsi_period := p_rsi_period body;
     rsi_oversold := p_rsi_oversold body;
     rsi_overbought := p_rsi_overbought body;
     macd_fast := p_macd_fast body;
     macd_slow := p_macd_slow body;
     macd_signal := p_macd_signal body;
     sma_short := p_sma_short body;
     sma_long := p_sma_long body |}.

(** [set("use_rsi", a)], [set("use_macd", b)] and [set("use_sma", c)] of the
    form. *)
Definition set_toggles (use_rsi use_macd use_sma : bool) (p : Params) : Params :=
  {| p_name := p_name p;
     p_symbol := p_symbol p;
     p_timeframe := p_timeframe p;
     p_days := p_days p;
     p_capital := p_capital p;
     p_position_size_pct := p_position_size_pct p;
     p_use_rsi := use_rsi;
     p_rsi_period := p_rsi_period p;
     p_rsi_oversold := p_rsi_oversold p;
     p_rsi_overbought := p_rsi_overbought p;
     p_use_macd := use_macd;
     p_macd_fast := p_macd_fast p;
     p_macd_slow := p_macd_slow p;
     p_macd_signal := p_macd_signal p;
     p_use_sma := use_sma;
     p_sma_short := p_sma_short p;
     p_sma_long := p_sma_long p;
     p_stop_loss_pct := p_stop_loss_pct p;
     p_take_profit_pct := p_take_profit_pct p |}.

(** [set("stop_loss_pct", a)] and [set("take_profit_pct", b)] of the form. *)
Definition set_risk (stop_loss_pct take_profit_pct : option Q) (p : Params)
    : Params :=
  {| p_name := p_name p;
     p_symbol := p_symbol p;
     p_timeframe := p_timeframe p;
     p_days := p_days p;
     p_capital := p_capital p;
     p_position_size_pct := p_position_size_pct p;
     p_use_rsi := p_use_rsi p;
     p_rsi_period := p_rsi_period p;
     p_rsi_oversold := p_rsi_oversold p;
     p_rsi_overbought := p_rsi_overbought p;
     p_use_macd := p_use_macd p;
     p_macd_fast := p_macd_fast p;
     p_macd_slow := p_macd_slow p;
     p_macd_signal := p_macd_signal p;
     p_use_sma := p_use_sma p;
     p_sma_short := p_sma_short p;
     p_sma_long := p_sma_long p;
     p_stop_loss_pct := stop_loss_pct;
     p_take_profit_pct := take_profit_pct |}.

Record Results : Type := {
  r_total_return_pct : Q;
  r_buy_hold_return_pct : Q;
  r_final_value : Q;
  r_trade_count : nat;
  r_win_count : nat;
  r_loss_count : nat;
  r_win_rate : Q;
  r_max_drawdown_pct : Q;
  r_equity_curve : list EquityPoint
}.

Definition make_runner (req : BacktestRequest) : BacktestRunner :=
  {| _capital := capital req;
     _position_size_pct := position_size_pct req;
     _indicator_params :=
       {| _rsi_period := rsi_period req;
          _rsi_oversold := rsi_oversold req;
          _rsi_overbought := rsi_overbought req;
          _macd_fast := macd_fast req;
          _macd_slow := macd_slow req;
          _macd_signal := macd_signal req;
          _sma_short := sma_short req;
          _sma_long := sma_long req |} |}.

Section Endpoint.
Variable ta : TaLib.
Variable score : Signal.t -> Q.

(** [run_backtest(req)]; [candles] is what [_fetch_candles] returned.
    The result is the row written to [backtest_runs]: the dumped request
    and the results document. *)
Definition run_backtest (req : BacktestRequest) (candles : list Candle.t)
    : result (BacktestRequest * Results) :=
  if (length candles <? 30)%nat then Raise (HTTPException 400)
  else
    report <- run ta score (make_runner req) candles ;;
    let results :=
      {| r_total_return_pct := round_nd (total_return_pct report) 2;
         r_buy_hold_return_pct := round_nd (buy_hold_return_pct report) 2;
         r_final_value := round_nd (final_value report) 2;
         r_trade_count := trade_count report;
         r_win_count := win_count report;
         r_loss_count := loss_count report;
         r_win_rate := round_nd (win_rate report) 4;
         r_max_drawdown_pct := max_drawdown_pct report;
         r_equity_curve := equity_curve report |} in
    Ok (req, results).

End Endpoint.

End Api.

(** ** [app/backtest/compare/page.tsx] *)

Module Compare.

Section Js.
(** JavaScript numbers; the page only renders them with [String]. *)
Variable number : Type.
Variable Number_toString : number -> string.

(** [number | string], and [undefined] for a key that is absent. *)
Inductive value : Type :=
| Undefined
| Num (n : number)
| Str (s : string).

(** [String(v)]. *)
Definition String (v : value) : string :=
  match v with
  | Undefined => "undefined"
  | Num n => Number_toString n
  | Str s => s
  end.

Record Point : Type := { time : string; point_value : number }.

Record Results : Type := {
  total_return_pct : number;
  buy_hold_return_pct : number;
  final_value : number;
  trade_count : number;
  win_count : number;
  loss_count : number;
  win_rate : number;
  max_drawdown_pct : number;
  equity_curve : list Point
}.

Record Run : Type := {
  id : string;
  name : option string;
  symbol : string;
  days : number;
  params : gmap string value;
  results : Results;
  created_at : string
}.

(** [r.params[key]]. *)
Definition param (r : Run) (key : string) : value :=
  default Undefined (params r !! key).

Definition PARAM_LABELS : list (string * string) :=
  [ ("capital", "Capital");
    ("position_size_pct", "Position Size %");
    ("rsi_period", "RSI Period");
    ("rsi_oversold", "RSI Oversold");
    ("rsi_overbought", "RSI Overbought");
    ("macd_fast", "MACD Fast");
    ("macd_slow", "MACD Slow");
    ("macd_signal", "MACD Signal");
    ("sma_short", "SMA Short");
    ("sma_long", "SMA Long");
    ("days", "Lookback Days") ].

(** [Object.keys(PARAM_LABELS)]. *)
Definition allParamKeys : list string := PARAM_LABELS.*1.

(** [allParamKeys.filter(key => new Set(values.map(String)).size > 1)]. *)
Definition diffParams (runs : list Run) : list string :=
  filter (fun key =>
            let values := map (fun r => param r key) runs in
            (1 < size (list_to_set (map String values) : gset string))%nat)
         allParamKeys.

(** [r.name || `Run ${idx + 1}`]. *)
Definition run_label (idx : nat) (r : Run) : string :=
  match name r with
  | Some n => if String.eqb n "" then "Run " +:+ pretty (idx + 1)%nat else n
  | None => "Run " +:+ pretty (idx + 1)%nat
  end.

(** The [metrics] array: label and the field of [results] it reads. *)
Definition metrics : list (string * (Results -> number)) :=
  [ ("Total Return %", total_return_pct);
    ("Buy & Hold %", buy_hold_return_pct);
    ("Final Value", final_value);
    ("Max Drawdown", max_drawdown_pct);
    ("Trades", trade_count);
    ("Win Rate", win_rate) ].

(** A rendered table: the header cells after the first one, and the rows,
    each a label followed by its cells. *)
Record Table (cell : Type) : Type := {
  columns : list string;
  rows : list (string * list cell)
}.
Arguments columns {cell} _.
Arguments rows {cell} _.

Record View : Type := {
  metrics_table : Table number;
  diff_table : option (Table value)
}.

(** What [CompareContent] renders once the runs are loaded; [None] is the
    "Select at least 2 runs to compare." message. *)
Definition CompareContent (runs : list Run) : option View :=
  if (length runs <? 2)%nat then None
  else
    let labels := imap run_label runs in
    Some
      {| metrics_table :=
           {| columns := labels;
              rows := map (fun m => (fst m, map (fun r => snd m (results r)) runs))
                          metrics |};
         diff_table :=
           if (0 <? length (diffParams runs))%nat then
             Some {| columns := labels;
                     rows := map (fun key =>
                                    (default key (snd <$> find (fun kv => String.eqb key (fst kv)) PARAM_LABELS),
                                     map (fun r => param r key) runs))
                                 (diffParams runs) |}
           else None |}.

End Js.

Arguments Undefined {number}.
Arguments Num {number} n.
Arguments Str {number} s.
Arguments String {number} Number_toString v.
Arguments params {number} r.
Arguments results {number} r.
Arguments name {number} r.
Arguments param {number} r key.
Arguments diffParams {number} Number_toString runs.
Arguments run_label {number} idx r.
Arguments CompareContent {number} Number_toString runs.
Arguments metrics_table {number} v.
Arguments diff_table {number} v.
Arguments columns {cell} t.
Arguments rows {cell} t.

End Compare.

(** ** The history page: the comparison selection *)

Module History.

(** [toggle(id)], as the update it passes to [setSelected]. *)
Definition toggle (id : string) (prev : gset string) : gset string :=
  let next := prev in
  if decide (id ∈ next) then next ∖ {[id]}
  else if decide (size next < 5)%nat then next ∪ {[id]}
  else next.

(** The selection after a sequence of clicks on rows, from the initial
    [new Set()]. *)
Definition after_clicks (ids : list string) : gset string :=
  foldl (fun selected id => toggle id selected) ∅ ids.

End History.

(** ** A concrete indicator library and concrete inputs for the examples

    [pandas_ta] is an external library: every statement below quantifies over
    an arbitrary [TaLib].  The closed examples run the engine with the
    textbook indicators: simple moving average, relative strength from the
    summed gains and losses of the look-back, and MACD from exponential
    averages seeded with a simple average. *)

Module Textbook.
Import Technical.

Definition total (xs : list Q) : Q := fold_left Qplus xs 0%Q.

Definition mean (xs : list Q) : Q :=
  Qred (total xs / inject_Z (Z.of_nat (length xs))).

(** The value of [f] on the trailing [n] items at every index that has
    them, NaN before. *)
Definition rolling (n : nat) (f : list Q -> option Q) (xs : list Q) : Series :=
  map (fun i => if (S i <? n)%nat then None
                else f (drop (S i - n) (take (S i) xs)))
      (seq 0 (length xs)).

Definition sma (close : list Q) (len : Z) : option Series :=
  let n := Z.to_nat len in
  if (n =? 0)%nat || (length close <? n)%nat then None
  else Some (rolling n (fun w => Some (mean w)) close).

Definition diffs (xs : list Q) : list Q :=
  zip_with (fun prev cur => (cur - prev)%Q) xs (drop 1 xs).

Definition strength (w : list Q) : option Q :=
  let gains := total (map (fun d => if Qlt_bool 0 d then d else 0%Q) (diffs w)) in
  let losses := total (map (fun d => if Qlt_bool d 0 then (- d)%Q else 0%Q) (diffs w)) in
  if Qeq_bool (gains + losses) 0 then None
  else Some (Qred (100 * gains / (gains + losses))).

Definition rsi (close : list Q) (len : Z) : option Series :=
  let n := Z.to_nat len in
  if (n =? 0)%nat || (length close <? n)%nat then None
  else Some (rolling (S n) strength close).

Fixpoint ema_from (alpha prev : Q) (xs : list Q) : list Q :=
  match xs with
  | [] => []
  | x :: xs =>
    let e := Qred (alpha * x + (1 - alpha) * prev) in
    e :: ema_from alpha e xs
  end.

Definition ema (n : nat) (xs : list Q) : Series :=
  if (length xs <? n)%nat || (n =? 0)%nat then replicate (length xs) None
  else
    let seed := mean (take n xs) in
    let alpha := (2 # Pos.of_nat (S n)) in
    replicate (n - 1) None
      ++ Some seed :: map Some (ema_from alpha seed (drop n xs)).

Definition minus (a b : option Q) : option Q :=
  match a, b with
  | Some x, Some y => Some (Qred (x - y))
  | _, _ => None
  end.

Definition macd (close : list Q) (fast slow signal : Z) : option Series :=
  let line :=
    zip_with minus (ema (Z.to_nat fast) close) (ema (Z.to_nat slow) close) in
  let defined := omap id line in
  let undefined := (length line - length defined)%nat in
  let smoothed := ema (Z.to_nat signal) defined in
  if (length close <? Z.to_nat slow)%nat then None
  else Some (replicate undefined None
               ++ zip_with minus (map Some defined) smoothed).

Definition ta : TaLib :=
  {| ta_rsi := rsi; ta_macd := macd; ta_sma := sma |}.

(** A signed score: the confidence, negated for a bearish signal. *)
Definition score (s : Signal.t) : Q :=
  match Signal.direction s with
  | bullish => inject_Z (Signal.confidence s)
  | bearish => inject_Z (- Signal.confidence s)
  end.

End Textbook.

Module Examples.
Import Technical Backtesting Api.

(** Hourly BTC/USD candles with the given closes. *)
Definition candles_of (closes : list Q) : list Candle.t :=
  imap (fun i c =>
          {| Candle.coin := "BTC/USD";
             Candle.timeframe := "1h";
             Candle.open := c;
             Candle.high := (c + 100)%Q;
             Candle.low := (c - 100)%Q;
             Candle.close := c;
             Candle.volume := 1000%Q;
             Candle.timestamp := 1704067200 + 3600 * Z.of_nat i |})
       closes.

(** Closes that fall faster and faster: [50000 - 10 * i * i] for [i < n]. *)
Definition falling_closes (n : nat) : list Q :=
  map (fun i => inject_Z (50000 - 10 * Z.of_nat i * Z.of_nat i)) (seq 0 n).

Definition falling (n : nat) : list Candle.t := candles_of (falling_closes n).

(** [DEFAULTS] of the form. *)
Definition DEFAULTS : Params :=
  {| p_name := "";
     p_symbol := "BTC/USD";
     p_timeframe := "1h";
     p_days := 90;
     p_capital := 1000;
     p_position_size_pct := 20;
     p_use_rsi := true;
     p_rsi_period := 14;
     p_rsi_oversold := 30;
     p_rsi_overbought := 70;
     p_use_macd := true;
     p_macd_fast := 12;
     p_macd_slow := 26;
     p_macd_signal := 9;
     p_use_sma := true;
     p_sma_short := 10;
     p_sma_long := 20;
     p_stop_loss_pct := None;
     p_take_profit_pct := None |}.

(** The falling closes followed by the given ones. *)
Definition falling_then (closes : list Q) : list Candle.t :=
  candles_of (falling_closes 31 ++ closes).

(** [PRESETS.conservative] applied to the defaults. *)
Definition conservative : Params :=
  {| p_name := "";
     p_symbol := "BTC/USD";
     p_timeframe := "1h";
     p_days := 90;
     p_capital := 1000;
     p_position_size_pct := 10;
     p_use_rsi := true;
     p_rsi_period := 14;
     p_rsi_oversold := 25;
     p_rsi_overbought := 75;
     p_use_macd := true;
     p_macd_fast := 12;
     p_macd_slow := 26;
     p_macd_signal := 9;
     p_use_sma := true;
     p_sma_short := 20;
     p_sma_long := 50;
     p_stop_loss_pct := Some 3%Q;
     p_take_profit_pct := Some 8%Q |}.

(** [PRESETS.trend] applied to the defaults: "SMA crossovers only, no RSI". *)
Definition trend : Params :=
  {| p_name := "";
     p_symbol := "BTC/USD";
     p_timeframe := "1h";
     p_days := 90;
     p_capital := 1000;
     p_position_size_pct := 20;
     p_use_rsi := false;
     p_rsi_period := 14;
     p_rsi_oversold := 30;
     p_rsi_overbought := 70;
     p_use_macd := true;
     p_macd_fast := 12;
     p_macd_slow := 26;
     p_macd_signal := 9;
     p_use_sma := true;
     p_sma_short := 10;
     p_sma_long := 30;
     p_stop_loss_pct := Some 5%Q;
     p_take_profit_pct := Some 15%Q |}.


(** An indicator library in the state where the three indicators return the
    given series: [rsi], the MACD histogram [hist], and [sma len] for the SMA
    of length [len]. *)
Definition readings (rsi hist : Series) (sma : Z -> Series) : TaLib :=
  {| ta_rsi := fun _ _ => Some rsi;
     ta_macd := fun _ _ _ _ => Some hist;
     ta_sma := fun _ len => Some (sma len) |}.

(** The RSI reads [rsi]; the MACD frame and the SMA series are empty. *)
Definition reading (rsi : Q) : TaLib := readings [Some rsi] [] (fun _ => []).

(** The RSI reads 13.3 while the short SMA crosses above the long one. *)
Definition tied : TaLib :=
  readings [Some (133 # 10)] []
           (fun len => if len =? 10 then [Some 1%Q; Some 3%Q]
                       else [Some 2%Q; Some 2%Q]).

Definition runner_of (body : Params) : BacktestRunner :=
  make_runner (parse_body body).

(** The state of the loop of [run] after the steps [indices]. *)
Definition state_after (body : Params) (candles : list Candle.t)
    (indices : list nat) : LoopState :=
  let start :=
    initial (runner_of body)
            (default (Candle.mk "" "" 0 0 0 0 0 0) (candles !! 0%nat)) in
  match loop Textbook.ta Textbook.score (runner_of body) candles indices start
  with
  | Ok st => st
  | Raise _ => start
  end.

(** Prices that recover after the fall: [41000 + 1500 * i] for [i = 1..12]. *)
Definition rally : list Candle.t :=
  falling_then (map (fun i => inject_Z (41000 + 1500 * Z.of_nat i)) (seq 1 12)).

(** 30 candles at 100 after a first candle at [first]. *)
Definition flat_after (first : Q) : list Candle.t :=
  candles_of (first :: replicate 29 100%Q).

Definition default_processor : TechnicalProcessor :=
  _indicator_params (make_runner (parse_body DEFAULTS)).

(** A stored run as the compare page fetches it: [params] is the dump of a
    default request for [symbol] with the given [rsi_oversold]; numbers are
    integers and print in decimal. *)
Definition stored_run (id symbol : string) (rsi_oversold : Z) : Compare.Run Z :=
  {| Compare.id := id;
     Compare.name := None;
     Compare.symbol := symbol;
     Compare.days := 90;
     Compare.params :=
       list_to_map
         [ ("name", Compare.Str "");
           ("symbol", Compare.Str symbol);
           ("timeframe", Compare.Str "1h");
           ("days", Compare.Num 90);
           ("capital", Compare.Num 1000);
           ("position_size_pct", Compare.Num 20);
           ("rsi_period", Compare.Num 14);
           ("rsi_oversold", Compare.Num rsi_oversold);
           ("rsi_overbought", Compare.Num 70);
           ("macd_fast", Compare.Num 12);
           ("macd_slow", Compare.Num 26);
           ("macd_signal", Compare.Num 9);
           ("sma_short", Compare.Num 10);
           ("sma_long", Compare.Num 20) ];
     Compare.results :=
       {| Compare.total_return_pct := 0;
          Compare.buy_hold_return_pct := -18;
          Compare.final_value := 1000;
          Compare.trade_count := 1;
          Compare.win_count := 0;
          Compare.loss_count := 0;
          Compare.win_rate := 0;
          Compare.max_drawdown_pct := 0;
          Compare.equity_curve := [] |};
     Compare.created_at := "2026-02-16T00:00:00+00:00" |}.

End Examples.

(** ** The wording of the specification, for comparison with the code *)

Module Wording.

(** Section 4.2: the RSI confidence is [min(100, round(gap * 3.3))]. *)
Definition rounded_confidence (gap : Q) : Z :=
  Z.min 100 (Py.round (gap * (33 # 10))).

(** What [_rsi_signals] computes: [min(100, int(gap * 3.3))]. *)
Definition truncated_confidence (gap : Q) : Z :=
  Z.min 100 (Py.int (gap * (33 # 10))).

(** Section 4.3 asks for a fixed source priority; the order in which
    [process] appends the signals is RSI, MACD, SMA. *)
Definition source_priority (s : Signal.t) : nat :=
  let source := Signal.source s in
  if String.eqb source "technical/rsi_oversold"
     || String.eqb source "technical/rsi_overbought" then 0
  else if String.eqb source "technical/macd_crossover" then 1
  else if String.eqb source "technical/sma_golden_cross"
          || String.eqb source "technical/sma_death_cross" then 2
  else 3.

(** The unrounded portfolio values the loop of [run] marks, one per step. *)
Fixpoint marked_values (ta : Technical.TaLib) (score : Signal.t -> Q)
    (self : Backtesting.BacktestRunner) (candles : list Candle.t)
    (indices : list nat) (st : Backtesting.LoopState) : list Q :=
  match indices with
  | [] => []
  | i :: indices =>
    match Backtesting.step ta score self candles st i, index candles i with
    | Ok st', Ok candle =>
      Backtesting.mark_to_market
        (Backtesting.portfolio (Backtesting.executor st'))
        (Candle.close candle)
        :: marked_values ta score self candles indices st'
    | _, _ => []
    end
  end.

(** Section 4.5: at each step the running peak is updated and the drawdown
    is [(peak - value) / peak * 100] when the peak is positive. *)
Fixpoint drawdowns (peak : Q) (values : list Q) : list Q :=
  match values with
  | [] => []
  | value :: values =>
    let peak := if Qlt_bool peak value then value else peak in
    (if Qlt_bool 0 peak then ((peak - value) / peak * 100)%Q else 0%Q)
      :: drawdowns peak values
  end.

(** The running maximum, from 0. *)
Definition running_max (xs : list Q) : Q :=
  fold_left (fun m x => if Qlt_bool m x then x else m) xs 0%Q.

(** Section 8: the sequence never falls below its running peak. *)
Fixpoint never_below (peak : Q) (values : list Q) : bool :=
  match values with
  | [] => true
  | value :: values =>
    Qle_bool peak value
    && never_below (if Qlt_bool peak value then value else peak) values
  end.

Definition curve_never_below_peak (curve : list Backtesting.EquityPoint)
    : bool :=
  match map Backtesting.value curve with
  | [] => true
  | first :: values => never_below first values
  end.

(** An exception raised by the engine itself, as opposed to the HTTP error
    the endpoint raises. *)
Definition engine_error (e : exn) : Prop :=
  match e with
  | HTTPException _ => False
  | _ => True
  end.

End Wording.

(** ** More of the sources

    The rest of [analytics/api.py] ([_fetch_candles], [get_run], [list_runs],
    [_summary]), the equity-curve merge and the [ids] parameter of the
    compare page, [compare()] of the history page, and the presets of the
    form of [app/backtest/page.tsx]. *)

(** *** [app/backtest/page.tsx]: the form state and its presets *)

Module Form.

(** The values the form keeps in [params]; [JUndefined] is what reading an
    absent key gives. *)
Inductive js : Type :=
| JUndefined
| JNull
| JBool (b : bool)
| JNum (n : Q)
| JStr (s : string).

(** [!!v]. *)
Definition truthy (v : js) : bool :=
  match v with
  | JUndefined | JNull => false
  | JBool b => b
  | JNum n => negb (Qeq_bool n 0)
  | JStr s => negb (String.eqb s "")
  end.

(** [o[key]]. *)
Definition prop (o : gmap string js) (key : string) : js :=
  default JUndefined (o !! key).

Definition DEFAULTS : gmap string js :=
  list_to_map
    [ ("name", JStr "");
      ("symbol", JStr "BTC/USD");
      ("timeframe", JStr "1h");
      ("days", JNum 90);
      ("capital", JNum 1000);
      ("position_size_pct", JNum 20);
      ("use_rsi", JBool true);
      ("rsi_period", JNum 14);
      ("rsi_oversold", JNum 30);
      ("rsi_overbought", JNum 70);
      ("use_macd", JBool true);
      ("macd_fast", JNum 12);
      ("macd_slow", JNum 26);
      ("macd_signal", JNum 9);
      ("use_sma", JBool true);
      ("sma_short", JNum 10);
      ("sma_long", JNum 20);
      ("stop_loss_pct", JNull);
      ("take_profit_pct", JNull) ].

Record Preset : Type := {
  label : string;
  description : string;
  preset_params : gmap string js
}.

Definition PRESETS : list (string * Preset) :=
  [ ("default",
     {| label := "Default";
        description := "Balanced RSI + MACD + SMA";
        preset_params := ∅ |});
    ("conservative",
     {| label := "Conservative";
        description := "Tight stops, smaller positions";
        preset_params :=
          list_to_map
            [ ("position_size_pct", JNum 10);
              ("rsi_oversold", JNum 25);
              ("rsi_overbought", JNum 75);
              ("sma_short", JNum 20);
              ("sma_long", JNum 50);
              ("stop_loss_pct", JNum 3);
              ("take_profit_pct", JNum 8) ] |});
    ("aggressive",
     {| label := "Aggressive";
        description := "Large positions, wide thresholds";
        preset_params :=
          list_to_map
            [ ("position_size_pct", JNum 40);
              ("rsi_oversold", JNum 35);
              ("rsi_overbought", JNum 65);
              ("sma_short", JNum 5);
              ("sma_long", JNum 15);
              ("stop_loss_pct", JNull);
              ("take_profit_pct", JNull) ] |});
    ("trend",
     {| label := "Trend Following";
        description := "SMA crossovers only, no RSI";
        preset_params :=
          list_to_map
            [ ("use_rsi", JBool false);
              ("use_macd", JBool true);
              ("use_sma", JBool true);
              ("sma_short", JNum 10);
              ("sma_long", JNum 30);
              ("stop_loss_pct", JNum 5);
              ("take_profit_pct", JNum 15) ] |});
    ("momentum",
     {| label := "Momentum";
        description := "RSI + MACD, no SMA";
        preset_params :=
          list_to_map
            [ ("use_rsi", JBool true);
              ("use_macd", JBool true);
              ("use_sma", JBool false);
              ("rsi_period", JNum 10);
              ("rsi_oversold", JNum 25);
              ("rsi_overbought", JNum 75);
              ("macd_fast", JNum 8);
              ("macd_slow", JNum 21);
              ("macd_signal", JNum 5);
              ("stop_loss_pct", JNum 4);
              ("take_profit_pct", JNum 10) ] |}) ].

(** [PRESETS[key]] for the keys the page passes, those of the entries of
    [PRESETS] (line 272); [None] is [undefined]. *)
Definition preset_of (key : string) : option Preset :=
  snd <$> find (fun kv => String.eqb key (fst kv)) PRESETS.

(** The state of [BacktestPage] that the presets and the button read. *)
Record State : Type := {
  params : gmap string js;
  loading : bool;
  activePreset : string
}.

Definition initial : State :=
  {| params := DEFAULTS; loading := false; activePreset := "default" |}.

(** [set(key, value)]: [{ ...p, [key]: value }]. *)
Definition set (key : string) (value : js) (st : State) : State :=
  {| params := <[key := value]> (params st);
     loading := loading st;
     activePreset := activePreset st |}.

(** [{ ...a, ...b }]: the keys of [b] win. *)
Definition spread (a b : gmap string js) : gmap string js := b ∪ a.

(** [applyPreset(key)]. *)
Definition applyPreset (key : string) (st : State) : State :=
  match preset_of key with
  | None => st
  | Some preset =>
    let kept : gmap string js :=
      list_to_map
        [ ("name", prop (params st) "name");
          ("symbol", prop (params st) "symbol");
          ("timeframe", prop (params st) "timeframe");
          ("days", prop (params st) "days");
          ("capital", prop (params st) "capital") ] in
    {| params := spread (spread DEFAULTS kept) (preset_params preset);
       loading := loading st;
       activePreset := key |}
  end.

(** [resetDefaults()]. *)
Definition resetDefaults (st : State) : State :=
  {| params := DEFAULTS; loading := loading st; activePreset := "default" |}.

(** The "No indicators enabled" warning is shown. *)
Definition no_indicator (st : State) : bool :=
  negb (truthy (prop (params st) "use_rsi"))
  && negb (truthy (prop (params st) "use_macd"))
  && negb (truthy (prop (params st) "use_sma")).

(** The [disabled] attribute of the "Run Backtest" button. *)
Definition run_disabled (st : State) : bool :=
  loading st || no_indicator st.

End Form.

(** *** From the history page to the compare page *)

Module Navigation.
Import Stdlib.Strings.Ascii.

(** [xs.join(sep)]. *)
Fixpoint join (sep : string) (xs : list string) : string :=
  match xs with
  | [] => ""
  | [x] => x
  | x :: xs => x +:+ sep +:+ join sep xs
  end.

(** [s.split(sep)] for a separator of one character. *)
Fixpoint split (sep : Stdlib.Strings.Ascii.ascii) (s : string) : list string :=
  match s with
  | EmptyString => [""]
  | String c s =>
    if Stdlib.Strings.Ascii.eqb c sep then "" :: split sep s
    else
      match split sep s with
      | [] => [String c ""]
      | part :: parts => String c part :: parts
      end
  end.

(** The characters of a run id, a UUID in text form: letters, digits and
    hyphens. *)
Definition plain (c : Stdlib.Strings.Ascii.ascii) : bool :=
  let n := N_of_ascii c in
  ((48 <=? n) && (n <=? 57) || (65 <=? n) && (n <=? 90)
   || (97 <=? n) && (n <=? 122) || (n =? 45))%N.

(** [compare()] of the history page: the route it pushes, given
    [Array.from(selected)]. *)
Definition compare (selected : list string) : string :=
  "/backtest/compare?ids=" +:+ join "," selected.

(** [searchParams.get("ids")?.split(",") || []] of the compare page. *)
Definition ids_of (param : option string) : list string :=
  match param with
  | Some s => split ","%char s
  | None => []
  end.

(** The URLs the effect of [CompareContent] fetches. *)
Definition fetched (param : option string) : list string :=
  let ids := ids_of param in
  if (length ids <? 2)%nat then []
  else map (fun id => "/api/backtest/runs/" +:+ id) ids.

End Navigation.

Module Browser.
Import Stdlib.Strings.Ascii.

(** The text before the first [c], or all of [s]. *)
Fixpoint before (c : Stdlib.Strings.Ascii.ascii) (s : string) : string :=
  match s with
  | EmptyString => ""
  | String a s =>
    if Stdlib.Strings.Ascii.eqb a c then "" else String a (before c s)
  end.

(** The text after the first [c], if there is one. *)
Fixpoint after (c : Stdlib.Strings.Ascii.ascii) (s : string) : option string :=
  match s with
  | EmptyString => None
  | String a s => if Stdlib.Strings.Ascii.eqb a c then Some s else after c s
  end.

(** [+] read as a space. *)
Fixpoint spaces (s : string) : string :=
  match s with
  | EmptyString => ""
  | String a s =>
    String (if Stdlib.Strings.Ascii.eqb a "+"%char then " "%char else a)
           (spaces s)
  end.

(** A browser's [searchParams.get(name)] on the page a route leads to, for
    routes without percent escapes: the query is the text after the first
    [?] of the route cut at its first [#]; its non-empty parts, separated by
    [&], are split at their first [=]; the first part of that name gives the
    value, with [+] read as a space. *)
Definition searchParams_get (route name : string) : option string :=
  let query := default "" (after "?"%char (before "#"%char route)) in
  let parts :=
    filter (fun part => negb (String.eqb part ""))
           (Navigation.split "&"%char query) in
  let pairs :=
    map (fun part => (before "="%char part,
                      default "" (after "="%char part))) parts in
  (fun kv => spaces (snd kv))
    <$> find (fun kv => String.eqb (fst kv) name) pairs.

End Browser.

(** *** The merged equity curves of the compare page *)

Module Merge.

Section Curves.
Variable number : Type.

(** [row[label] = value] for a number [value], on a row that is an object
    literal: the key [__proto__] is the accessor of [Object.prototype], whose
    setter ignores a number, so that no key is created; any other key becomes
    a key of the row. *)
Definition assign (label : string) (value : Compare.value number)
    (row : gmap string (Compare.value number))
    : gmap string (Compare.value number) :=
  if String.eqb label "__proto__" then row else <[label := value]> row.

(** [timeMap.get(point.time)![label] = point.value], after the row
    [{ time: point.time }] is created when the time is new. *)
Definition add_point (label : string)
    (timeMap : gmap string (gmap string (Compare.value number)))
    (point : Compare.Point number)
    : gmap string (gmap string (Compare.value number)) :=
  let t := Compare.time number point in
  let row := default {[ "time" := Compare.Str t ]} (timeMap !! t) in
  <[t := assign label (Compare.Num (Compare.point_value number point)) row]>
    timeMap.

(** The body of [runs.forEach((run, idx) => ...)]. *)
Definition add_run
    (timeMap : gmap string (gmap string (Compare.value number)))
    (entry : nat * Compare.Run number)
    : gmap string (gmap string (Compare.value number)) :=
  foldl (add_point (Compare.run_label (fst entry) (snd entry))) timeMap
        (Compare.equity_curve number (Compare.results (snd entry))).

Definition timeMap (runs : list (Compare.Run number))
    : gmap string (gmap string (Compare.value number)) :=
  foldl add_run ∅ (imap pair runs).

(** [Array.from(timeMap.keys()).sort()]. *)
Definition times (runs : list (Compare.Run number)) : list string :=
  merge_sort String.le (elements (dom (timeMap runs))).

(** [mergedCurve]. *)
Definition mergedCurve (runs : list (Compare.Run number))
    : list (gmap string (Compare.value number)) :=
  map (fun t => default ∅ (timeMap runs !! t)) (times runs).

End Curves.

Arguments assign {number} label value row.
Arguments add_point {number} label timeMap point.
Arguments add_run {number} timeMap entry.
Arguments timeMap {number} runs.
Arguments times {number} runs.
Arguments mergedCurve {number} runs.

End Merge.

(** *** [analytics/api.py]: fetching candles, reading stored runs *)

Module Loader.

Section Fetch.
(** [CoinbaseLoader.fetch_candles(symbol, timeframe, since, limit)], an
    external call that returns a batch or raises. *)
Variable fetch_candles : string -> string -> Z -> nat -> result (list Candle.t).
(** [time.time()]. *)
Variable now : Q.

(** The [while True] loop of [_fetch_candles]; [None] when [fuel] requests
    were not enough to leave it. *)
Fixpoint pages (fuel : nat) (symbol timeframe : string) (current_since : Z)
    (all_candles : list Candle.t) : option (result (list Candle.t)) :=
  match fuel with
  | O => None
  | S fuel =>
    match fetch_candles symbol timeframe current_since 300 with
    | Raise e => Some (Raise e)
    | Ok batch =>
      match last batch with
      | None => Some (Ok all_candles)
      | Some final =>
        let all_candles := all_candles ++ batch in
        let current_since := Candle.timestamp final * 1000 + 1 in
        if (length batch <? 300)%nat then Some (Ok all_candles)
        else pages fuel symbol timeframe current_since all_candles
      end
    end
  end.

Definition _fetch_candles (fuel : nat) (symbol timeframe : string) (days : Z)
    : option (result (list Candle.t)) :=
  let since := Py.int ((now - inject_Z (days * 86400)) * 1000) in
  pages fuel symbol timeframe since [].

End Fetch.

End Loader.

Module Storage.

Section Db.
(** JSON values, and [json.loads] restricted to documents. *)
Variable json : Type.
Variable json_loads : string -> gmap string json.

(** A [jsonb] column as the driver hands it over: text or a dict. *)
Inductive Column : Type :=
| Text (s : string)
| Document (d : gmap string json).

(** [json.loads(x) if isinstance(x, str) else x]. *)
Definition load (x : Column) : gmap string json :=
  match x with
  | Text s => json_loads s
  | Document d => d
  end.

(** [_summary(results)]. *)
Definition _summary (results : Column) : gmap string json :=
  filter (fun kv => fst kv <> "equity_curve") (load results).

(** A row of [backtest_runs]. *)
Record Row : Type := {
  id : string;
  name : option string;
  symbol : string;
  timeframe : string;
  days : Z;
  params : Column;
  results : Column;
  created_at : Z
}.

(** The dict [get_run] and [list_runs] return for a row. *)
Record View : Type := {
  v_id : string;
  v_name : option string;
  v_symbol : string;
  v_timeframe : string;
  v_days : Z;
  v_params : gmap string json;
  v_results : gmap string json;
  v_created_at : Z
}.

(** The rows of [SELECT ... FROM backtest_runs ORDER BY created_at DESC
    LIMIT 100]: the 100 most recent rows of the table, newest first (rows
    created at the same time in the order the table lists them). *)
Definition recent (table : list Row) : list Row :=
  take 100
       (@merge_sort Row (fun a b => created_at b <= created_at a)
                    (fun a b => Z.le_dec (created_at b) (created_at a))
                    table).

(** [list_runs()]; [rows] is what the [SELECT ... LIMIT 100] returned. *)
Definition list_runs (rows : list Row) : list View :=
  map (fun r =>
         {| v_id := id r;
            v_name := name r;
            v_symbol := symbol r;
            v_timeframe := timeframe r;
            v_days := days r;
            v_params := load (params r);
            v_results := _summary (results r);
            v_created_at := created_at r |})
      rows.

(** [get_run(run_id)] over the rows of the table: [fetchrow] gives the row
    with that id or [None]. *)
Definition get_run (table : list Row) (run_id : string) : result View :=
  match find (fun r => String.eqb (id r) run_id) table with
  | None => Raise (HTTPException 404)
  | Some row =>
    Ok {| v_id := id row;
          v_name := name row;
          v_symbol := symbol row;
          v_timeframe := timeframe row;
          v_days := days row;
          v_params := load (params row);
          v_results := load (results row);
          v_created_at := created_at row |}
  end.

End Db.

Arguments Text {json} s.
Arguments Document {json} d.
Arguments load {json} json_loads x.
Arguments _summary {json} json_loads results.
Arguments recent {json} table.
Arguments list_runs {json} json_loads rows.
Arguments get_run {json} json_loads table run_id.
Arguments id {json} r.
Arguments results {json} r.
Arguments params {json} r.
Arguments v_id {json} v.
Arguments v_results {json} v.
Arguments v_params {json} v.

End Storage.

(** *** Bookkeeping for the statements about the runner *)

Module Ledger.

(** The [buy_prices] dict of [_count_wins_losses] once [trades] are read. *)
Fixpoint open_buys (trades : list Trade.t) (buy_prices : gmap string Q)
    : gmap string Q :=
  match trades with
  | [] => buy_prices
  | trade :: trades =>
    match Trade.side trade with
    | buy =>
      open_buys trades (<[Trade.coin trade := Trade.price trade]> buy_prices)
    | sell => open_buys trades (delete (Trade.coin trade) buy_prices)
    end
  end.

Definition is_buy (t : Trade.t) : bool :=
  match Trade.side t with
  | buy => true
  | sell => false
  end.

Definition buys (trades : list Trade.t) : list Trade.t :=
  filter (fun t => is_buy t) trades.

Definition sells (trades : list Trade.t) : list Trade.t :=
  filter (fun t => negb (is_buy t)) trades.

End Ledger.

(** *** Predicates used in the statements about signals *)

Module Checks.

(** A signal of the technical processor for [coin] at [now]. *)
Definition wellformed (coin : string) (now : Z) (s : Signal.t) : Prop :=
  0 <= Signal.confidence s <= 100
  /\ Signal.coin s = coin
  /\ Signal.timestamp s = now
  /\ Signal.expires_at s = now + 3600
  /\ String.prefix "technical/" (Signal.source s) = true.

End Checks.

(** *** A candle source for the examples of [_fetch_candles] *)

Module Exchange.

(** A loader that serves, from a stored series, the first [limit] candles
    at or after [since] (in milliseconds). *)
Definition serve (store : list Candle.t) (symbol timeframe : string)
    (since : Z) (limit : nat) : result (list Candle.t) :=
  Ok (take limit
        (filter (fun c => since <= Candle.timestamp c * 1000) store)).

End Exchange.

(** * Properties *)

(** ** Python arithmetic *)

Section PyFacts.

Lemma Qlt_bool_iff (a b : Q) : Qlt_bool a b = true <-> (a < b)%Q.
Proof.
  unfold Qlt_bool. rewrite negb_true_iff. split.
  - intros H. apply Qnot_le_lt. intros Hle.
    apply Qle_bool_iff in Hle. congruence.
  - intros H. destruct (Qle_bool b a) eqn:E; [|reflexivity].
    apply Qle_bool_iff in E. exfalso. exact (Qlt_not_le _ _ H E).
Qed.

Lemma Qlt_bool_false (a b : Q) : Qlt_bool a b = false <-> (b <= a)%Q.
Proof.
  unfold Qlt_bool. rewrite negb_false_iff. apply Qle_bool_iff.
Qed.

Lemma int_nonneg (x : Q) : (0 <= x)%Q -> Py.int x = Qfloor x.
Proof.
  intros H. unfold Py.int. apply Qle_bool_iff in H. now rewrite H.
Qed.

Lemma Qfloor_nonneg (x : Q) : (0 <= x)%Q -> 0 <= Qfloor x.
Proof.
  intros H. change 0 with (Qfloor 0). now apply Qfloor_resp_le.
Qed.

Lemma round_nonneg (x : Q) : (0 <= x)%Q -> 0 <= Py.round x.
Proof.
  intros H. pose proof (Qfloor_nonneg x H). unfold Py.round.
  repeat match goal with |- context [if ?b then _ else _] => destruct b end;
    lia.
Qed.

Lemma round_nd_nonneg (x : Q) (n : nat) : (0 <= x)%Q -> (0 <= round_nd x n)%Q.
Proof.
  intros H. unfold round_nd. rewrite Qred_correct.
  assert (Hs : (0 < inject_Z (10 ^ Z.of_nat n))%Q).
  { change 0%Q with (inject_Z 0). rewrite <- Zlt_Qlt.
    apply Z.pow_pos_nonneg; lia. }
  apply Qle_shift_div_l; [exact Hs|].
  rewrite Qmult_0_l. change 0%Q with (inject_Z 0). rewrite <- Zle_Qle.
  apply round_nonneg. apply Qmult_le_0_compat; [exact H|].
  now apply Qlt_le_weak.
Qed.

Example int_truncates :
  Py.int (165 # 100) = 1 /\ Py.int (-3 # 2) = -1 /\ Py.int 5 = 5.
Proof. repeat split. Qed.

Example round_to_even :
  Py.round (165 # 100) = 2 /\ Py.round (5 # 2) = 2 /\ Py.round (7 # 2) = 4.
Proof. repeat split. Qed.

Example round_nd_cents :
  round_nd (1 # 1000) 2 = 0%Q /\ round_nd (99999 # 100) 2 = (99999 # 100)%Q.
Proof. repeat split. Qed.

End PyFacts.

(** ** The RSI rule of the signal generator *)

Section RsiSignals.
Import Technical Wording.
Variable ta : TaLib.
Variable self : TechnicalProcessor.

(** C7 as the specification words it: the confidence is
    [min(100, round(gap * 3.3))]. *)
Definition rounded_confidence (gap : Q) : Z :=
  Z.min 100 (Py.round (gap * (33 # 10))).

(** What the code computes: [min(100, int(gap * 3.3))]. *)
Definition truncated_confidence (gap : Q) : Z :=
  Z.min 100 (Py.int (gap * (33 # 10))).

(** C7 (amended): at a step where the RSI value is defined, a reading below
    the oversold threshold gives exactly one bullish RSI signal, otherwise
    a reading above the overbought threshold gives exactly one bearish RSI
    signal, otherwise there is no RSI signal; the confidence is
    [min(100, int(gap * 3.3))], the gap truncated and not rounded. *)
Theorem rsi_signals_truncated_confidence
    (df : DataFrame) (coin : string) (now : Z) (rsi : Series) (current : Q) :
  ta_rsi ta (df_close df) (_rsi_period self) = Some rsi ->
  last rsi = Some (Some current) ->
  let oversold := inject_Z (_rsi_oversold self) in
  let overbought := inject_Z (_rsi_overbought self) in
  ((current < oversold)%Q ->
     _rsi_signals ta self df coin now =
     [_make_signal coin bullish (truncated_confidence (oversold - current))
                   "technical/rsi_oversold" now])
  /\ ((oversold <= current)%Q -> (overbought < current)%Q ->
     _rsi_signals ta self df coin now =
     [_make_signal coin bearish (truncated_confidence (current - overbought))
                   "technical/rsi_overbought" now])
  /\ ((oversold <= current)%Q -> (current <= overbought)%Q ->
     _rsi_signals ta self df coin now = []).
Proof.
  intros Hta Hlast oversold overbought. unfold _rsi_signals.
  rewrite Hta, Hlast. fold oversold overbought.
  repeat split.
  - intros H. apply Qlt_bool_iff in H. now rewrite H.
  - intros H1 H2. apply Qlt_bool_false in H1. apply Qlt_bool_iff in H2.
    now rewrite H1, H2.
  - intros H1 H2. apply Qlt_bool_false in H1. apply Qlt_bool_false in H2.
    now rewrite H1, H2.
Qed.

End RsiSignals.

Lemma rsi_signals_truncated_confidence_witness :
  Technical._rsi_signals (Examples.reading (59 # 2)) Examples.default_processor
    (Technical._candles_to_df (Examples.falling 31)) "BTC/USD" 0 =
  [Technical._make_signal "BTC/USD" bullish 1 "technical/rsi_oversold" 0].
Proof.
  refine (proj1 (rsi_signals_truncated_confidence
                   (Examples.reading (59 # 2)) Examples.default_processor
                   (Technical._candles_to_df (Examples.falling 31))
                   "BTC/USD" 0 _ (59 # 2) eq_refl _) _).
  - vm_compute. reflexivity.
  - vm_compute. reflexivity.
Defined.

(** C7 as stated fails: with the RSI at 29.5 and the oversold threshold at
    30 the gap times 3.3 is 1.65, which rounds to 2, and the signal carries
    confidence 1. *)
Lemma rsi_confidence_not_rounded :
  Wording.rounded_confidence (30 - (59 # 2)) = 2
  /\ map Signal.confidence
       (Technical._rsi_signals (Examples.reading (59 # 2))
          Examples.default_processor
          (Technical._candles_to_df (Examples.falling 31)) "BTC/USD" 0) = [1].
Proof. split; vm_compute; reflexivity. Qed.

(** ** The history page's selection *)

Section Selection.
Import History.

Lemma toggle_size (id : string) (selected : gset string) :
  (size selected <= 5)%nat -> (size (toggle id selected) <= 5)%nat.
Proof.
  intros H. unfold toggle. repeat case_decide; [| |done].
  - etrans; [|exact H]. apply subseteq_size.
    now apply subseteq_difference_l.
  - rewrite size_union; [rewrite size_singleton; lia|].
    apply disjoint_singleton_r. assumption.
Qed.

Lemma after_clicks_snoc (ids : list string) (id : string) :
  after_clicks (ids ++ [id]) = toggle id (after_clicks ids).
Proof. unfold after_clicks. now rewrite foldl_app. Qed.

(** C10: whatever rows were clicked, the selection holds at most 5 runs,
    and [toggle] keeps any selection of at most 5 within 5.  For every
    selection: a click on an unselected run adds it while fewer than 5 are
    selected and changes nothing once 5 are selected, and a click on a
    selected run always removes it. *)
Theorem selection_at_most_five (clicks : list string) (id : string)
    (selected : gset string) :
  (size (after_clicks clicks) <= 5)%nat
  /\ ((size selected <= 5)%nat -> (size (toggle id selected) <= 5)%nat)
  /\ (id ∉ selected -> (5 <= size selected)%nat ->
      toggle id selected = selected)
  /\ (id ∉ selected -> (size selected < 5)%nat ->
      (id ∈ toggle id selected)
      /\ toggle id selected = selected ∪ {[id]}
      /\ size (toggle id selected) = S (size selected))
  /\ (id ∈ selected ->
      (id ∉ toggle id selected)
      /\ toggle id selected = selected ∖ {[id]}
      /\ size (toggle id selected) = (size selected - 1)%nat).
Proof.
  split; [|split; [|split; [|split]]].
  - induction clicks as [|c clicks IH] using rev_ind.
    + change (after_clicks []) with (∅ : gset string). rewrite size_empty. lia.
    + rewrite after_clicks_snoc. now apply toggle_size.
  - apply toggle_size.
  - intros Hnot Hsize. unfold toggle. rewrite decide_False by done.
    rewrite decide_False by lia. reflexivity.
  - intros Hnot Hsize. unfold toggle. rewrite decide_False by done.
    rewrite decide_True by lia. split; [|split; [reflexivity|]].
    + apply elem_of_union. right. now apply elem_of_singleton.
    + rewrite size_union; [rewrite size_singleton; lia|].
      now apply disjoint_singleton_r.
  - intros Hin. unfold toggle. rewrite decide_True by done.
    split; [|split; [reflexivity|]].
    + intros [_ Hn]%elem_of_difference. apply Hn. now apply elem_of_singleton.
    + rewrite size_difference; [now rewrite size_singleton|].
      now apply singleton_subseteq_l.
Qed.

End Selection.

Lemma selection_at_most_five_witness :
  ("b" ∉ History.toggle "b" ({["a"; "b"; "c"]} : gset string))
  /\ History.toggle "d" ({["a"; "b"; "c"]} : gset string)
     = {["a"; "b"; "c"]} ∪ {["d"]}
  /\ History.toggle "f" ({["a"; "b"; "c"; "d"; "e"]} : gset string)
     = {["a"; "b"; "c"; "d"; "e"]}.
Proof.
  split; [|split].
  - refine (proj1 (proj2 (proj2 (proj2 (proj2
              (selection_at_most_five [] "b" {["a"; "b"; "c"]})))) _)).
    apply (bool_decide_unpack _). vm_compute. exact I.
  - refine (proj1 (proj2 (proj1 (proj2 (proj2 (proj2
              (selection_at_most_five [] "d" {["a"; "b"; "c"]})))) _ _))).
    + apply (bool_decide_unpack _). vm_compute. exact I.
    + vm_compute. lia.
  - refine (proj1 (proj2 (proj2
              (selection_at_most_five [] "f" {["a"; "b"; "c"; "d"; "e"]}))) _ _).
    + apply (bool_decide_unpack _). vm_compute. exact I.
    + vm_compute. lia.
Defined.

(** Six runs clicked, five selected: the sixth click is dropped. *)
Example sixth_click_dropped :
  elements (History.after_clicks ["a"; "b"; "c"; "d"; "e"; "f"])
  = elements (History.after_clicks ["a"; "b"; "c"; "d"; "e"]).
Proof. vm_compute. reflexivity. Qed.

(** ** The run comparator *)

Section Comparator.
Import Compare.
Variable number : Type.
Variable Number_toString : number -> string.

Lemma size_two_distinct (X : gset string) :
  (1 < size X)%nat <-> exists x y, x ∈ X /\ y ∈ X /\ x <> y.
Proof.
  split.
  - intros H.
    destruct (size_pos_elem_of X) as [x Hx]; [lia|].
    destruct (size_pos_elem_of (X ∖ {[x]})) as [y Hy].
    { rewrite size_difference by now apply singleton_subseteq_l.
      rewrite size_singleton. lia. }
    apply elem_of_difference in Hy as [Hy Hne].
    exists x, y. repeat split; [done..|].
    intros ->. apply Hne. now apply elem_of_singleton.
  - intros (x & y & Hx & Hy & Hne).
    assert (Hsub : ({[x]} ∪ {[y]} : gset string) ⊆ X).
    { apply union_subseteq. split; now apply singleton_subseteq_l. }
    apply subseteq_size in Hsub.
    rewrite size_union in Hsub.
    + rewrite !size_singleton in Hsub. lia.
    + apply disjoint_singleton_l. intros Hin.
      apply elem_of_singleton in Hin. congruence.
Qed.

Lemma renderings_differ (runs : list (Run number)) (key : string) :
  (1 < size (list_to_set
               (map (String Number_toString) (map (fun r => param r key) runs))
             : gset string))%nat
  <-> exists r1 r2, r1 ∈ runs /\ r2 ∈ runs
        /\ String Number_toString (param r1 key)
           <> String Number_toString (param r2 key).
Proof.
  rewrite size_two_distinct. split.
  - intros (x & y & Hx & Hy & Hne).
    apply elem_of_list_to_set, list_elem_of_fmap in Hx as (vx & -> & Hx).
    apply elem_of_list_to_set, list_elem_of_fmap in Hy as (vy & -> & Hy).
    apply list_elem_of_fmap in Hx as (r1 & -> & H1).
    apply list_elem_of_fmap in Hy as (r2 & -> & H2).
    now exists r1, r2.
  - intros (r1 & r2 & H1 & H2 & Hne).
    exists (String Number_toString (param r1 key)),
           (String Number_toString (param r2 key)).
    repeat split; [| |exact Hne];
      apply elem_of_list_to_set, list_elem_of_fmap;
      eexists; (split; [reflexivity|]);
      apply list_elem_of_fmap; eexists; (split; [reflexivity|]); assumption.
Qed.

Lemma diffParams_spec (runs : list (Run number)) (key : string) :
  key ∈ diffParams Number_toString runs
  <-> key ∈ allParamKeys
      /\ exists r1 r2, r1 ∈ runs /\ r2 ∈ runs
           /\ String Number_toString (param r1 key)
              <> String Number_toString (param r2 key).
Proof.
  unfold diffParams. rewrite list_elem_of_filter.
  rewrite renderings_differ. tauto.
Qed.

Lemma diffParams_keep (runs : list (Run number)) (key : string)
    (keys : list string) :
  (exists r1 r2, r1 ∈ runs /\ r2 ∈ runs
     /\ String Number_toString (param r1 key)
        <> String Number_toString (param r2 key)) ->
  filter (fun key =>
            (1 < size (list_to_set
                         (map (String Number_toString)
                              (map (fun r => param r key) runs))
                       : gset string))%nat) (key :: keys)
  = key :: filter (fun key =>
            (1 < size (list_to_set
                         (map (String Number_toString)
                              (map (fun r => param r key) runs))
                       : gset string))%nat) keys.
Proof.
  intros H. apply filter_cons_True. now apply renderings_differ.
Qed.

Lemma diffParams_skip (runs : list (Run number)) (key : string)
    (keys : list string) :
  (forall r1 r2, r1 ∈ runs -> r2 ∈ runs -> param r1 key = param r2 key) ->
  filter (fun key =>
            (1 < size (list_to_set
                         (map (String Number_toString)
                              (map (fun r => param r key) runs))
                       : gset string))%nat) (key :: keys)
  = filter (fun key =>
            (1 < size (list_to_set
                         (map (String Number_toString)
                              (map (fun r => param r key) runs))
                       : gset string))%nat) keys.
Proof.
  intros H. apply filter_cons_False. rewrite renderings_differ.
  intros (r1 & r2 & H1 & H2 & Hne). apply Hne. now rewrite (H r1 r2).
Qed.

Lemma CompareContent_columns (runs : list (Run number)) (view : View number) :
  CompareContent Number_toString runs = Some view ->
  (2 <= length runs)%nat
  /\ length (columns (metrics_table view)) = length runs
  /\ Forall (fun row => length (snd row) = length runs)
            (rows (metrics_table view)).
Proof.
  unfold CompareContent. destruct (length runs <? 2)%nat eqn:E; [discriminate|].
  apply Nat.ltb_ge in E. intros [= <-]. cbn [metrics_table columns rows].
  split; [exact E|]. split; [apply length_imap|].
  unfold metrics. cbn [map fst snd].
  repeat (apply Forall_cons; split; [apply length_map|]). constructor.
Qed.

(** C8 (amended): the parameter-diff list holds exactly the keys among the
    eleven labelled in [PARAM_LABELS] whose [String] renderings differ
    between two of the compared runs; from two runs on, the metrics table has
    one column per run and one cell per run in every row; for three runs
    whose parameters agree on every key but [rsi_oversold], where the
    renderings are not all the same, the diff list is exactly
    [rsi_oversold] and the metrics table has three run columns. *)
Theorem diffParams_labelled_keys (runs : list (Run number)) :
  (forall key,
     key ∈ diffParams Number_toString runs
     <-> key ∈ allParamKeys
         /\ exists r1 r2, r1 ∈ runs /\ r2 ∈ runs
              /\ String Number_toString (param r1 key)
                 <> String Number_toString (param r2 key))
  /\ (forall view,
        CompareContent Number_toString runs = Some view ->
        (2 <= length runs)%nat
        /\ length (columns (metrics_table view)) = length runs
        /\ Forall (fun row => length (snd row) = length runs)
                  (rows (metrics_table view)))
  /\ (forall r1 r2 r3,
        runs = [r1; r2; r3] ->
        (forall key, key <> "rsi_oversold" ->
           param r1 key = param r2 key /\ param r2 key = param r3 key) ->
        ~ (String Number_toString (param r1 "rsi_oversold")
             = String Number_toString (param r2 "rsi_oversold")
           /\ String Number_toString (param r2 "rsi_oversold")
             = String Number_toString (param r3 "rsi_oversold")) ->
        diffParams Number_toString runs = ["rsi_oversold"]
        /\ exists view,
             CompareContent Number_toString runs = Some view
             /\ length (columns (metrics_table view)) = 3%nat).
Proof.
  split; [apply diffParams_spec|]. split; [apply CompareContent_columns|].
  intros r1 r2 r3 -> Hsame Hdiff. split.
  - assert (Hskip : forall key, key <> "rsi_oversold" ->
              forall a b, a ∈ [r1; r2; r3] -> b ∈ [r1; r2; r3] ->
                          param a key = param b key).
    { intros key Hkey a b Ha Hb. destruct (Hsame key Hkey) as [E12 E23].
      repeat (apply elem_of_cons in Ha as [->|Ha]);
        repeat (apply elem_of_cons in Hb as [->|Hb]);
        try (now apply elem_of_nil in Ha); try (now apply elem_of_nil in Hb);
        congruence. }
    unfold diffParams, allParamKeys, PARAM_LABELS. cbn [fmap list_fmap fst].
    do 3 (rewrite diffParams_skip by (apply Hskip; discriminate)).
    rewrite diffParams_keep.
    + do 7 (rewrite diffParams_skip by (apply Hskip; discriminate)).
      reflexivity.
    + destruct (decide (String Number_toString (param r1 "rsi_oversold")
                        = String Number_toString (param r2 "rsi_oversold")))
        as [E|E].
      * exists r2, r3. repeat split; [repeat constructor..|].
        intros E'. now apply Hdiff.
      * exists r1, r2. repeat split; [repeat constructor..|]. exact E.
  - eexists. split; [reflexivity|]. reflexivity.
Qed.

End Comparator.

Lemma diffParams_labelled_keys_witness :
  Compare.diffParams pretty
    [Examples.stored_run "a" "BTC/USD" 25; Examples.stored_run "b" "BTC/USD" 30;
     Examples.stored_run "c" "BTC/USD" 35] = ["rsi_oversold"].
Proof.
  refine (proj1 (proj2 (proj2 (diffParams_labelled_keys Z pretty _))
                   _ _ _ eq_refl _ _)).
  - intros key Hkey. unfold Compare.param, Examples.stored_run.
    cbn [Compare.params]. unfold list_to_map. cbn [foldr uncurry fst snd].
    rewrite !lookup_insert.
    split; repeat case_decide; subst; first [reflexivity | congruence].
  - vm_compute. intros [E _]. discriminate E.
Defined.

(** C8 as stated fails: two stored runs whose configurations differ in
    [symbol] only have an empty parameter-diff list. *)
Lemma diffParams_misses_symbol :
  let runs := [Examples.stored_run "a" "BTC/USD" 30;
               Examples.stored_run "b" "ETH/USD" 30] in
  Compare.params (Examples.stored_run "a" "BTC/USD" 30) !! "symbol"
    = Some (Compare.Str "BTC/USD")
  /\ Compare.params (Examples.stored_run "b" "ETH/USD" 30) !! "symbol"
    = Some (Compare.Str "ETH/USD")
  /\ Compare.diffParams pretty runs = [].
Proof. vm_compute. repeat split. Qed.

(** ** The engine: errors, causality, the benchmark *)

Section Engine.
Import Technical Backtesting Api Wording.
Variable ta : TaLib.
Variable score : Signal.t -> Q.

Lemma index_error {A} (xs : list A) (i : nat) (e : exn) :
  index xs i = Raise e -> engine_error e.
Proof. unfold index. destruct (xs !! i); [discriminate|]. now intros [= <-]. Qed.

Lemma index_neg_error {A} (xs : list A) (k : nat) (e : exn) :
  index_neg xs k = Raise e -> engine_error e.
Proof.
  destruct k as [|k]; cbn [index_neg]; [now intros [= <-]|apply index_error].
Qed.

Lemma div_error (a b : Q) (e : exn) : Py.div a b = Raise e -> engine_error e.
Proof. unfold Py.div. destruct (Qeq_bool b 0); [|discriminate]. now intros [= <-]. Qed.

Lemma bind_Ok {A B} (m : result A) (k : A -> result B) (b : B) :
  Py.bind m k = Ok b -> exists a, m = Ok a /\ k a = Ok b.
Proof. destruct m as [a|e]; [|discriminate]. cbn. eauto. Qed.

Lemma bind_Raise {A B} (m : result A) (k : A -> result B) (e : exn) :
  Py.bind m k = Raise e -> m = Raise e \/ exists a, m = Ok a /\ k a = Raise e.
Proof. destruct m as [a|e']; cbn; [eauto|]. intros [= <-]. now left. Qed.

Lemma sma_signals_error self df coin now (e : exn) :
  _sma_signals ta self df coin now = Raise e -> engine_error e.
Proof.
  unfold _sma_signals.
  destruct (ta_sma ta (df_close df) (_sma_short self)) as [short|];
    [|discriminate].
  destruct (ta_sma ta (df_close df) (_sma_long self)) as [long|];
    [|discriminate].
  destruct short as [|s0 short]; [discriminate|].
  destruct long as [|l0 long]; [discriminate|].
  intros H.
  repeat (apply bind_Raise in H as [H|(? & _ & H)];
          [now apply index_neg_error in H|]).
  repeat match type of H with
         | context [match ?x with _ => _ end] => destruct x
         end; discriminate.
Qed.

Lemma process_error self candles (e : exn) :
  process ta self candles = Raise e -> engine_error e.
Proof.
  unfold process. destruct (length candles <? MIN_CANDLES)%nat; [discriminate|].
  intros H.
  apply bind_Raise in H as [H|(? & _ & H)]; [now apply index_error in H|].
  apply bind_Raise in H as [H|(? & _ & H)]; [now apply index_neg_error in H|].
  apply bind_Raise in H as [H|(? & _ & H)]; [now apply sma_signals_error in H|].
  discriminate.
Qed.

Lemma execute_buy_error ex coin amount candle (e : exn) :
  execute_buy ex coin amount candle = Raise e -> engine_error e.
Proof.
  unfold execute_buy. intros H.
  apply bind_Raise in H as [H|(? & _ & H)]; [now apply div_error in H|].
  discriminate.
Qed.

Lemma execute_sell_error ex coin candle (e : exn) :
  execute_sell ex coin candle = Raise e -> engine_error e.
Proof.
  unfold execute_sell. destruct (Portfolio.get coin (portfolio ex));
    [discriminate|]. now intros [= <-].
Qed.

Lemma act_error self ex signals coin candle (e : exn) :
  act score self ex signals coin candle = Raise e -> engine_error e.
Proof.
  unfold act. destruct signals as [|s rest]; [discriminate|].
  repeat match goal with
         | |- context [if ?b then _ else _] => destruct b
         end;
    first [discriminate | apply execute_buy_error | apply execute_sell_error].
Qed.

Lemma step_error self candles st i (e : exn) :
  step ta score self candles st i = Raise e -> engine_error e.
Proof.
  unfold step. intros H.
  apply bind_Raise in H as [H|(? & _ & H)]; [now apply index_error in H|].
  apply bind_Raise in H as [H|(? & _ & H)]; [now apply process_error in H|].
  apply bind_Raise in H as [H|(? & _ & H)]; [now apply act_error in H|].
  destruct (track_drawdown _ _ _). discriminate.
Qed.

Lemma loop_error self candles indices st (e : exn) :
  loop ta score self candles indices st = Raise e -> engine_error e.
Proof.
  revert st. induction indices as [|i indices IH]; intros st; cbn [loop];
    [discriminate|].
  intros H. apply bind_Raise in H as [H|(st' & _ & H)];
    [now apply step_error in H|now apply IH in H].
Qed.

Lemma run_error self candles (e : exn) :
  run ta score self candles = Raise e -> engine_error e.
Proof.
  unfold run. intros H.
  apply bind_Raise in H as [H|(? & _ & H)]; [now apply index_error in H|].
  apply bind_Raise in H as [H|(? & _ & H)]; [now apply index_neg_error in H|].
  apply bind_Raise in H as [H|(? & _ & H)]; [now apply loop_error in H|].
  apply bind_Raise in H as [H|(? & _ & H)]; [now apply div_error in H|].
  apply bind_Raise in H as [H|(? & _ & H)]; [now apply div_error in H|].
  destruct (_count_wins_losses _). discriminate.
Qed.


(** Steps of the loop see the candles up to themselves only. *)
Lemma step_prefix self (cs1 cs2 : list Candle.t) (st : LoopState) (i k : nat) :
  take k cs1 = take k cs2 -> (i < k)%nat ->
  step ta score self cs1 st i = step ta score self cs2 st i.
Proof.
  intros Hk Hi. unfold step, index.
  assert (E1 : cs1 !! i = cs2 !! i).
  { rewrite <- (lookup_take_lt cs1 k i Hi), <- (lookup_take_lt cs2 k i Hi).
    now rewrite Hk. }
  assert (E2 : take (i + 1) cs1 = take (i + 1) cs2).
  { replace (i + 1)%nat with (Nat.min (i + 1) k) by lia.
    rewrite <- !take_take. now rewrite Hk. }
  now rewrite E1, E2.
Qed.

(** C9: the state the loop has reached after the steps up to [i], hence
    every signal and decision so far, is the same for two candle series that
    agree up to and including index [i], whatever candles follow. *)
Theorem no_lookahead self (cs1 cs2 : list Candle.t) (st : LoopState) (i : nat) :
  take (S i) cs1 = take (S i) cs2 ->
  loop ta score self cs1 (seq 30 (S i - 30)) st
  = loop ta score self cs2 (seq 30 (S i - 30)) st
  /\ (forall ex, process ta (_indicator_params self) (take (i + 1) cs1)
                 = process ta (_indicator_params self) (take (i + 1) cs2)
                 /\ step ta score self cs1 ex i = step ta score self cs2 ex i).
Proof.
  intros Hk. split.
  - assert (Hall : Forall (fun j => (j < S i)%nat) (seq 30 (S i - 30))).
    { apply Forall_forall. intros j Hj. apply elem_of_seq in Hj. lia. }
    revert st Hall. generalize (seq 30 (S i - 30)) as indices.
    induction indices as [|j indices IH]; intros st Hall; [reflexivity|].
    apply Forall_cons in Hall as [Hj Hall]. cbn [loop].
    rewrite (step_prefix self cs1 cs2 st j (S i) Hk Hj).
    destruct (step ta score self cs2 st j) as [st'|e]; cbn [Py.bind];
      [now apply IH|reflexivity].
  - intros ex. split.
    + replace (i + 1)%nat with (S i) by lia. now rewrite Hk.
    + apply (step_prefix self cs1 cs2 ex i (S i) Hk). lia.
Qed.

(** C4 (amended): when the first close is 0 the run raises and returns no
    report; for any other first close, negative ones included, a run that
    completes reports [(last - first) / first * 100] without any check. *)
Theorem benchmark_division self (candles : list Candle.t)
    (first final : Candle.t) :
  candles !! 0%nat = Some first ->
  last candles = Some final ->
  ((Candle.close first == 0)%Q ->
     exists e, run ta score self candles = Raise e /\ engine_error e)
  /\ (forall report,
        run ta score self candles = Ok report ->
        ~ (Candle.close first == 0)%Q
        /\ buy_hold_return_pct report
           = ((Candle.close final - Candle.close first)
                / Candle.close first * 100)%Q).
Proof.
  intros Hfirst Hlast.
  assert (Hfinal : index_neg candles 1 = Ok final).
  { unfold index_neg, index. rewrite <- head_lookup, head_reverse.
    now rewrite Hlast. }
  split.
  - intros Hzero. apply Qeq_bool_iff in Hzero.
    destruct (run ta score self candles) as [report|e] eqn:Hrun.
    + exfalso. unfold run, index in Hrun. rewrite Hfirst in Hrun.
      cbn [Py.bind] in Hrun. rewrite Hfinal in Hrun. cbn [Py.bind] in Hrun.
      apply bind_Ok in Hrun as (st & _ & Hrun).
      apply bind_Ok in Hrun as (total & _ & Hrun).
      apply bind_Ok in Hrun as (hold & Hdiv & _).
      unfold Py.div in Hdiv. rewrite Hzero in Hdiv. discriminate.
    + exists e. split; [reflexivity|]. now apply run_error in Hrun.
  - intros report Hrun. unfold run, index in Hrun. rewrite Hfirst in Hrun.
    cbn [Py.bind] in Hrun. rewrite Hfinal in Hrun. cbn [Py.bind] in Hrun.
    apply bind_Ok in Hrun as (st & _ & Hrun).
    apply bind_Ok in Hrun as (total & _ & Hrun).
    apply bind_Ok in Hrun as (hold & Hdiv & Hrun).
    unfold Py.div in Hdiv.
    destruct (Qeq_bool (Candle.close first) 0) eqn:E; [discriminate|].
    injection Hdiv as <-.
    destruct (_count_wins_losses _) as [wins losses].
    injection Hrun as <-. cbn [buy_hold_return_pct]. split; [|reflexivity].
    intros Hzero. apply Qeq_bool_iff in Hzero. congruence.
Qed.

End Engine.

(** ** The decision policy *)

Section Decision.
Import Technical Backtesting Api Wording.
Variable ta : TaLib.
Variable score : Signal.t -> Q.


Lemma rsi_signals_shape self df coin now :
  _rsi_signals ta self df coin now = []
  \/ exists x, _rsi_signals ta self df coin now = [x] /\ source_priority x = 0%nat.
Proof.
  unfold _rsi_signals.
  repeat match goal with
         | |- context [match ?x with _ => _ end] => destruct x
         end; first [now left | right; eexists; split; reflexivity].
Qed.

Lemma macd_signals_shape self df coin now :
  _macd_signals ta self df coin now = []
  \/ exists x, _macd_signals ta self df coin now = [x] /\ source_priority x = 1%nat.
Proof.
  unfold _macd_signals.
  repeat match goal with
         | |- context [match ?x with _ => _ end] => destruct x
         end; first [now left | right; eexists; split; reflexivity].
Qed.

Lemma sma_signals_shape self df coin now (signals : list Signal.t) :
  _sma_signals ta self df coin now = Ok signals ->
  signals = []
  \/ exists x, signals = [x] /\ source_priority x = 2%nat.
Proof.
  unfold _sma_signals.
  destruct (ta_sma ta (df_close df) (_sma_short self)) as [short|];
    [|intros [= <-]; now left].
  destruct (ta_sma ta (df_close df) (_sma_long self)) as [long|];
    [|intros [= <-]; now left].
  destruct short as [|s0 short]; [intros [= <-]; now left|].
  destruct long as [|l0 long]; [intros [= <-]; now left|].
  intros H. repeat (apply bind_Ok in H as (? & _ & H)).
  repeat match type of H with
         | context [match ?x with _ => _ end] => destruct x
         end; injection H as <-;
    first [now left | right; eexists; split; reflexivity].
Qed.

(** With 30 candles or more, [process] evaluates the three indicators and
    appends their signals in the order RSI, MACD, SMA. *)
Lemma process_all_three self (window : list Candle.t) (signals : list Signal.t) :
  (30 <= length window)%nat ->
  process ta self window = Ok signals ->
  exists first final sma,
    window !! 0%nat = Some first /\ last window = Some final
    /\ _sma_signals ta self (_candles_to_df window) (Candle.coin first)
                    (Candle.timestamp final) = Ok sma
    /\ signals
       = _rsi_signals ta self (_candles_to_df window) (Candle.coin first)
                      (Candle.timestamp final)
         ++ _macd_signals ta self (_candles_to_df window) (Candle.coin first)
                          (Candle.timestamp final)
         ++ sma.
Proof.
  intros Hlen. unfold process.
  destruct (length window <? MIN_CANDLES)%nat eqn:E.
  { apply Nat.ltb_lt in E. unfold MIN_CANDLES in E. lia. }
  intros H. apply bind_Ok in H as (first & Hfirst & H).
  apply bind_Ok in H as (final & Hfinal & H).
  apply bind_Ok in H as (sma & Hsma & H). injection H as <-.
  exists first, final, sma. repeat split.
  - unfold index in Hfirst. destruct (window !! 0%nat); congruence.
  - unfold index_neg, index in Hfinal.
    rewrite <- head_lookup, head_reverse in Hfinal.
    destruct (last window); congruence.
  - exact Hsma.
  - now rewrite <- app_assoc.
Qed.

Lemma process_short self (window : list Candle.t) :
  (length window < 30)%nat -> process ta self window = Ok [].
Proof.
  intros H. unfold process.
  destruct (length window <? MIN_CANDLES)%nat eqn:E; [reflexivity|].
  apply Nat.ltb_ge in E. unfold MIN_CANDLES in E. lia.
Qed.






End Decision.

(** ** Closing positions; the flags of the form *)

Section Overlays.
Import Technical Backtesting Api Wording.
Variable ta : TaLib.
Variable score : Signal.t -> Q.

Lemma holds_after_buy ex coin amount candle ex' (held : string) :
  execute_buy ex coin amount candle = Ok ex' ->
  Portfolio.holds held (portfolio ex) = true ->
  Portfolio.holds held (portfolio ex') = true.
Proof.
  unfold execute_buy. intros H Hheld.
  apply bind_Ok in H as (quantity & _ & H). injection H as <-.
  unfold Portfolio.holds in *. cbn [portfolio Portfolio.positions].
  rewrite existsb_app, Hheld. reflexivity.
Qed.

Lemma holds_filter_other (held coin : string)
    (positions : list (string * Position.t)) :
  held <> coin ->
  existsb (fun kv => String.eqb held (fst kv))
          (filter (fun kv => negb (String.eqb coin (fst kv))) positions)
  = existsb (fun kv => String.eqb held (fst kv)) positions.
Proof.
  intros Hne. induction positions as [|[k pos] positions IH]; [reflexivity|].
  rewrite filter_cons. cbn [fst existsb].
  destruct (decide (negb (String.eqb coin k))) as [Hk|Hk]; cbn [existsb fst].
  - now rewrite IH.
  - rewrite IH. destruct (String.eqb coin k) eqn:E; [|now elim Hk].
    apply String.eqb_eq in E. subst k.
    destruct (String.eqb held coin) eqn:E'; [|reflexivity].
    apply String.eqb_eq in E'. contradiction.
Qed.

Lemma holds_after_sell ex coin candle ex' (held : string) :
  execute_sell ex coin candle = Ok ex' ->
  held <> coin ->
  Portfolio.holds held (portfolio ex') = Portfolio.holds held (portfolio ex).
Proof.
  unfold execute_sell. intros H Hne.
  destruct (Portfolio.get coin (portfolio ex)) as [position|]; [|discriminate].
  injection H as <-. unfold Portfolio.holds.
  cbn [portfolio Portfolio.positions]. now apply holds_filter_other.
Qed.

(** The signal-driven action closes a position only for a bearish dominant
    signal, and only the position in the instrument of the step. *)
Lemma act_closes self ex signals coin candle ex' (held : string) :
  act score self ex signals coin candle = Ok ex' ->
  Portfolio.holds held (portfolio ex) = true ->
  Portfolio.holds held (portfolio ex') = false ->
  exists s rest,
    signals = s :: rest
    /\ Signal.direction (max_by (fun x => Qabs (score x)) s rest) = bearish
    /\ held = coin.
Proof.
  unfold act. intros H Hheld Hgone.
  destruct signals as [|s rest]; [injection H as <-; congruence|].
  exists s, rest. split; [reflexivity|].
  set (best := max_by _ s rest) in *.
  destruct (Signal.direction best) eqn:Hdir; cbn [Direction_eqb andb] in H.
  - exfalso.
    destruct (negb (Portfolio.holds coin (portfolio ex)));
      [|injection H as <-; congruence].
    destruct (Qlt_bool 1 _); [|injection H as <-; congruence].
    apply (holds_after_buy _ _ _ _ _ held) in H; congruence.
  - split; [reflexivity|].
    destruct (Portfolio.holds coin (portfolio ex));
      [|injection H as <-; congruence].
    destruct (decide (held = coin)) as [E|E]; [exact E|].
    apply (holds_after_sell _ _ _ _ held) in H; congruence.
Qed.

End Overlays.

(** ** The drawdown the analyzer reports *)

Section Drawdown.
Import Technical Backtesting Api Wording.
Variable ta : TaLib.
Variable score : Signal.t -> Q.

Lemma running_max_ge (xs : list Q) (m : Q) :
  (m <= fold_left (fun m x => if Qlt_bool m x then x else m) xs m)%Q.
Proof.
  revert m. induction xs as [|x xs IH]; intros m; cbn [fold_left].
  - apply Qle_refl.
  - destruct (Qlt_bool m x) eqn:E; [|apply IH].
    apply Qlt_bool_iff in E. eapply Qle_trans; [|apply IH].
    now apply Qlt_le_weak.
Qed.

Lemma drawdown_at_peak (value : Q) : ((value - value) / value * 100 == 0)%Q.
Proof. unfold Qdiv. ring. Qed.

Lemma drawdown_equal (peak value : Q) :
  (peak == value)%Q -> ((peak - value) / peak * 100 == 0)%Q.
Proof. intros E. unfold Qdiv. rewrite E. ring. Qed.

Lemma drawdown_below (peak value : Q) :
  (0 < peak)%Q -> (value < peak)%Q -> (0 < (peak - value) / peak * 100)%Q.
Proof.
  intros Hp Hv. apply Qmult_lt_0_compat; [|reflexivity].
  unfold Qdiv. apply Qmult_lt_0_compat.
  - unfold Qminus. rewrite <- (Qplus_opp_r value).
    apply Qplus_lt_l. exact Hv.
  - now apply Qinv_lt_0_compat.
Qed.

Lemma no_increase (m d : Q) : (m == 0)%Q -> (d == 0)%Q -> Qlt_bool m d = false.
Proof. intros Hm Hd. apply Qlt_bool_false. rewrite Hm, Hd. apply Qle_refl. Qed.

(** With a positive peak, the running maximum of the drawdowns stays 0
    exactly when no value is below the running peak. *)
Lemma running_max_zero (values : list Q) (peak m : Q) :
  (0 < peak)%Q -> (m == 0)%Q ->
  (fold_left (fun m x => if Qlt_bool m x then x else m)
             (drawdowns peak values) m == 0)%Q
  <-> never_below peak values = true.
Proof.
  revert peak m. induction values as [|value values IH]; intros peak m Hp Hm;
    cbn [drawdowns fold_left never_below].
  - tauto.
  - destruct (Qlt_bool peak value) eqn:Hlt.
    + apply Qlt_bool_iff in Hlt.
      assert (Hv : (0 < value)%Q) by now apply Qlt_trans with peak.
      assert (Hv' := Hv). apply Qlt_bool_iff in Hv'. rewrite Hv'.
      rewrite (no_increase m _ Hm (drawdown_at_peak value)).
      assert (Hle : Qle_bool peak value = true).
      { apply Qle_bool_iff. now apply Qlt_le_weak. }
      rewrite Hle. cbn [andb]. now apply IH.
    + apply Qlt_bool_false in Hlt.
      assert (Hp' := Hp). apply Qlt_bool_iff in Hp'. rewrite Hp'.
      destruct (Qle_bool peak value) eqn:Hle; cbn [andb].
      * apply Qle_bool_iff in Hle.
        assert (E : (peak == value)%Q) by now apply Qle_antisym.
        rewrite (no_increase m _ Hm (drawdown_equal peak value E)).
        now apply IH.
      * assert (Hbelow : (value < peak)%Q).
        { apply Qnot_le_lt. intros H. apply Qle_bool_iff in H. congruence. }
        pose proof (drawdown_below peak value Hp Hbelow) as Hd.
        assert (Hmd : Qlt_bool m ((peak - value) / peak * 100) = true).
        { apply Qlt_bool_iff. now rewrite Hm. }
        rewrite Hmd. split; [|discriminate].
        intros Hzero. exfalso.
        pose proof (running_max_ge (drawdowns peak values)
                      ((peak - value) / peak * 100)) as Hge.
        rewrite Hzero in Hge. exact (Qlt_not_le _ _ Hd Hge).
Qed.

Lemma step_marks self candles st i st' :
  step ta score self candles st i = Ok st' ->
  exists candle,
    index candles i = Ok candle
    /\ let value := mark_to_market (portfolio (executor st'))
                                   (Candle.close candle) in
       let peak' := if Qlt_bool (peak st) value then value else peak st in
       let drawdown :=
         if Qlt_bool 0 peak' then ((peak' - value) / peak' * 100)%Q else 0%Q in
       peak st' = peak'
       /\ max_drawdown st'
          = (if Qlt_bool (max_drawdown st) drawdown then drawdown
             else max_drawdown st)
       /\ curve st'
          = curve st ++ [{| time := Candle.timestamp candle;
                            value := round_nd value 2 |}].
Proof.
  unfold step. intros H.
  apply bind_Ok in H as (candle & Hcandle & H).
  apply bind_Ok in H as (signals & _ & H).
  apply bind_Ok in H as (ex & _ & H).
  unfold track_drawdown in H. injection H as <-.
  exists candle. split; [exact Hcandle|]. cbn. repeat split.
Qed.

Lemma loop_marks self candles indices st st' :
  loop ta score self candles indices st = Ok st' ->
  let values := marked_values ta score self candles indices st in
  max_drawdown st'
  = fold_left (fun m x => if Qlt_bool m x then x else m)
              (drawdowns (peak st) values) (max_drawdown st)
  /\ map value (curve st')
     = map value (curve st) ++ map (fun v => round_nd v 2) values.
Proof.
  revert st. induction indices as [|i indices IH]; intros st H;
    cbn [loop marked_values] in *.
  - injection H as <-. cbn. now rewrite app_nil_r.
  - apply bind_Ok in H as (st1 & Hstep & H). rewrite Hstep.
    destruct (step_marks self candles st i st1 Hstep)
      as (candle & -> & Hpeak & Hmax & Hcurve).
    cbn zeta in Hpeak, Hmax. cbn [drawdowns fold_left map].
    destruct (IH st1 H) as [IHmax IHcurve]. split.
    + rewrite IHmax, Hpeak, Hmax. reflexivity.
    + rewrite IHcurve, Hcurve, map_app. cbn [map value].
      now rewrite <- app_assoc.
Qed.

(** C6 (amended): for every completed run the reported [max_drawdown_pct] is
    at least 0; it is the running maximum of the per-step drawdowns,
    [(peak - value) / peak * 100] when the peak is positive, rounded to two
    decimals; with a positive starting capital the running maximum before
    rounding is 0 exactly when the unrounded portfolio value never falls
    below its running peak. *)
Theorem max_drawdown_report self (candles : list Candle.t) (first : Candle.t)
    (report : BacktestReport) :
  candles !! 0%nat = Some first ->
  run ta score self candles = Ok report ->
  let values :=
    marked_values ta score self candles (seq 30 (length candles - 30))
                  (initial self first) in
  let unrounded := running_max (drawdowns (_capital self) values) in
  map value (equity_curve report)
  = _capital self :: map (fun v => round_nd v 2) values
  /\ max_drawdown_pct report = round_nd unrounded 2
  /\ (0 <= unrounded)%Q
  /\ (0 <= max_drawdown_pct report)%Q
  /\ ((0 < _capital self)%Q ->
      ((unrounded == 0)%Q <-> never_below (_capital self) values = true)).
Proof.
  intros Hfirst Hrun values unrounded.
  unfold run, index in Hrun. rewrite Hfirst in Hrun. cbn [Py.bind] in Hrun.
  apply bind_Ok in Hrun as (final & _ & Hrun).
  apply bind_Ok in Hrun as (st & Hloop & Hrun).
  apply bind_Ok in Hrun as (total & _ & Hrun).
  apply bind_Ok in Hrun as (hold & _ & Hrun).
  destruct (_count_wins_losses _) as [wins losses]. injection Hrun as <-.
  cbn [equity_curve max_drawdown_pct].
  destruct (loop_marks self candles _ _ _ Hloop) as [Hmax Hcurve].
  fold values in Hmax, Hcurve. cbn [initial peak max_drawdown curve map value]
    in Hmax, Hcurve.
  assert (Hnonneg : (0 <= unrounded)%Q) by apply running_max_ge.
  repeat split.
  - exact Hcurve.
  - now rewrite Hmax.
  - exact Hnonneg.
  - rewrite Hmax. now apply round_nd_nonneg.
  - intros Hzero. now apply (running_max_zero values (_capital self) 0).
  - intros Hnever. now apply (running_max_zero values (_capital self) 0).
Qed.

End Drawdown.

(** ** The statements at concrete runs *)

Import Technical Backtesting Api Wording Examples.


(** C2: the claim fails on the code.  The form's conservative preset ("Tight
    stops") puts [stop_loss_pct = 3] into the body it posts, yet the position
    bought at 41000 at step 30 is still held after step 31, where the close is
    30000, an unrealised loss of more than 26 %: no trade is made at that
    step.  [BacktestRequest] drops the field and [run] has no overlay. *)
Lemma stop_loss_not_applied :
  let candles := falling_then [30000%Q] in
  let before := state_after conservative candles [30%nat] in
  let after := state_after conservative candles [30%nat; 31%nat] in
  Form.prop (Form.params (Form.applyPreset "conservative" Form.initial))
            "stop_loss_pct" = Form.JNum 3
  /\ p_stop_loss_pct conservative = Some 3%Q
  /\ loop Textbook.ta Textbook.score (runner_of conservative) candles
          [30%nat; 31%nat] (state_after conservative candles []) = Ok after
  /\ (Position.entry_price <$> Portfolio.get "BTC/USD" (portfolio (executor before)))
     = Some 41000%Q
  /\ (Candle.close <$> candles !! 31%nat) = Some 30000%Q
  /\ Portfolio.holds "BTC/USD" (portfolio (executor after)) = true
  /\ length (trades (executor after)) = 1%nat.
Proof. vm_compute. repeat split. Qed.

(** C3: the claim fails on the code.  The form's trend preset ("SMA
    crossovers only, no RSI") posts [use_rsi = false], yet on falling closes
    [process] emits the RSI signal at step 30 and the run buys on it.
    [BacktestRequest] drops the toggles and [process] evaluates the three
    indicators unconditionally. *)
Lemma disabled_rsi_still_signals :
  Form.prop (Form.params (Form.applyPreset "trend" Form.initial)) "use_rsi"
  = Form.JBool false
  /\ p_use_rsi trend = false
  /\ process Textbook.ta (_indicator_params (runner_of trend)) (falling 31)
     = Ok [_make_signal "BTC/USD" bullish 99 "technical/rsi_oversold"
                        1704175200]
  /\ (r_trade_count ∘ snd
        <$> match run_backtest Textbook.ta Textbook.score (parse_body trend)
                               (falling 31) with
            | Ok row => Some row
            | Raise _ => None
            end) = Some 1%nat.
Proof. vm_compute. repeat split. Qed.

Lemma benchmark_division_witness :
  exists e,
    run Textbook.ta Textbook.score (runner_of DEFAULTS) (flat_after 0) = Raise e
    /\ engine_error e.
Proof.
  refine (proj1 (benchmark_division Textbook.ta Textbook.score
                   (runner_of DEFAULTS) (flat_after 0)
                   (Candle.mk "BTC/USD" "1h" 0 (0 + 100) (0 - 100) 0 1000
                              (1704067200 + 3600 * Z.of_nat 0))
                   (Candle.mk "BTC/USD" "1h" 100 (100 + 100) (100 - 100) 100
                              1000 (1704067200 + 3600 * Z.of_nat 29))
                   _ _) _).
  - reflexivity.
  - reflexivity.
  - reflexivity.
Defined.

(** C4 as stated fails: with a first close of -100 the run completes and the
    endpoint stores a buy-and-hold return of -200 %. *)
Lemma negative_first_close_accepted :
  (Candle.close <$> flat_after (-100) !! 0%nat) = Some (-100)%Q
  /\ (r_buy_hold_return_pct ∘ snd
        <$> match run_backtest Textbook.ta Textbook.score (parse_body DEFAULTS)
                               (flat_after (-100)) with
            | Ok row => Some row
            | Raise _ => None
            end) = Some (-200)%Q.
Proof. vm_compute. repeat split. Qed.


Lemma max_drawdown_report_witness :
  exists report,
    run Textbook.ta Textbook.score (runner_of DEFAULTS) (falling_then [30000%Q])
    = Ok report
    /\ (0 <= max_drawdown_pct report)%Q.
Proof.
  destruct (run Textbook.ta Textbook.score (runner_of DEFAULTS)
                (falling_then [30000%Q])) as [report|e] eqn:Hrun;
    [|exfalso; vm_compute in Hrun; discriminate Hrun].
  exists report. split; [reflexivity|].
  refine (proj1 (proj2 (proj2 (proj2
            (max_drawdown_report Textbook.ta Textbook.score
               (runner_of DEFAULTS) (falling_then [30000%Q])
               (Candle.mk "BTC/USD" "1h" 50000 (50000 + 100) (50000 - 100)
                          50000 1000 (1704067200 + 3600 * Z.of_nat 0))
               report _ Hrun))))).
  vm_compute. reflexivity.
Defined.

(** C6 as stated fails: after the buy at step 30 the close slips from 41000
    to 40997.95; the equity curve goes 1000, 1000, 999.99 and the reported
    maximum drawdown is 0. *)
Lemma small_fall_reports_zero :
  let report :=
    match run Textbook.ta Textbook.score (runner_of DEFAULTS)
              (falling_then [4099795 # 100]) with
    | Ok report => Some report
    | Raise _ => None
    end in
  (map value ∘ equity_curve <$> report) = Some [1000; 1000; 99999 # 100]%Q
  /\ (curve_never_below_peak ∘ equity_curve <$> report) = Some false
  /\ (max_drawdown_pct <$> report) = Some 0%Q.
Proof. vm_compute. repeat split. Qed.

Lemma no_lookahead_witness :
  loop Textbook.ta Textbook.score (runner_of DEFAULTS)
       (falling_then [30000%Q]) (seq 30 (31 - 30))
       (state_after DEFAULTS (falling 31) [])
  = loop Textbook.ta Textbook.score (runner_of DEFAULTS)
         (falling_then [45000%Q; 47000%Q]) (seq 30 (31 - 30))
         (state_after DEFAULTS (falling 31) []).
Proof.
  refine (proj1 (no_lookahead Textbook.ta Textbook.score (runner_of DEFAULTS)
                   (falling_then [30000%Q]) (falling_then [45000%Q; 47000%Q])
                   (state_after DEFAULTS (falling 31) []) 30 _)).
  vm_compute. reflexivity.
Defined.

(** ** More properties of the signal generator *)

Section SignalFacts.
Import Technical Checks.
Variable ta : TaLib.
Variable self : TechnicalProcessor.

Lemma truncated_gap_range (gap : Q) :
  (0 <= gap)%Q -> 0 <= Z.min 100 (Py.int (gap * (33 # 10))) <= 100.
Proof.
  intros H.
  assert (Hx : (0 <= gap * (33 # 10))%Q).
  { apply Qmult_le_0_compat; [exact H|]. discriminate. }
  rewrite (int_nonneg _ Hx). pose proof (Qfloor_nonneg _ Hx). lia.
Qed.

Lemma gap_nonneg (a b : Q) : Qlt_bool a b = true -> (0 <= b - a)%Q.
Proof.
  intros H. apply Qlt_bool_iff in H. apply Qlt_le_weak in H.
  unfold Qminus. rewrite <- (Qplus_opp_r a). now apply Qplus_le_l.
Qed.

Lemma product_negative (a b : Q) : (a < 0)%Q -> (0 < b)%Q -> (a * b < 0)%Q.
Proof.
  intros Ha Hb. rewrite <- (Qmult_0_l b). now apply Qmult_lt_compat_r.
Qed.

Lemma rsi_signals_wellformed df coin now :
  Forall (wellformed coin now) (_rsi_signals ta self df coin now).
Proof.
  unfold _rsi_signals.
  destruct (ta_rsi ta (df_close df) (_rsi_period self)) as [rsi|];
    [|apply Forall_nil_2].
  destruct (last rsi) as [[current|]|]; try apply Forall_nil_2.
  destruct (Qlt_bool current _) eqn:Hlow.
  - apply Forall_cons_2; [|apply Forall_nil_2].
    split; [|repeat split].
    apply truncated_gap_range, gap_nonneg, Hlow.
  - destruct (Qlt_bool _ current) eqn:Hhigh; [|apply Forall_nil_2].
    apply Forall_cons_2; [|apply Forall_nil_2].
    split; [|repeat split].
    apply truncated_gap_range, gap_nonneg, Hhigh.
Qed.

Lemma macd_signals_wellformed df coin now :
  Forall (wellformed coin now) (_macd_signals ta self df coin now).
Proof.
  unfold _macd_signals.
  repeat match goal with
         | |- context [match ?x with _ => _ end] => destruct x
         end;
    first [ apply Forall_nil_2
          | apply Forall_cons_2; [|apply Forall_nil_2];
            split; [cbn [_make_signal Signal.confidence]; lia|repeat split] ].
Qed.

Lemma sma_signals_wellformed df coin now (signals : list Signal.t) :
  _sma_signals ta self df coin now = Ok signals ->
  Forall (wellformed coin now) signals.
Proof.
  unfold _sma_signals.
  destruct (ta_sma ta (df_close df) (_sma_short self)) as [short|];
    [|intros [= <-]; constructor].
  destruct (ta_sma ta (df_close df) (_sma_long self)) as [long|];
    [|intros [= <-]; constructor].
  destruct short as [|s0 short]; [intros [= <-]; constructor|].
  destruct long as [|l0 long]; [intros [= <-]; constructor|].
  intros H. repeat (apply bind_Ok in H as (? & _ & H)).
  repeat match type of H with
         | context [match ?x with _ => _ end] => destruct x
         end; injection H as <-;
    first [ apply Forall_nil_2
          | apply Forall_cons_2; [|apply Forall_nil_2];
            split; [cbn [_make_signal Signal.confidence]; lia|repeat split] ].
Qed.

(** X1: whatever the indicators return, [process] yields at most three
    signals; each has a confidence between 0 and 100, the instrument of the
    first candle of the window, the timestamp of its last candle, an expiry
    one hour later and a source that starts with "technical/". *)
Theorem process_signals_wellformed (window : list Candle.t)
    (signals : list Signal.t) :
  process ta self window = Ok signals ->
  (length signals <= 3)%nat
  /\ Forall (fun s =>
               0 <= Signal.confidence s <= 100
               /\ Some (Signal.coin s) = Candle.coin <$> head window
               /\ Some (Signal.timestamp s) = Candle.timestamp <$> last window
               /\ Signal.expires_at s = Signal.timestamp s + 3600
               /\ String.prefix "technical/" (Signal.source s) = true)
            signals.
Proof.
  intros H. destruct (Nat.lt_ge_cases (length window) 30) as [Hlt|Hge].
  - rewrite (process_short ta self window Hlt) in H. injection H as <-.
    split; [cbn; lia|apply Forall_nil_2].
  - apply (process_all_three ta self window signals Hge) in H
      as (first & final & sma & Hfirst & Hfinal & Hsma & ->).
    pose proof (rsi_signals_wellformed (_candles_to_df window)
                  (Candle.coin first) (Candle.timestamp final)) as Hr.
    pose proof (macd_signals_wellformed (_candles_to_df window)
                  (Candle.coin first) (Candle.timestamp final)) as Hm.
    pose proof (sma_signals_wellformed _ _ _ _ Hsma) as Hs.
    split.
    + rewrite !length_app.
      destruct (rsi_signals_shape ta self (_candles_to_df window)
                  (Candle.coin first) (Candle.timestamp final))
        as [-> | (r & -> & _)];
      destruct (macd_signals_shape ta self (_candles_to_df window)
                  (Candle.coin first) (Candle.timestamp final))
        as [-> | (m & -> & _)];
      destruct (sma_signals_shape ta self _ _ _ _ Hsma)
        as [-> | (s & -> & _)]; cbn; lia.
    + rewrite <- head_lookup in Hfirst. rewrite Hfirst, Hfinal. cbn [fmap option_fmap option_map].
      apply Forall_app. split; [|apply Forall_app; split].
      all: eapply Forall_impl; [eassumption|].
      all: intros s (Hc & -> & -> & -> & Hp); repeat split;
        solve [assumption | lia].
Qed.

(** X2: when the last two histogram values are defined, [_macd_signals]
    emits one bullish signal exactly for a strict crossing from below zero to
    above, one bearish signal for the strict crossing the other way, and
    nothing when either value is zero or the sign is kept; the confidence is
    [int(abs(current) * 1000)] clamped to 30..100. *)
Theorem macd_signals_crossing (df : DataFrame) (coin : string) (now : Z)
    (earlier : Series) (previous current : Q) :
  ta_macd ta (df_close df) (_macd_fast self) (_macd_slow self)
          (_macd_signal self)
  = Some (earlier ++ [Some previous; Some current]) ->
  let confidence := Z.min 100 (Z.max 30 (Py.int (Qabs current * 1000))) in
  30 <= confidence <= 100
  /\ ((previous < 0)%Q -> (0 < current)%Q ->
      _macd_signals ta self df coin now
      = [_make_signal coin bullish confidence "technical/macd_crossover" now])
  /\ ((0 < previous)%Q -> (current < 0)%Q ->
      _macd_signals ta self df coin now
      = [_make_signal coin bearish confidence "technical/macd_crossover" now])
  /\ ((0 <= previous * current)%Q -> _macd_signals ta self df coin now = []).
Proof.
  intros Hta confidence. unfold _macd_signals. rewrite Hta.
  rewrite reverse_app. cbn [reverse rev_append app]. fold confidence.
  split; [subst confidence; lia|]. repeat split.
  - intros Hp Hc. apply Qlt_bool_iff in Hp, Hc. now rewrite Hp, Hc.
  - intros Hp Hc.
    assert (H1 : Qlt_bool previous 0 = false).
    { apply Qlt_bool_false. now apply Qlt_le_weak. }
    apply Qlt_bool_iff in Hp, Hc. now rewrite H1, Hp, Hc.
  - intros Hprod.
    destruct (Qlt_bool previous 0) eqn:H1; cbn [andb].
    + destruct (Qlt_bool 0 current) eqn:H2; cbn [andb].
      * exfalso. apply Qlt_bool_iff in H1, H2.
        exact (Qlt_not_le _ _ (product_negative _ _ H1 H2) Hprod).
      * destruct (Qlt_bool 0 previous) eqn:H3; [|reflexivity].
        apply Qlt_bool_iff in H1, H3. exfalso.
        exact (Qlt_irrefl 0 (Qlt_trans _ _ _ H3 H1)).
    + destruct (Qlt_bool 0 previous) eqn:H3; cbn [andb]; [|reflexivity].
      destruct (Qlt_bool current 0) eqn:H4; [|reflexivity].
      exfalso. apply Qlt_bool_iff in H3, H4.
      rewrite Qmult_comm in Hprod.
      exact (Qlt_not_le _ _ (product_negative _ _ H4 H3) Hprod).
Qed.

End SignalFacts.

Section SmaFacts.
Import Technical.
Variable ta : TaLib.
Variable self : TechnicalProcessor.

Lemma index_neg_last {A} (xs : list A) (a b : A) :
  index_neg (xs ++ [a; b]) 1 = Ok b /\ index_neg (xs ++ [a; b]) 2 = Ok a.
Proof.
  unfold index_neg, index. rewrite reverse_app. split; reflexivity.
Qed.

Lemma index_neg_1 {A} (x : A) (xs : list A) :
  exists y, index_neg (x :: xs) 1 = Ok y.
Proof.
  unfold index_neg, index. rewrite <- head_lookup, head_reverse.
  destruct (last (x :: xs)) as [y|] eqn:E; [now exists y|].
  apply last_None in E. discriminate.
Qed.

Lemma index_neg_2 {A} (xs : list A) :
  (exists y, index_neg xs 2 = Ok y /\ (2 <= length xs)%nat)
  \/ (index_neg xs 2 = Raise IndexError /\ (length xs < 2)%nat).
Proof.
  unfold index_neg, index.
  destruct (reverse xs !! 1%nat) as [y|] eqn:E.
  - left. exists y. split; [reflexivity|].
    apply lookup_lt_Some in E. rewrite length_reverse in E. lia.
  - right. split; [reflexivity|].
    apply lookup_ge_None in E. rewrite length_reverse in E. lia.
Qed.

(** X3: when the last two values of both averages are defined,
    [_sma_signals] emits a bullish golden cross exactly when the short
    average was at or below the long one and is now above it, a bearish death
    cross exactly when it was at or above and is now below, and nothing
    otherwise; both carry confidence 55. *)
Theorem sma_signals_crossing (df : DataFrame) (coin : string) (now : Z)
    (shorts longs : Series) (prev_short short_val prev_long long_val : Q) :
  ta_sma ta (df_close df) (_sma_short self)
  = Some (shorts ++ [Some prev_short; Some short_val]) ->
  ta_sma ta (df_close df) (_sma_long self)
  = Some (longs ++ [Some prev_long; Some long_val]) ->
  ((prev_short <= prev_long)%Q -> (long_val < short_val)%Q ->
   _sma_signals ta self df coin now
   = Ok [_make_signal coin bullish 55 "technical/sma_golden_cross" now])
  /\ ((prev_long <= prev_short)%Q -> (short_val < long_val)%Q ->
      _sma_signals ta self df coin now
      = Ok [_make_signal coin bearish 55 "technical/sma_death_cross" now])
  /\ (~ ((prev_short <= prev_long)%Q /\ (long_val < short_val)%Q) ->
      ~ ((prev_long <= prev_short)%Q /\ (short_val < long_val)%Q) ->
      _sma_signals ta self df coin now = Ok []).
Proof.
  intros Hs Hl. unfold _sma_signals. rewrite Hs, Hl.
  destruct (index_neg_last shorts (Some prev_short) (Some short_val))
    as [Es1 Es2].
  destruct (index_neg_last longs (Some prev_long) (Some long_val))
    as [El1 El2].
  assert (Hbody :
    match shorts ++ [Some prev_short; Some short_val],
          longs ++ [Some prev_long; Some long_val] with
    | [], _ | _, [] => Ok []
    | _, _ =>
      Py.bind (index_neg (shorts ++ [Some prev_short; Some short_val]) 1)
        (fun short_val0 =>
      Py.bind (index_neg (longs ++ [Some prev_long; Some long_val]) 1)
        (fun long_val0 =>
      Py.bind (index_neg (shorts ++ [Some prev_short; Some short_val]) 2)
        (fun prev_short0 =>
      Py.bind (index_neg (longs ++ [Some prev_long; Some long_val]) 2)
        (fun prev_long0 =>
          match short_val0, long_val0, prev_short0, prev_long0 with
          | Some short_val0, Some long_val0, Some prev_short0, Some prev_long0 =>
            if Qle_bool prev_short0 prev_long0 && Qlt_bool long_val0 short_val0
            then Ok [_make_signal coin bullish 55 "technical/sma_golden_cross" now]
            else if Qle_bool prev_long0 prev_short0
                    && Qlt_bool short_val0 long_val0
            then Ok [_make_signal coin bearish 55 "technical/sma_death_cross" now]
            else Ok []
          | _, _, _, _ => Ok []
          end))))
    end
    = if Qle_bool prev_short prev_long && Qlt_bool long_val short_val
      then Ok [_make_signal coin bullish 55 "technical/sma_golden_cross" now]
      else if Qle_bool prev_long prev_short && Qlt_bool short_val long_val
      then Ok [_make_signal coin bearish 55 "technical/sma_death_cross" now]
      else Ok []).
  { rewrite Es1, Es2, El1, El2. cbn [Py.bind].
    destruct shorts, longs; reflexivity. }
  rewrite Hbody. clear Hbody. repeat split.
  - intros H1 H2. apply Qle_bool_iff in H1. apply Qlt_bool_iff in H2.
    now rewrite H1, H2.
  - intros H1 H2.
    assert (H3 : Qlt_bool long_val short_val = false).
    { apply Qlt_bool_false. now apply Qlt_le_weak. }
    apply Qle_bool_iff in H1. apply Qlt_bool_iff in H2.
    rewrite H3, H1, H2. now rewrite andb_false_r.
  - intros Hg Hd.
    destruct (Qle_bool prev_short prev_long && Qlt_bool long_val short_val)
      eqn:E1.
    { exfalso. apply andb_prop in E1 as [E1 E1'].
      apply Qle_bool_iff in E1. apply Qlt_bool_iff in E1'. now apply Hg. }
    destruct (Qle_bool prev_long prev_short && Qlt_bool short_val long_val)
      eqn:E2; [|reflexivity].
    exfalso. apply andb_prop in E2 as [E2 E2'].
    apply Qle_bool_iff in E2. apply Qlt_bool_iff in E2'. now apply Hd.
Qed.

(** X4: [_sma_signals] raises exactly when both SMA series are non-empty
    and one of them has a single value, so that [iloc[-2]] is out of bounds;
    the error is an [IndexError]. *)
Theorem sma_signals_raises (df : DataFrame) (coin : string) (now : Z)
    (e : exn) :
  _sma_signals ta self df coin now = Raise e
  <-> e = IndexError
      /\ exists sma_short sma_long,
           ta_sma ta (df_close df) (_sma_short self) = Some sma_short
           /\ ta_sma ta (df_close df) (_sma_long self) = Some sma_long
           /\ sma_short <> [] /\ sma_long <> []
           /\ (length sma_short = 1%nat \/ length sma_long = 1%nat).
Proof.
  unfold _sma_signals.
  destruct (ta_sma ta (df_close df) (_sma_short self)) as [short|];
    [|split; [discriminate|intros (_ & ? & ? & [=] & _)]].
  destruct (ta_sma ta (df_close df) (_sma_long self)) as [long|];
    [|split; [discriminate|intros (_ & ? & ? & _ & [=] & _)]].
  destruct short as [|s0 short];
    [split; [discriminate|intros (_ & ? & ? & [= <-] & _ & H & _); congruence]|].
  destruct long as [|l0 long];
    [split; [discriminate
            |intros (_ & ? & ? & _ & [= <-] & _ & H & _); congruence]|].
  destruct (index_neg_1 s0 short) as [sv ->].
  destruct (index_neg_1 l0 long) as [lv ->]. cbn [Py.bind].
  destruct (index_neg_2 (s0 :: short)) as [(ps & -> & Hs)|[-> Hs]];
    cbn [Py.bind].
  - destruct (index_neg_2 (l0 :: long)) as [(pl & -> & Hl)|[-> Hl]];
      cbn [Py.bind].
    + split.
      * intros H. exfalso.
        repeat match type of H with
               | context [match ?x with _ => _ end] => destruct x
               end; discriminate.
      * intros (_ & ? & ? & [= <-] & [= <-] & _ & _ & [H|H]); lia.
    + split.
      * intros [= <-]. split; [reflexivity|].
        exists (s0 :: short), (l0 :: long).
        repeat split; try discriminate. right. cbn in *. lia.
      * now intros [-> _].
  - split.
    + intros [= <-]. split; [reflexivity|].
      exists (s0 :: short), (l0 :: long).
      repeat split; try discriminate. left. cbn in *. lia.
    + now intros [-> _].
Qed.

End SmaFacts.

(** ** More properties of the report and of the win/loss count *)

Section ReportFacts.
Import Technical Backtesting Ledger.

(** X5: [win_rate] is 0 for a report without closed round trips, and
    otherwise the fraction of wins among wins and losses, between 0 and 1. *)
Theorem win_rate_fraction (report : BacktestReport) :
  let total := (win_count report + loss_count report)%nat in
  (total = 0%nat -> win_rate report = 0%Q)
  /\ (total <> 0%nat ->
      (win_rate report * inject_Z (Z.of_nat total)
       == inject_Z (Z.of_nat (win_count report)))%Q)
  /\ (0 <= win_rate report)%Q /\ (win_rate report <= 1)%Q.
Proof.
  intros total. unfold win_rate. fold total.
  destruct (total =? 0)%nat eqn:E.
  - apply Nat.eqb_eq in E. repeat split; try discriminate; congruence.
  - apply Nat.eqb_neq in E.
    assert (Hpos : (0 < inject_Z (Z.of_nat total))%Q).
    { change 0%Q with (inject_Z 0). rewrite <- Zlt_Qlt. lia. }
    repeat split.
    + congruence.
    + intros _. field. intros H. rewrite H in Hpos.
      exact (Qlt_irrefl _ Hpos).
    + apply Qle_shift_div_l; [exact Hpos|]. rewrite Qmult_0_l.
      change 0%Q with (inject_Z 0). rewrite <- Zle_Qle. lia.
    + apply Qle_shift_div_r; [exact Hpos|]. rewrite Qmult_1_l.
      rewrite <- Zle_Qle. subst total. lia.
Qed.

Lemma buys_sells_length (trades : list Trade.t) :
  (length (buys trades) + length (sells trades))%nat = length trades.
Proof.
  unfold buys, sells. induction trades as [|t trades IH]; [reflexivity|].
  rewrite !filter_cons. destruct (is_buy t); cbn [negb].
  - rewrite decide_True by exact I. rewrite decide_False by (intros []).
    cbn [length]. lia.
  - rewrite decide_False by (intros []). rewrite decide_True by exact I.
    cbn [length]. lia.
Qed.

Lemma count_go_bound (trades : list Trade.t) (buy_prices : gmap string Q)
    (wins losses : nat) :
  let counted := _count_wins_losses_go trades buy_prices wins losses in
  (wins + losses <= fst counted + snd counted)%nat
  /\ (fst counted + snd counted
      <= wins + losses + size buy_prices + length (buys trades))%nat
  /\ (fst counted + snd counted <= wins + losses + length (sells trades))%nat.
Proof.
  revert buy_prices wins losses.
  induction trades as [|t trades IH]; intros buy_prices wins losses.
  - cbn. lia.
  - cbn [_count_wins_losses_go]. unfold buys, sells in *.
    rewrite !filter_cons.
    destruct (Trade.side t) eqn:Hside.
    + assert (Hb : is_buy t = true) by (unfold is_buy; now rewrite Hside).
      rewrite Hb. cbn [negb].
      rewrite decide_True by exact I. rewrite decide_False by (intros []).
      cbn [length].
      destruct (IH (<[Trade.coin t := Trade.price t]> buy_prices) wins losses)
        as (IH1 & IH2 & IH3).
      pose proof (map_size_insert (Trade.coin t) (Trade.price t) buy_prices)
        as Hsize.
      destruct (buy_prices !! Trade.coin t); unfold id in Hsize; lia.
    + assert (Hb : is_buy t = false) by (unfold is_buy; now rewrite Hside).
      rewrite Hb. cbn [negb].
      rewrite decide_False by (intros []). rewrite decide_True by exact I.
      cbn [length].
      destruct (buy_prices !! Trade.coin t) as [bought|] eqn:Hget.
      * pose proof (map_size_delete (Trade.coin t) buy_prices) as Hsize.
        rewrite Hget in Hsize.
        assert (Hpos : (0 < size buy_prices)%nat).
        { destruct (size buy_prices) eqn:E; [|lia].
          apply map_size_empty_inv in E. subst buy_prices.
          rewrite lookup_empty in Hget. discriminate. }
        destruct (Qlt_bool bought (Trade.price t)).
        -- destruct (IH (delete (Trade.coin t) buy_prices) (S wins) losses)
             as (IH1 & IH2 & IH3). lia.
        -- destruct (IH (delete (Trade.coin t) buy_prices) wins (S losses))
             as (IH1 & IH2 & IH3). lia.
      * destruct (IH buy_prices wins losses) as (IH1 & IH2 & IH3). lia.
Qed.

(** X6: [_count_wins_losses] never counts more round trips than there are
    buys, nor more than there are sells, in the trade log: twice the sum of
    wins and losses is at most the number of trades. *)
Theorem count_wins_losses_bound (trades : list Trade.t) :
  let counted := _count_wins_losses trades in
  (fst counted + snd counted <= length (buys trades))%nat
  /\ (fst counted + snd counted <= length (sells trades))%nat
  /\ (2 * (fst counted + snd counted) <= length trades)%nat.
Proof.
  intros counted. subst counted. unfold _count_wins_losses.
  destruct (count_go_bound trades ∅ 0 0) as (_ & Hb & Hs).
  rewrite map_size_empty in Hb.
  pose proof (buys_sells_length trades). repeat split; lia.
Qed.

Lemma count_go_app (before after : list Trade.t) (buy_prices : gmap string Q)
    (wins losses : nat) :
  _count_wins_losses_go (before ++ after) buy_prices wins losses
  = _count_wins_losses_go after
      (open_buys before buy_prices)
      (fst (_count_wins_losses_go before buy_prices wins losses))
      (snd (_count_wins_losses_go before buy_prices wins losses)).
Proof.
  revert buy_prices wins losses.
  induction before as [|t before IH]; intros buy_prices wins losses;
    [reflexivity|].
  cbn [app _count_wins_losses_go open_buys].
  destruct (Trade.side t).
  - apply IH.
  - destruct (buy_prices !! Trade.coin t) as [bought|] eqn:Hget.
    + destruct (Qlt_bool bought (Trade.price t)); apply IH.
    + rewrite IH. now rewrite (delete_id buy_prices (Trade.coin t) Hget).
Qed.

(** X7: a buy followed by a sell of the same instrument, appended to any
    trade log, adds exactly one round trip to the count: a win when the sell
    price is above the buy price, a loss otherwise, an equal price included. *)
Theorem count_wins_losses_round_trip (trades : list Trade.t)
    (bought sold : Trade.t) :
  Trade.side bought = buy -> Trade.side sold = sell ->
  Trade.coin bought = Trade.coin sold ->
  let before := _count_wins_losses trades in
  _count_wins_losses (trades ++ [bought; sold])
  = if Qlt_bool (Trade.price bought) (Trade.price sold)
    then (S (fst before), snd before)
    else (fst before, S (snd before)).
Proof.
  intros Hb Hs Hcoin before. subst before. unfold _count_wins_losses.
  rewrite count_go_app. cbn [_count_wins_losses_go]. rewrite Hb, Hs, <- Hcoin.
  rewrite lookup_insert_eq.
  destruct (Qlt_bool (Trade.price bought) (Trade.price sold)); reflexivity.
Qed.

End ReportFacts.

(** ** More properties of the runner *)

Section RunnerFacts.
Import Technical Backtesting Api Wording.
Variable ta : TaLib.
Variable score : Signal.t -> Q.
Variable self : BacktestRunner.

Lemma loop_app candles (before after : list nat) (st : LoopState) :
  loop ta score self candles (before ++ after) st
  = Py.bind (loop ta score self candles before st)
            (fun st => loop ta score self candles after st).
Proof.
  revert st. induction before as [|i before IH]; intros st; [reflexivity|].
  cbn [app loop]. destruct (step ta score self candles st i) as [st'|e];
    cbn [Py.bind]; [apply IH|reflexivity].
Qed.

Lemma lookups_drop {A} (xs : list A) (start : nat) :
  map (fun i => xs !! i) (seq start (length xs - start))
  = map Some (drop start xs).
Proof.
  apply list_eq. intros j.
  change (map (fun i => xs !! i)) with (fmap (M := list) (fun i => xs !! i)).
  change (map (@Some A)) with (fmap (M := list) (@Some A)).
  rewrite !list_lookup_fmap, lookup_drop.
  destruct (decide (j < length xs - start)%nat) as [Hj|Hj].
  - rewrite lookup_seq_lt by exact Hj. cbn.
    destruct (lookup_lt_is_Some_2 xs (start + j)) as [x Hx]; [lia|].
    now rewrite Hx.
  - rewrite lookup_seq_ge by lia. cbn.
    rewrite (lookup_ge_None_2 xs (start + j)) by lia. reflexivity.
Qed.

Lemma loop_times candles (indices : list nat) (st st' : LoopState) :
  loop ta score self candles indices st = Ok st' ->
  map (fun p => Some (time p)) (curve st')
  = map (fun p => Some (time p)) (curve st)
    ++ map (fun i => Candle.timestamp <$> candles !! i) indices.
Proof.
  revert st. induction indices as [|i indices IH]; intros st H;
    cbn [loop] in H.
  - injection H as <-. cbn. now rewrite app_nil_r.
  - apply bind_Ok in H as (st1 & Hstep & H).
    destruct (step_marks ta score self candles st i st1 Hstep)
      as (candle & Hcandle & _ & _ & Hcurve).
    rewrite (IH st1 H), Hcurve, map_app. cbn [map time].
    unfold index in Hcandle. destruct (candles !! i) as [c|]; [|discriminate].
    injection Hcandle as ->. now rewrite <- app_assoc.
Qed.

(** X8: a runner with a starting capital of 0 never returns a report: the
    run raises, at the latest when the total return divides by the capital. *)
Theorem zero_capital_raises (candles : list Candle.t) :
  (_capital self == 0)%Q ->
  exists e, run ta score self candles = Raise e /\ engine_error e.
Proof.
  intros Hzero. apply Qeq_bool_iff in Hzero.
  destruct (run ta score self candles) as [report|e] eqn:Hrun.
  - exfalso. unfold run in Hrun.
    apply bind_Ok in Hrun as (first & _ & Hrun).
    apply bind_Ok in Hrun as (final & _ & Hrun).
    apply bind_Ok in Hrun as (st & _ & Hrun).
    apply bind_Ok in Hrun as (total & Hdiv & _).
    unfold Py.div in Hdiv. rewrite Hzero in Hdiv. discriminate.
  - exists e. split; [reflexivity|]. now apply run_error in Hrun.
Qed.

(** The times of the equity curve of a completed run. *)
Lemma curve_times (candles : list Candle.t) (report : BacktestReport) :
  run ta score self candles = Ok report ->
  exists first,
    head candles = Some first
    /\ head (equity_curve report)
       = Some {| time := Candle.timestamp first; value := _capital self |}
    /\ map time (equity_curve report)
       = Candle.timestamp first :: map Candle.timestamp (drop 30 candles)
    /\ length (equity_curve report) = S (length candles - 30).
Proof.
  intros Hrun. unfold run in Hrun.
  apply bind_Ok in Hrun as (first & Hfirst & Hrun).
  apply bind_Ok in Hrun as (final & _ & Hrun).
  apply bind_Ok in Hrun as (st & Hloop & Hrun).
  apply bind_Ok in Hrun as (total & _ & Hrun).
  apply bind_Ok in Hrun as (hold & _ & Hrun).
  destruct (_count_wins_losses _) as [wins losses]. injection Hrun as <-.
  cbn [equity_curve].
  unfold index in Hfirst. rewrite <- head_lookup in Hfirst.
  destruct (head candles) as [c|] eqn:Hhead; [|discriminate].
  injection Hfirst as ->. exists first. split; [reflexivity|].
  pose proof (loop_times candles _ _ _ Hloop) as Htimes.
  cbn [initial curve map time] in Htimes.
  assert (Hmap : map (fun i => Candle.timestamp <$> candles !! i)
                     (seq 30 (length candles - 30))
                 = map Some (map Candle.timestamp (drop 30 candles))).
  { rewrite <- (map_map (fun i => candles !! i) (fmap Candle.timestamp)).
    rewrite lookups_drop, !map_map. reflexivity. }
  rewrite Hmap in Htimes.
  assert (Hcurve : map time (curve st)
                   = Candle.timestamp first
                     :: map Candle.timestamp (drop 30 candles)).
  { apply (inj (fmap (M := list) (@Some Z))).
    change (fmap (M := list) (@Some Z)) with (map (@Some Z)).
    rewrite map_map. exact Htimes. }
  repeat split.
  - destruct (curve st) as [|p ps] eqn:Hc; [discriminate Hcurve|].
    clear Hmap Htimes Hcurve.
    assert (Hhd : head (curve st)
                  = Some {| time := Candle.timestamp first;
                            value := _capital self |}).
    { clear Hc. revert Hloop. generalize (seq 30 (length candles - 30)).
      intros indices.
      assert (Hinit : head (curve (initial self first))
                      = Some {| time := Candle.timestamp first;
                                value := _capital self |}) by reflexivity.
      revert Hinit. generalize (initial self first) as st0.
      induction indices as [|i indices IH]; intros st0 Hinit Hloop;
        cbn [loop] in Hloop.
      - now injection Hloop as <-.
      - apply bind_Ok in Hloop as (st1 & Hstep & Hloop).
        apply (IH st1); [|exact Hloop].
        destruct (step_marks ta score self candles st0 i st1 Hstep)
          as (candle & _ & _ & _ & ->).
        destruct (curve st0); [discriminate|exact Hinit]. }
    rewrite Hc in Hhd. exact Hhd.
  - exact Hcurve.
  - rewrite <- (length_map time), Hcurve. cbn [length].
    now rewrite length_map, length_drop.
Qed.

(** X9: the equity curve of a completed run starts with the point (time
    of the first candle, starting capital) and then has one point per candle
    from index 30 on, at that candle's time: [max(len - 30, 0) + 1] points. *)
Theorem equity_curve_times (candles : list Candle.t) (report : BacktestReport) :
  run ta score self candles = Ok report ->
  exists first,
    head candles = Some first
    /\ head (equity_curve report)
       = Some {| time := Candle.timestamp first; value := _capital self |}
    /\ map time (equity_curve report)
       = Candle.timestamp first :: map Candle.timestamp (drop 30 candles)
    /\ length (equity_curve report) = S (length candles - 30).
Proof.
  exact (curve_times candles report).
Qed.

(** X10: when the candle timestamps increase strictly, so do the times of
    the equity curve of a completed run. *)
Theorem equity_curve_increasing (candles : list Candle.t)
    (report : BacktestReport) :
  StronglySorted Z.lt (map Candle.timestamp candles) ->
  run ta score self candles = Ok report ->
  StronglySorted Z.lt (map time (equity_curve report)).
Proof.
  intros Hsorted Hrun.
  destruct (curve_times candles report Hrun)
    as (first & Hhead & _ & -> & _).
  destruct candles as [|c rest]; [discriminate|]. injection Hhead as ->.
  cbn [map] in Hsorted. apply StronglySorted_inv in Hsorted as [Hrest Hall].
  change (drop 30 (first :: rest)) with (drop 29 rest).
  rewrite <- (take_drop 29 rest), map_app in Hrest, Hall.
  constructor.
  - now apply StronglySorted_app_1_r in Hrest.
  - now apply Forall_app in Hall as [_ Hall].
Qed.

(** X11: over at most 30 candles the loop makes no step: with a non-zero
    capital and a non-zero first close, the run completes with no trade, a
    final value equal to the capital, a zero total return and drawdown, and
    an equity curve of one point. *)
Theorem short_series_untraded (candles : list Candle.t) (first : Candle.t) :
  head candles = Some first ->
  (length candles <= 30)%nat ->
  ~ (_capital self == 0)%Q ->
  ~ (Candle.close first == 0)%Q ->
  exists report,
    run ta score self candles = Ok report
    /\ report_trades report = [] /\ trade_count report = 0%nat
    /\ win_count report = 0%nat /\ loss_count report = 0%nat
    /\ final_value report = _capital self
    /\ (total_return_pct report == 0)%Q
    /\ max_drawdown_pct report = 0%Q
    /\ equity_curve report
       = [{| time := Candle.timestamp first; value := _capital self |}].
Proof.
  intros Hhead Hlen Hcap Hclose. unfold run, index.
  rewrite <- head_lookup, Hhead. cbn [Py.bind].
  destruct (index_neg candles 1) as [final|e] eqn:Hfinal.
  2:{ exfalso. unfold index_neg, index in Hfinal.
      rewrite <- head_lookup, head_reverse in Hfinal.
      destruct (last candles) eqn:E; [discriminate|].
      apply last_None in E. subst candles. discriminate. }
  cbn [Py.bind]. replace (length candles - 30)%nat with 0%nat by lia.
  cbn [seq loop Py.bind initial executor portfolio trades curve
       mark_to_market Portfolio.positions Portfolio.cash fold_left
       max_drawdown].
  unfold Py.div.
  destruct (Qeq_bool (_capital self) 0) eqn:E1;
    [apply Qeq_bool_iff in E1; contradiction|].
  destruct (Qeq_bool (Candle.close first) 0) eqn:E2;
    [apply Qeq_bool_iff in E2; contradiction|].
  cbn [Py.bind]. eexists. split; [reflexivity|].
  cbn. repeat split. unfold Qdiv. ring.
Qed.

(** X12: over more than 30 candles, the last point of the equity curve of
    a completed run is at the time of the last candle and its value is the
    reported final value rounded to two decimals. *)
Theorem last_point_is_final_value (candles : list Candle.t)
    (report : BacktestReport) (final : Candle.t) :
  (30 < length candles)%nat ->
  last candles = Some final ->
  run ta score self candles = Ok report ->
  last (equity_curve report)
  = Some {| time := Candle.timestamp final;
            value := round_nd (final_value report) 2 |}.
Proof.
  intros Hlen Hlast Hrun. unfold run in Hrun.
  apply bind_Ok in Hrun as (first & _ & Hrun).
  apply bind_Ok in Hrun as (final' & Hfinal & Hrun).
  assert (final' = final) as ->.
  { unfold index_neg, index in Hfinal.
    rewrite <- head_lookup, head_reverse, Hlast in Hfinal. congruence. }
  apply bind_Ok in Hrun as (st & Hloop & Hrun).
  apply bind_Ok in Hrun as (total & _ & Hrun).
  apply bind_Ok in Hrun as (hold & _ & Hrun).
  destruct (_count_wins_losses _) as [wins losses]. injection Hrun as <-.
  cbn [equity_curve final_value].
  replace (length candles - 30)%nat with (S (length candles - 31)) in Hloop
    by lia.
  rewrite seq_S, loop_app in Hloop.
  apply bind_Ok in Hloop as (st1 & _ & Hloop). cbn [loop] in Hloop.
  apply bind_Ok in Hloop as (st2 & Hstep & Hloop). injection Hloop as ->.
  destruct (step_marks ta score self candles st1 _ st Hstep)
    as (candle & Hcandle & _ & _ & ->).
  rewrite last_snoc.
  assert (candle = final) as ->; [|reflexivity].
  unfold index in Hcandle.
  replace (30 + (length candles - 31))%nat with (Nat.pred (length candles))
    in Hcandle by lia.
  rewrite <- last_lookup, Hlast in Hcandle. congruence.
Qed.

End RunnerFacts.

(** ** What the loop keeps true of the portfolio

    These statements go through [execute_buy] and [execute_sell] as modelled
    from section 4.4. *)

Section PortfolioFacts.
Import Technical Backtesting Api Wording.
Variable ta : TaLib.
Variable score : Signal.t -> Q.
Variable self : BacktestRunner.

Lemma act_appends_at_most_one ex signals coin candle ex' :
  act score self ex signals coin candle = Ok ex' ->
  (length (trades ex') <= S (length (trades ex)))%nat.
Proof.
  unfold act. intros H.
  destruct signals as [|s rest]; [injection H as <-; lia|].
  destruct (Direction_eqb _ bullish && negb (Portfolio.holds coin (portfolio ex))).
  - destruct (Qlt_bool 1 _); [|injection H as <-; lia].
    unfold execute_buy in H. apply bind_Ok in H as (quantity & _ & H).
    injection H as <-. cbn [trades]. rewrite length_app. cbn. lia.
  - destruct (Direction_eqb _ bearish && Portfolio.holds coin (portfolio ex));
      [|injection H as <-; lia].
    unfold execute_sell in H.
    destruct (Portfolio.get coin (portfolio ex)); [|discriminate].
    injection H as <-. cbn [trades]. rewrite length_app. cbn. lia.
Qed.

Lemma step_executor candles st i st' :
  step ta score self candles st i = Ok st' ->
  exists candle signals,
    candles !! i = Some candle
    /\ act score self (executor st) signals (Candle.coin candle) candle
       = Ok (executor st').
Proof.
  unfold step. intros H.
  apply bind_Ok in H as (candle & Hcandle & H).
  apply bind_Ok in H as (signals & _ & H).
  apply bind_Ok in H as (ex & Hact & H).
  destruct (track_drawdown _ _ _). injection H as <-.
  exists candle, signals. split; [|exact Hact].
  unfold index in Hcandle. destruct (candles !! i); congruence.
Qed.

(** X13: every step appends at most one trade, so a completed run over
    [n] candles reports at most [n - 30] trades, and [trade_count] is the
    length of the trade log. *)
Theorem trade_count_bounded (candles : list Candle.t) (report : BacktestReport) :
  run ta score self candles = Ok report ->
  trade_count report = length (report_trades report)
  /\ (trade_count report <= length candles - 30)%nat.
Proof.
  intros Hrun. unfold run in Hrun.
  apply bind_Ok in Hrun as (first & _ & Hrun).
  apply bind_Ok in Hrun as (final & _ & Hrun).
  apply bind_Ok in Hrun as (st & Hloop & Hrun).
  apply bind_Ok in Hrun as (total & _ & Hrun).
  apply bind_Ok in Hrun as (hold & _ & Hrun).
  destruct (_count_wins_losses _) as [wins losses]. injection Hrun as <-.
  cbn [trade_count report_trades]. split; [reflexivity|].
  assert (Hgoal : (length (trades (executor st))
                   <= length (trades (executor (initial self first)))
                      + length (seq 30 (length candles - 30)))%nat);
    [|rewrite length_seq in Hgoal; exact Hgoal].
  revert Hloop. generalize (initial self first) as st0.
  generalize (seq 30 (length candles - 30)) as indices.
  induction indices as [|i indices IH]; intros st0 H; cbn [loop] in H.
  - injection H as <-. lia.
  - apply bind_Ok in H as (st1 & Hstep & H). specialize (IH st1 H).
    destruct (step_executor candles st0 i st1 Hstep)
      as (candle & signals & _ & Hact).
    apply act_appends_at_most_one in Hact. cbn [length]. lia.
Qed.

Lemma mark_to_market_nonneg (p : Portfolio.t) (close : Q) :
  (0 <= Portfolio.cash p)%Q -> (0 <= close)%Q ->
  Forall (fun kv => (0 < Position.quantity (snd kv))%Q) (Portfolio.positions p) ->
  (0 <= mark_to_market p close)%Q.
Proof.
  unfold mark_to_market. generalize (Portfolio.cash p) as cash.
  induction (Portfolio.positions p) as [|kv positions IH];
    intros cash Hcash Hclose Hall; cbn [fold_left]; [exact Hcash|].
  apply Forall_cons in Hall as [Hq Hall]. apply IH; [|exact Hclose|exact Hall].
  rewrite <- (Qplus_0_r 0). apply Qplus_le_compat; [exact Hcash|].
  apply Qmult_le_0_compat; [now apply Qlt_le_weak|exact Hclose].
Qed.

Lemma act_keeps_solvent ex signals coin candle ex' :
  (_position_size_pct self <= 100)%Q ->
  (0 <= Candle.close candle)%Q ->
  act score self ex signals coin candle = Ok ex' ->
  (0 <= Portfolio.cash (portfolio ex))%Q ->
  Forall (fun kv => (0 < Position.quantity (snd kv))%Q)
         (Portfolio.positions (portfolio ex)) ->
  (0 <= Portfolio.cash (portfolio ex'))%Q
  /\ Forall (fun kv => (0 < Position.quantity (snd kv))%Q)
            (Portfolio.positions (portfolio ex')).
Proof.
  intros Hpct Hclose H Hcash Hall. unfold act in H.
  destruct signals as [|s rest]; [now injection H as <-|].
  destruct (Direction_eqb _ bullish && negb (Portfolio.holds coin (portfolio ex))).
  - destruct (Qlt_bool 1 _) eqn:Hamount; [|now injection H as <-].
    apply Qlt_bool_iff in Hamount.
    unfold execute_buy in H. apply bind_Ok in H as (quantity & Hdiv & H).
    injection H as <-. cbn [portfolio Portfolio.positions Portfolio.cash].
    unfold Py.div in Hdiv.
    destruct (Qeq_bool (Candle.close candle) 0) eqn:Hzero; [discriminate|].
    injection Hdiv as <-.
    assert (Hpos : (0 < Candle.close candle)%Q).
    { apply Qle_lt_or_eq in Hclose as [Hlt|Heq]; [exact Hlt|].
      symmetry in Heq. apply Qeq_bool_iff in Heq. congruence. }
    split.
    + set (cash := Portfolio.cash (portfolio ex)) in *.
      assert (Hle : (cash * (_position_size_pct self / 100) <= cash * 1)%Q).
      { rewrite !(Qmult_comm cash). apply Qmult_le_compat_r; [|exact Hcash].
        apply Qle_shift_div_r; [reflexivity|]. exact Hpct. }
      rewrite Qmult_1_r in Hle. unfold Qminus.
      rewrite <- (Qplus_opp_r (cash * (_position_size_pct self / 100))).
      now apply Qplus_le_l.
    + apply Forall_app. split; [exact Hall|].
      apply Forall_cons. split; [|apply Forall_nil_2]. cbn [snd Position.quantity].
      apply Qlt_shift_div_l; [exact Hpos|]. rewrite Qmult_0_l.
      now apply Qlt_trans with 1%Q.
  - destruct (Direction_eqb _ bearish && Portfolio.holds coin (portfolio ex));
      [|now injection H as <-].
    unfold execute_sell in H.
    destruct (Portfolio.get coin (portfolio ex)) as [position|] eqn:Hget;
      [|discriminate].
    injection H as <-. cbn [portfolio Portfolio.positions Portfolio.cash].
    split.
    + rewrite <- (Qplus_0_r 0). apply Qplus_le_compat; [exact Hcash|].
      apply Qmult_le_0_compat; [|exact Hclose].
      unfold Portfolio.get in Hget.
      destruct (find _ _) as [[k pos]|] eqn:Hfind; [|discriminate].
      injection Hget as <-. apply find_some in Hfind as [Hin _].
      rewrite Forall_forall in Hall. apply Qlt_le_weak.
      apply (Hall (k, pos)). now apply list_elem_of_In.
    + rewrite Forall_forall in Hall. apply Forall_forall.
      intros kv Hkv. apply list_elem_of_filter in Hkv as [_ Hkv].
      now apply Hall.
Qed.

(** X14: with a non-negative capital, a position size of at most 100 %
    and non-negative closes, the cash never goes negative along the loop,
    every open position has a positive quantity, and no point of the equity
    curve is negative. *)
Theorem cash_never_negative (candles : list Candle.t) (first : Candle.t)
    (indices : list nat) (st : LoopState) :
  (0 <= _capital self)%Q ->
  (_position_size_pct self <= 100)%Q ->
  Forall (fun c => (0 <= Candle.close c)%Q) candles ->
  loop ta score self candles indices (initial self first) = Ok st ->
  (0 <= Portfolio.cash (portfolio (executor st)))%Q
  /\ Forall (fun kv => (0 < Position.quantity (snd kv))%Q)
            (Portfolio.positions (portfolio (executor st)))
  /\ Forall (fun p => (0 <= value p)%Q) (curve st).
Proof.
  intros Hcap Hpct Hcloses.
  assert (Hinit :
    (0 <= Portfolio.cash (portfolio (executor (initial self first))))%Q
    /\ Forall (fun kv => (0 < Position.quantity (snd kv))%Q)
              (Portfolio.positions (portfolio (executor (initial self first))))
    /\ Forall (fun p => (0 <= value p)%Q) (curve (initial self first))).
  { cbn. repeat split; [exact Hcap|apply Forall_nil_2|].
    apply Forall_cons. split; [exact Hcap|apply Forall_nil_2]. }
  revert Hinit. generalize (initial self first) as st0. revert st.
  induction indices as [|i indices IH]; intros st st0 Hinit H; cbn [loop] in H.
  - now injection H as <-.
  - apply bind_Ok in H as (st1 & Hstep & H). apply (IH st st1); [|exact H].
    destruct Hinit as (Hcash & Hall & Hcurve).
    destruct (step_executor candles st0 i st1 Hstep)
      as (candle & signals & Hcandle & Hact).
    assert (Hclose : (0 <= Candle.close candle)%Q).
    { rewrite Forall_forall in Hcloses. apply Hcloses.
      now apply list_elem_of_lookup_2 in Hcandle. }
    destruct (act_keeps_solvent _ _ _ _ _ Hpct Hclose Hact Hcash Hall)
      as [Hcash1 Hall1].
    repeat split; [exact Hcash1|exact Hall1|].
    destruct (step_marks ta score self candles st0 i st1 Hstep)
      as (candle' & Hcandle' & _ & _ & ->).
    unfold index in Hcandle'. rewrite Hcandle in Hcandle'.
    injection Hcandle' as <-.
    apply Forall_app. split; [exact Hcurve|].
    apply Forall_cons. split; [|apply Forall_nil_2]. cbn [value].
    apply round_nd_nonneg. now apply mark_to_market_nonneg.
Qed.

End PortfolioFacts.

(** ** Stored runs *)

Section StorageFacts.
Import Storage.
Variable json : Type.
Variable json_loads : string -> gmap string json.

Lemma summary_lookup (results : Column json) (key : string) :
  _summary json_loads results !! key
  = if decide (key = "equity_curve") then None
    else load json_loads results !! key.
Proof.
  unfold _summary. apply option_eq. intros v.
  rewrite map_lookup_filter_Some. cbn [fst].
  destruct (decide (key = "equity_curve")) as [->|Hne].
  - split; [intros [_ H]; now elim H|discriminate].
  - tauto.
Qed.

(** X15: [_summary] drops the key [equity_curve] and nothing else: every
    other key of the results document keeps its value, and summarising a
    summary changes nothing. *)
Theorem summary_drops_curve_only (results : Column json) :
  _summary json_loads results !! "equity_curve" = None
  /\ (forall key, key <> "equity_curve" ->
        _summary json_loads results !! key = load json_loads results !! key)
  /\ _summary json_loads (Document (_summary json_loads results))
     = _summary json_loads results.
Proof.
  repeat split.
  - rewrite summary_lookup. now rewrite decide_True.
  - intros key Hkey. rewrite summary_lookup. now rewrite decide_False.
  - apply map_eq. intros key. rewrite !summary_lookup. cbn [load].
    rewrite summary_lookup. now destruct (decide _).
Qed.

(** The two outcomes of [get_run]. *)
Lemma get_run_cases (table : list (Row json)) (run_id : string) :
  (forall e, get_run json_loads table run_id = Raise e
             <-> e = HTTPException 404
                 /\ Forall (fun row => id row <> run_id) table)
  /\ (forall view, get_run json_loads table run_id = Ok view ->
        v_id view = run_id
        /\ exists before row after,
             table = before ++ row :: after
             /\ Forall (fun row => id row <> run_id) before
             /\ id row = run_id
             /\ v_params view = load json_loads (params row)
             /\ v_results view = load json_loads (results row)).
Proof.
  unfold get_run. induction table as [|row table [IHr IHo]]; cbn [find].
  - split.
    + intros e. split; [intros [= <-]; split; [reflexivity|constructor]|].
      now intros [-> _].
    + discriminate.
  - destruct (String.eqb (id row) run_id) eqn:E.
    + apply String.eqb_eq in E. split.
      * intros e. split; [discriminate|].
        intros [_ H]. apply Forall_cons in H as [H _]. contradiction.
      * intros view [= <-]. cbn. split; [exact E|].
        exists [], row, table. repeat split; [constructor|exact E].
    + apply String.eqb_neq in E. split.
      * intros e. rewrite IHr. rewrite Forall_cons. tauto.
      * intros view Hview. destruct (IHo view Hview)
          as (Hid & before & row' & after & -> & Hb & Hr & Hp & Hres).
        split; [exact Hid|].
        exists (row :: before), row', after.
        repeat split; try assumption. now constructor.
Qed.

(** X16: [get_run] answers 404 exactly when no row has the requested id;
    otherwise it returns the first row with that id, with its params and its
    full results document. *)
Theorem get_run_found (table : list (Row json)) (run_id : string) :
  (forall e, get_run json_loads table run_id = Raise e
             <-> e = HTTPException 404
                 /\ Forall (fun row => id row <> run_id) table)
  /\ (forall view, get_run json_loads table run_id = Ok view ->
        v_id view = run_id
        /\ exists before row after,
             table = before ++ row :: after
             /\ Forall (fun row => id row <> run_id) before
             /\ id row = run_id
             /\ v_params view = load json_loads (params row)
             /\ v_results view = load json_loads (results row)).
Proof.
  exact (get_run_cases table run_id).
Qed.

(** X17: while the table holds at most 100 runs, the list has one entry
    per row, and the entry [list_runs] gives for a run that [get_run] returns
    has the same id and params, and its results are the detail's results
    without [equity_curve]; the list never has more than 100 entries. *)
Theorem list_entry_matches_detail (table : list (Row json)) (run_id : string)
    (detail : View json) :
  (length table <= 100)%nat ->
  get_run json_loads table run_id = Ok detail ->
  length (list_runs json_loads (recent table)) = length table
  /\ (forall stored : list (Row json),
        (length (list_runs json_loads (recent stored)) <= 100)%nat)
  /\ exists entry,
       entry ∈ list_runs json_loads (recent table)
       /\ v_id entry = run_id
       /\ v_params entry = v_params detail
       /\ v_results entry
          = filter (fun kv => fst kv <> "equity_curve") (v_results detail).
Proof.
  intros Hsmall Hget.
  assert (Hall : recent table ≡ₚ table).
  { unfold recent. rewrite take_ge; [apply merge_sort_Permutation|].
    now rewrite merge_sort_Permutation. }
  split; [|split].
  - unfold list_runs. rewrite length_map. now rewrite Hall.
  - intros stored. unfold list_runs, recent. rewrite length_map, length_take.
    lia.
  - destruct (proj2 (get_run_cases table run_id) detail Hget)
      as (_ & before & row & after & Htable & _ & Hid & Hp & Hr).
    eexists. split.
    + unfold list_runs. apply list_elem_of_fmap. exists row.
      split; [reflexivity|]. rewrite Hall, Htable.
      apply elem_of_app. right. apply list_elem_of_here.
    + cbn. rewrite Hp, Hr. repeat split. exact Hid.
Qed.

End StorageFacts.

(** ** Fetching candles page by page *)

Section LoaderFacts.
Import Loader.
Variable fetch_candles : string -> string -> Z -> nat -> result (list Candle.t).
Variable now : Q.

(** X18: [_fetch_candles] stops after the first request when that request
    raises, returns nothing or returns fewer than 300 candles: the error
    propagates, or the result is exactly that batch. *)
Theorem fetch_single_page (fuel : nat) (symbol timeframe : string) (days : Z) :
  let since := Py.int ((now - inject_Z (days * 86400)) * 1000) in
  (forall e, fetch_candles symbol timeframe since 300 = Raise e ->
     _fetch_candles fetch_candles now (S fuel) symbol timeframe days
     = Some (Raise e))
  /\ (forall batch, fetch_candles symbol timeframe since 300 = Ok batch ->
        (length batch < 300)%nat ->
        _fetch_candles fetch_candles now (S fuel) symbol timeframe days
        = Some (Ok batch)).
Proof.
  intros since. unfold _fetch_candles. fold since. cbn [pages]. split.
  - intros e ->. reflexivity.
  - intros batch -> Hlen.
    destruct (last batch) eqn:E.
    + apply Nat.ltb_lt in Hlen. now rewrite Hlen.
    + apply last_None in E. now subst batch.
Qed.

Lemma sorted_sublist {A} (R : A -> A -> Prop) (l k : list A) :
  l `sublist_of` k -> StronglySorted R k -> StronglySorted R l.
Proof.
  induction 1 as [|x l k Hsub IH|x l k Hsub IH]; intros H.
  - constructor.
  - apply StronglySorted_inv in H as [H Hall]. constructor; [now apply IH|].
    rewrite Forall_forall in Hall. apply Forall_forall. intros y Hy.
    apply Hall. eapply elem_of_sublist; [exact Hy|exact Hsub].
  - apply StronglySorted_inv in H as [H _]. now apply IH.
Qed.

Lemma sorted_last_max (batch : list Candle.t) (final c : Candle.t) :
  StronglySorted (fun a b => Candle.timestamp a < Candle.timestamp b) batch ->
  last batch = Some final -> c ∈ batch ->
  Candle.timestamp c <= Candle.timestamp final.
Proof.
  intros Hsorted Hlast Hc.
  destruct (exists_last (l := batch)) as (front & final' & ->).
  { intros ->. discriminate. }
  rewrite last_snoc in Hlast. injection Hlast as ->.
  apply elem_of_app in Hc as [Hc|Hc].
  - apply Z.lt_le_incl.
    apply (StronglySorted_app_1_elem_of _ front [final] c final Hsorted Hc).
    apply list_elem_of_here.
  - apply list_elem_of_singleton in Hc as ->. lia.
Qed.

Lemma pages_ascending (symbol timeframe : string) (since0 T : Z) :
  (forall since batch,
     fetch_candles symbol timeframe since 300 = Ok batch ->
     StronglySorted (fun a b => Candle.timestamp a < Candle.timestamp b) batch
     /\ Forall (fun c => since <= Candle.timestamp c * 1000 <= T) batch) ->
  forall (fuel : nat) (since : Z) (acc : list Candle.t),
    since0 <= since ->
    StronglySorted (fun a b => Candle.timestamp a < Candle.timestamp b) acc ->
    Forall (fun c => since0 <= Candle.timestamp c * 1000 < since) acc ->
    (S (Z.to_nat (T + 1 - since)) <= fuel)%nat ->
    exists r,
      pages fetch_candles fuel symbol timeframe since acc = Some r
      /\ forall candles, r = Ok candles ->
           StronglySorted (fun a b => Candle.timestamp a < Candle.timestamp b)
                          candles
           /\ Forall (fun c => since0 <= Candle.timestamp c * 1000) candles.
Proof.
  intros Hloader. induction fuel as [|fuel IH]; intros since acc H0 Hacc Hlow Hfuel;
    [lia|].
  cbn [pages].
  destruct (fetch_candles symbol timeframe since 300) as [batch|e] eqn:Hfetch.
  2:{ eexists. split; [reflexivity|discriminate]. }
  destruct (Hloader since batch Hfetch) as [Hsorted Hrange].
  assert (Hdone : forall candles, Ok (acc ++ batch) = Ok candles ->
            StronglySorted (fun a b => Candle.timestamp a < Candle.timestamp b)
                           candles
            /\ Forall (fun c => since0 <= Candle.timestamp c * 1000) candles).
  { intros candles [= <-]. rewrite Forall_forall in Hlow, Hrange. split.
    - apply StronglySorted_app_2; [|exact Hacc|exact Hsorted].
      intros a b Ha Hb. apply Hlow in Ha. apply Hrange in Hb. lia.
    - apply Forall_app. split; apply Forall_forall; intros c Hc;
        [apply Hlow in Hc|apply Hrange in Hc]; lia. }
  destruct (last batch) as [final|] eqn:Hlast.
  2:{ eexists. split; [reflexivity|]. intros candles [= <-]. split; [exact Hacc|].
      eapply Forall_impl; [exact Hlow|]. intros c Hc. cbn in Hc. lia. }
  destruct (length batch <? 300)%nat; [eexists; split; [reflexivity|exact Hdone]|].
  assert (Hfinal : since <= Candle.timestamp final * 1000 <= T).
  { rewrite Forall_forall in Hrange. apply Hrange.
    apply last_Some_elem_of. exact Hlast. }
  apply IH.
  - lia.
  - apply (proj1 (Hdone _ eq_refl)).
  - rewrite Forall_forall in Hlow, Hrange. apply Forall_app.
    split; apply Forall_forall; intros c Hc.
    + apply Hlow in Hc. lia.
    + pose proof (sorted_last_max batch final c Hsorted Hlast Hc).
      apply Hrange in Hc. lia.
  - lia.
Qed.

(** X19: if every batch the loader returns is strictly ascending in time
    and holds only candles at or after the requested [since] and not after
    some time [T], then [_fetch_candles] leaves its loop after at most
    [T + 2 - since] requests, and the candles it returns are strictly
    ascending in time, none repeated across pages, all at or after
    [since]. *)
Theorem fetch_candles_ascending (fuel : nat) (symbol timeframe : string)
    (days T : Z) :
  let since := Py.int ((now - inject_Z (days * 86400)) * 1000) in
  (forall since batch,
     fetch_candles symbol timeframe since 300 = Ok batch ->
     StronglySorted (fun a b => Candle.timestamp a < Candle.timestamp b) batch
     /\ Forall (fun c => since <= Candle.timestamp c * 1000 <= T) batch) ->
  (S (Z.to_nat (T + 1 - since)) <= fuel)%nat ->
  exists r,
    _fetch_candles fetch_candles now fuel symbol timeframe days = Some r
    /\ forall candles, r = Ok candles ->
         StronglySorted (fun a b => Candle.timestamp a < Candle.timestamp b)
                        candles
         /\ Forall (fun c => since <= Candle.timestamp c * 1000) candles.
Proof.
  intros since Hloader Hfuel. unfold _fetch_candles. fold since.
  apply (pages_ascending symbol timeframe since T Hloader fuel since []);
    [lia|constructor|constructor|exact Hfuel].
Qed.

End LoaderFacts.

(** ** From the selection to the compare page *)

Section NavigationFacts.
Import Navigation.
Import Stdlib.Strings.Ascii.

Lemma split_nonempty (sep : ascii) (s : string) : split sep s <> [].
Proof.
  destruct s as [|c s]; cbn [split]; [discriminate|].
  destruct (Ascii.eqb c sep); [discriminate|].
  destruct (split sep s); discriminate.
Qed.

Lemma split_without (sep : ascii) (x : string) :
  ~ In sep (String.list_ascii_of_string x) -> split sep x = [x].
Proof.
  induction x as [|c x IH]; cbn [split String.list_ascii_of_string]; intros H;
    [reflexivity|].
  destruct (Ascii.eqb c sep) eqn:E.
  - apply Ascii.eqb_eq in E. exfalso. apply H. now left.
  - rewrite IH; [reflexivity|]. intros Hin. apply H. now right.
Qed.

Lemma split_before (sep : ascii) (x s : string) :
  ~ In sep (String.list_ascii_of_string x) ->
  split sep (String.append x (String sep s)) = x :: split sep s.
Proof.
  induction x as [|c x IH]; cbn [String.list_ascii_of_string]; intros H.
  - change (String.append "" (String sep s)) with (String sep s).
    cbn [split]. now rewrite Ascii.eqb_refl.
  - change (String.append (String c x) (String sep s))
      with (String c (String.append x (String sep s))).
    cbn [split]. destruct (Ascii.eqb c sep) eqn:E.
    + apply Ascii.eqb_eq in E. exfalso. apply H. now left.
    + rewrite IH; [reflexivity|]. intros Hin. apply H. now right.
Qed.

Lemma split_join (selected : list string) :
  selected <> [] ->
  Forall (fun id => ~ In ","%char (String.list_ascii_of_string id)) selected ->
  split ","%char (join "," selected) = selected.
Proof.
  intros Hne Hall.
  induction selected as [|x rest IH]; [contradiction|].
  apply Forall_cons in Hall as [Hx Hall].
  destruct rest as [|y rest].
  - now apply split_without.
  - change (join "," (x :: y :: rest))
      with (String.append x (String ","%char (join "," (y :: rest)))).
    rewrite split_before by exact Hx. f_equal. now apply IH.
Qed.

Lemma chars_append (a b : string) :
  String.list_ascii_of_string (String.append a b)
  = String.list_ascii_of_string a ++ String.list_ascii_of_string b.
Proof.
  induction a as [|c a IH]; [reflexivity|].
  change (String.append (String c a) b) with (String c (String.append a b)).
  cbn [String.list_ascii_of_string app]. now rewrite IH.
Qed.

Lemma join_plain (selected : list string) :
  Forall (fun id => forallb plain (String.list_ascii_of_string id) = true)
         selected ->
  forallb (fun c => plain c || Ascii.eqb c ","%char)
          (String.list_ascii_of_string (join "," selected)) = true.
Proof.
  assert (Hweak : forall id,
            forallb plain (String.list_ascii_of_string id) = true ->
            forallb (fun c => plain c || Ascii.eqb c ","%char)
                    (String.list_ascii_of_string id) = true).
  { intros id H. rewrite forallb_forall in H. apply forallb_forall.
    intros c Hc. now rewrite (H c Hc). }
  induction selected as [|x rest IH]; intros Hall; [reflexivity|].
  apply Forall_cons in Hall as [Hx Hall].
  destruct rest as [|y rest]; [now apply Hweak|].
  change (join "," (x :: y :: rest))
    with (String.append x (String ","%char (join "," (y :: rest)))).
  rewrite chars_append, forallb_app, (Hweak x Hx).
  cbn [String.list_ascii_of_string forallb andb]. now apply IH.
Qed.

(** X20: the ids the history page joins into the route it pushes are the
    ids the compare page splits out of the [ids] parameter of that route, in
    the same order, provided at least one run is selected, the ids are made
    of letters, digits and hyphens, as UUIDs are, and the router hands a
    value of such characters and commas over unchanged. *)
Theorem ids_round_trip (get : string -> string -> option string)
    (selected : list string) :
  (forall value,
     forallb (fun c => plain c || Ascii.eqb c ","%char)
             (String.list_ascii_of_string value) = true ->
     get ("/backtest/compare?ids=" +:+ value) "ids" = Some value) ->
  selected <> [] ->
  Forall (fun id => forallb plain (String.list_ascii_of_string id) = true)
         selected ->
  ids_of (get (Navigation.compare selected) "ids") = selected.
Proof.
  intros Hget Hne Hall. unfold Navigation.compare.
  rewrite Hget by now apply join_plain. cbn [ids_of].
  apply split_join; [exact Hne|].
  eapply Forall_impl; [exact Hall|]. intros id Hid Hin. cbn in Hid.
  rewrite forallb_forall in Hid. apply Hid in Hin. discriminate Hin.
Qed.

Lemma before_without (c : ascii) (s : string) :
  ~ In c (String.list_ascii_of_string s) -> Browser.before c s = s.
Proof.
  induction s as [|a s IH]; cbn [Browser.before String.list_ascii_of_string];
    intros H; [reflexivity|].
  destruct (Ascii.eqb a c) eqn:E.
  - apply Ascii.eqb_eq in E. exfalso. apply H. now left.
  - rewrite IH; [reflexivity|]. intros Hin. apply H. now right.
Qed.

Lemma spaces_without (s : string) :
  ~ In "+"%char (String.list_ascii_of_string s) -> Browser.spaces s = s.
Proof.
  induction s as [|a s IH]; cbn [Browser.spaces String.list_ascii_of_string];
    intros H; [reflexivity|].
  destruct (Ascii.eqb a "+"%char) eqn:E.
  - apply Ascii.eqb_eq in E. exfalso. apply H. now left.
  - rewrite IH; [reflexivity|]. intros Hin. apply H. now right.
Qed.

(** The reader of query strings hands the [ids] of the compare route over
    unchanged when they are made of letters, digits, hyphens and commas. *)
Lemma searchParams_get_ids (value : string) :
  forallb (fun c => plain c || Ascii.eqb c ","%char)
          (String.list_ascii_of_string value) = true ->
  Browser.searchParams_get ("/backtest/compare?ids=" +:+ value) "ids"
  = Some value.
Proof.
  intros H. rewrite forallb_forall in H.
  assert (Hno : forall c, plain c || Ascii.eqb c ","%char = false ->
                          ~ In c (String.list_ascii_of_string value)).
  { intros c Hc Hin. apply H in Hin. congruence. }
  unfold Browser.searchParams_get. cbv [String.append]. cbn.
  rewrite before_without by (apply Hno; reflexivity).
  rewrite split_without by (apply Hno; reflexivity).
  rewrite filter_cons. cbn. rewrite decide_True by exact I. cbn.
  rewrite spaces_without by (apply Hno; reflexivity). reflexivity.
Qed.

Lemma join_split (s : string) : join "," (split ","%char s) = s.
Proof.
  induction s as [|c s IH]; cbn [split]; [reflexivity|].
  pose proof (split_nonempty ","%char s) as Hne.
  destruct (Ascii.eqb c ","%char) eqn:E.
  - apply Ascii.eqb_eq in E. subst c.
    destruct (split ","%char s) as [|h t]; [contradiction|].
    change (join "," ("" :: h :: t))
      with (String ","%char (join "," (h :: t))).
    now rewrite <- IH.
  - destruct (split ","%char s) as [|h t]; [contradiction|].
    rewrite <- IH. destruct t; reflexivity.
Qed.

Lemma split_length (s : string) :
  length (split ","%char s)
  = S (count_occ ascii_dec (String.list_ascii_of_string s) ","%char).
Proof.
  induction s as [|c s IH]; cbn [split String.list_ascii_of_string count_occ];
    [reflexivity|].
  pose proof (split_nonempty ","%char s) as Hne.
  destruct (Ascii.eqb c ","%char) eqn:E.
  - apply Ascii.eqb_eq in E. subst c.
    destruct (ascii_dec _ _); [|contradiction]. cbn [length]. now rewrite IH.
  - apply Ascii.eqb_neq in E. destruct (ascii_dec _ _); [contradiction|].
    destruct (split ","%char s) as [|h t]; [contradiction|]. exact IH.
Qed.

(** X21: splitting the [ids] parameter loses nothing (joining the parts
    gives the parameter back) and yields one id more than the parameter has
    commas; the compare page therefore fetches runs exactly when the
    parameter is present and contains a comma, one request per part. *)
Theorem ids_parameter (s : string) :
  join "," (ids_of (Some s)) = s
  /\ length (ids_of (Some s))
     = S (count_occ ascii_dec (String.list_ascii_of_string s) ","%char)
  /\ fetched None = []
  /\ (fetched (Some s) = [] <-> ~ In ","%char (String.list_ascii_of_string s))
  /\ (fetched (Some s) <> [] ->
      length (fetched (Some s)) = length (ids_of (Some s))).
Proof.
  split; [apply join_split|]. split; [apply split_length|].
  split; [reflexivity|]. unfold fetched. cbn [ids_of].
  pose proof (split_length s) as Hlen.
  destruct (length (split ","%char s) <? 2)%nat eqn:E.
  - apply Nat.ltb_lt in E. split; [|intros H; now elim H].
    split; [intros _|reflexivity].
    apply (count_occ_not_In ascii_dec). lia.
  - apply Nat.ltb_ge in E. split; [|intros _; apply length_map].
    split.
    + intros H. apply (f_equal length) in H. rewrite length_map in H.
      cbn in H. lia.
    + intros H. apply (count_occ_not_In ascii_dec) in H. lia.
Qed.

(** X22: on a selection of at most 5 runs, clicking the same row twice
    restores the selection. *)
Theorem toggle_twice (id : string) (selected : gset string) :
  (size selected <= 5)%nat ->
  History.toggle id (History.toggle id selected) = selected.
Proof.
  intros Hsize. unfold History.toggle at 2.
  destruct (decide (id ∈ selected)) as [Hin|Hout].
  - unfold History.toggle.
    rewrite decide_False
      by (intros [_ H]%elem_of_difference; apply H; now apply elem_of_singleton).
    rewrite decide_True.
    + apply set_eq. intros x.
      rewrite elem_of_union, elem_of_difference, elem_of_singleton.
      destruct (decide (x = id)) as [->|Hne]; tauto.
    + rewrite size_difference by now apply singleton_subseteq_l.
      rewrite size_singleton.
      assert (0 < size selected)%nat; [|lia].
      destruct (size selected) eqn:E; [|lia].
      apply size_empty_inv in E. apply leibniz_equiv in E. subst selected.
      now apply elem_of_empty in Hin.
  - destruct (decide (size selected < 5)%nat) as [Hlt|Hge].
    + unfold History.toggle.
      rewrite decide_True
        by (apply elem_of_union; right; now apply elem_of_singleton).
      apply set_eq. intros x.
      rewrite elem_of_difference, elem_of_union, elem_of_singleton.
      destruct (decide (x = id)) as [->|Hne]; tauto.
    + unfold History.toggle. rewrite decide_False by exact Hout.
      now rewrite decide_False by exact Hge.
Qed.

End NavigationFacts.

(** ** The merged equity curves *)

Section MergeFacts.
Import Merge.
Variable number : Type.

Lemma foldl_invariant {A B} (P : A -> Prop) (f : A -> B -> A) (l : list B)
    (a : A) :
  P a -> (forall a x, x ∈ l -> P a -> P (f a x)) -> P (foldl f a l).
Proof.
  revert a. induction l as [|x l IH]; intros a Ha Hf; cbn [foldl];
    [exact Ha|].
  apply IH.
  - apply Hf; [apply list_elem_of_here|exact Ha].
  - intros a' y Hy. apply Hf. now apply list_elem_of_further.
Qed.

Lemma dom_add_points (label : string)
    (points : list (Compare.Point number))
    (tm : gmap string (gmap string (Compare.value number))) (t : string) :
  t ∈ dom (foldl (add_point label) tm points)
  <-> t ∈ dom tm \/ exists point, point ∈ points /\ Compare.time number point = t.
Proof.
  revert tm. induction points as [|p points IH]; intros tm; cbn [foldl].
  - split; [now left|]. intros [H|(p & Hp & _)]; [exact H|].
    now apply elem_of_nil in Hp.
  - rewrite IH. unfold add_point at 1. rewrite dom_insert_L, elem_of_union,
      elem_of_singleton. split.
    + intros [[->|H]|(q & Hq & Ht)].
      * right. exists p. split; [apply list_elem_of_here|reflexivity].
      * now left.
      * right. exists q. split; [now apply list_elem_of_further|exact Ht].
    + intros [H|(q & Hq & Ht)]; [left; now right|].
      apply elem_of_cons in Hq as [->|Hq]; [left; left; now symmetry|].
      right. now exists q.
Qed.

Lemma dom_add_runs (entries : list (nat * Compare.Run number))
    (tm : gmap string (gmap string (Compare.value number))) (t : string) :
  t ∈ dom (foldl add_run tm entries)
  <-> t ∈ dom tm
      \/ exists entry point,
           entry ∈ entries
           /\ point ∈ Compare.equity_curve number (Compare.results (snd entry))
           /\ Compare.time number point = t.
Proof.
  revert tm. induction entries as [|e entries IH]; intros tm; cbn [foldl].
  - split; [now left|]. intros [H|(e & p & He & _)]; [exact H|].
    now apply elem_of_nil in He.
  - rewrite IH. unfold add_run at 1. rewrite dom_add_points. split.
    + intros [[H|(p & Hp & Ht)]|(e' & p & He & Hp & Ht)].
      * now left.
      * right. exists e, p. split; [apply list_elem_of_here|now split].
      * right. exists e', p. split; [now apply list_elem_of_further|now split].
    + intros [H|(e' & p & He & Hp & Ht)]; [left; now left|].
      apply elem_of_cons in He as [->|He]; [left; right; now exists p|].
      right. now exists e', p.
Qed.

(** X23: the merged curve has one row per distinct time of the compared
    runs' equity curves: its times are exactly the times at which some run
    has a point, each once, in ascending string order. *)
Theorem merged_times (runs : list (Compare.Run number)) :
  StronglySorted String.le (times runs)
  /\ NoDup (times runs)
  /\ (forall t,
        t ∈ times runs
        <-> exists run point,
              run ∈ runs
              /\ point ∈ Compare.equity_curve number (Compare.results run)
              /\ Compare.time number point = t)
  /\ length (mergedCurve runs) = length (times runs).
Proof.
  unfold mergedCurve, times.
  pose proof (merge_sort_Permutation String.le (elements (dom (timeMap runs))))
    as Hperm.
  split; [apply (StronglySorted_merge_sort String.le)|].
  split; [rewrite Hperm; apply NoDup_elements|].
  split; [|apply length_map].
  intros t. rewrite Hperm, elem_of_elements. unfold timeMap.
  rewrite dom_add_runs, dom_empty_L. split.
  - intros [H|(e & p & He & Hp & Ht)]; [now apply elem_of_empty in H|].
    apply elem_of_lookup_imap in He as (i & run & -> & Hrun).
    exists run, p. split; [now apply list_elem_of_lookup_2 in Hrun|now split].
  - intros (run & p & Hrun & Hp & Ht). right.
    apply list_elem_of_lookup_1 in Hrun as [i Hrun].
    exists (i, run), p. split; [|now split].
    apply elem_of_lookup_imap. now exists i, run.
Qed.

Lemma assign_lookup (label key : string) (v : Compare.value number)
    (row : gmap string (Compare.value number)) :
  assign label v row !! key
  = if decide (key = label /\ label <> "__proto__") then Some v
    else row !! key.
Proof.
  unfold assign. destruct (String.eqb label "__proto__") eqn:E.
  - apply String.eqb_eq in E. rewrite decide_False; [reflexivity|].
    intros [_ H]. contradiction.
  - apply String.eqb_neq in E.
    destruct (decide (key = label)) as [->|Hk].
    + rewrite decide_True by (now split). apply lookup_insert_eq.
    + rewrite decide_False by (intros [H _]; contradiction).
      apply lookup_insert_ne. congruence.
Qed.

Lemma add_point_lookup (label : string)
    (tm : gmap string (gmap string (Compare.value number)))
    (p : Compare.Point number) (t : string)
    (row : gmap string (Compare.value number)) :
  add_point label tm p !! t = Some row ->
  (t = Compare.time number p
   /\ row = assign label (Compare.Num (Compare.point_value number p))
              (default {[ "time" := Compare.Str t ]} (tm !! t)))
  \/ (t <> Compare.time number p /\ tm !! t = Some row).
Proof.
  unfold add_point. destruct (decide (t = Compare.time number p)) as [->|Hne].
  - rewrite lookup_insert_eq. intros [= <-]. now left.
  - rewrite lookup_insert_ne by congruence. intros H. now right.
Qed.

Lemma add_point_keeps (label : string)
    (tm : gmap string (gmap string (Compare.value number)))
    (p : Compare.Point number) (t key : string) :
  (exists row x, tm !! t = Some row /\ row !! key = Some x) ->
  exists row x, add_point label tm p !! t = Some row /\ row !! key = Some x.
Proof.
  intros (row & x & Hrow & Hx). unfold add_point.
  destruct (decide (t = Compare.time number p)) as [->|Hne].
  - rewrite lookup_insert_eq, Hrow. cbn [default].
    destruct (decide (key = label /\ label <> "__proto__")) as [H|H].
    + eexists _, _. split; [reflexivity|].
      rewrite assign_lookup. now rewrite decide_True by exact H.
    + eexists _, x. split; [reflexivity|].
      rewrite assign_lookup. now rewrite decide_False by exact H.
  - rewrite lookup_insert_ne by congruence. now exists row, x.
Qed.

Lemma add_points_keep (label : string) (points : list (Compare.Point number))
    (tm : gmap string (gmap string (Compare.value number))) (t key : string) :
  (exists row x, tm !! t = Some row /\ row !! key = Some x) ->
  exists row x,
    foldl (add_point label) tm points !! t = Some row /\ row !! key = Some x.
Proof.
  intros H. apply (foldl_invariant
    (fun tm => exists row x, tm !! t = Some row /\ row !! key = Some x));
    [exact H|].
  intros tm' p _. apply add_point_keeps.
Qed.

(** X24: nothing is interpolated in the merged rows, and no point of a run
    is lost unless the run's label is [__proto__]: a key of the row of time
    [t], other than the [time] field itself, is the label of a run that has a
    point at [t] and holds the value of such a point; every point of a run
    whose label is not [__proto__] has its run's label in the row of its
    time; and no row has the key [__proto__]. *)
Theorem merged_rows (runs : list (Compare.Run number)) :
  (forall t row key x,
     timeMap runs !! t = Some row -> row !! key = Some x ->
     (key = "time" /\ x = Compare.Str t)
     \/ exists i run point,
          runs !! i = Some run /\ Compare.run_label i run = key
          /\ point ∈ Compare.equity_curve number (Compare.results run)
          /\ Compare.time number point = t
          /\ x = Compare.Num (Compare.point_value number point))
  /\ (forall i run point,
        runs !! i = Some run ->
        point ∈ Compare.equity_curve number (Compare.results run) ->
        Compare.run_label i run <> "__proto__" ->
        exists row x,
          timeMap runs !! Compare.time number point = Some row
          /\ row !! Compare.run_label i run = Some x)
  /\ (forall t row,
        timeMap runs !! t = Some row -> row !! "__proto__" = None).
Proof.
  split; [|split].
  - unfold timeMap.
    apply (foldl_invariant
      (fun tm => forall t row key x,
         tm !! t = Some row -> row !! key = Some x ->
         (key = "time" /\ x = Compare.Str t)
         \/ exists i run point,
              runs !! i = Some run /\ Compare.run_label i run = key
              /\ point ∈ Compare.equity_curve number (Compare.results run)
              /\ Compare.time number point = t
              /\ x = Compare.Num (Compare.point_value number point))).
    + intros t row key x H. rewrite lookup_empty in H. discriminate.
    + intros tm [i run] He Htm.
      apply elem_of_lookup_imap in He as (i' & run' & [= -> ->] & Hrun).
      unfold add_run. cbn [fst snd].
      apply (foldl_invariant
        (fun tm => forall t row key x,
           tm !! t = Some row -> row !! key = Some x ->
           (key = "time" /\ x = Compare.Str t)
           \/ exists i run point,
                runs !! i = Some run /\ Compare.run_label i run = key
                /\ point ∈ Compare.equity_curve number (Compare.results run)
                /\ Compare.time number point = t
                /\ x = Compare.Num (Compare.point_value number point)));
        [exact Htm|].
      intros tm' p Hp Htm' t row key x Hrow Hkey.
      apply add_point_lookup in Hrow as [[-> ->]|[_ Hrow]];
        [|exact (Htm' _ _ _ _ Hrow Hkey)].
      rewrite assign_lookup in Hkey.
      destruct (decide _) as [[-> _]|_].
      * injection Hkey as <-.
        right. exists i', run', p. repeat split; assumption.
      * destruct (tm' !! Compare.time number p) as [old|] eqn:Hold;
          cbn [default] in Hkey.
        -- exact (Htm' _ _ _ _ Hold Hkey).
        -- apply lookup_singleton_Some in Hkey as [<- <-]. now left.
  - intros i run point Hrun Hpoint Hlabel. unfold timeMap.
    assert (Hin : (i, run) ∈ imap pair runs).
    { apply elem_of_lookup_imap. now exists i, run. }
    apply list_elem_of_split in Hin as (before & after & ->).
    rewrite foldl_app. cbn [foldl].
    apply (foldl_invariant
      (fun tm => exists row x,
         tm !! Compare.time number point = Some row
         /\ row !! Compare.run_label i run = Some x)).
    + unfold add_run at 1. cbn [fst snd].
      apply list_elem_of_split in Hpoint as (front & back & ->).
      rewrite foldl_app. cbn [foldl]. apply add_points_keep.
      unfold add_point at 1. rewrite lookup_insert_eq.
      eexists _, _. split; [reflexivity|]. rewrite assign_lookup.
      now rewrite decide_True by (now split).
    + intros tm e _. unfold add_run. apply add_points_keep.
  - unfold timeMap.
    apply (foldl_invariant
      (fun tm => forall t row, tm !! t = Some row -> row !! "__proto__" = None)).
    + intros t row H. rewrite lookup_empty in H. discriminate.
    + intros tm e _ Htm. unfold add_run.
      apply (foldl_invariant
        (fun tm => forall t row,
           tm !! t = Some row -> row !! "__proto__" = None));
        [exact Htm|].
      intros tm' p _ Htm' t row Hrow.
      apply add_point_lookup in Hrow as [[-> ->]|[_ Hrow]];
        [|exact (Htm' _ _ Hrow)].
      rewrite assign_lookup. rewrite decide_False by (intros [-> H]; now apply H).
      destruct (tm' !! Compare.time number p) as [old|] eqn:Hold;
        cbn [default]; [exact (Htm' _ _ Hold)|].
      apply lookup_singleton_ne. discriminate.
Qed.

End MergeFacts.

(** ** The presets of the form *)

Section FormFacts.
Import Form.

Lemma spread_prop (a b : gmap string js) (key : string) :
  prop (spread a b) key
  = match b !! key with
    | Some v => v
    | None => prop a key
    end.
Proof.
  unfold prop, spread. rewrite lookup_union.
  destruct (b !! key), (a !! key); reflexivity.
Qed.

Lemma kept_lookup (name symbol timeframe days capital : js) (key : string) :
  (list_to_map [ ("name", name); ("symbol", symbol); ("timeframe", timeframe);
                 ("days", days); ("capital", capital) ] : gmap string js)
    !! key
  = if decide (key = "name") then Some name
    else if decide (key = "symbol") then Some symbol
    else if decide (key = "timeframe") then Some timeframe
    else if decide (key = "days") then Some days
    else if decide (key = "capital") then Some capital
    else None.
Proof.
  unfold list_to_map. cbn [foldr uncurry fst snd].
  rewrite !lookup_insert, lookup_empty.
  repeat case_decide; congruence.
Qed.

Lemma preset_of_inv (key : string) (preset : Preset) :
  preset_of key = Some preset -> In (key, preset) PRESETS.
Proof.
  unfold preset_of. intros H.
  destruct (find _ PRESETS) as [[k p]|] eqn:Hfind; [|discriminate].
  injection H as <-. apply find_some in Hfind as [Hin Heq].
  cbn [fst] in Heq. apply String.eqb_eq in Heq. now subst k.
Qed.

Lemma preset_leaves_settings (key : string) (preset : Preset) (k : string) :
  preset_of key = Some preset ->
  k ∈ ["name"; "symbol"; "timeframe"; "days"; "capital"] ->
  preset_params preset !! k = None.
Proof.
  intros Hp Hk. apply preset_of_inv in Hp.
  repeat (apply elem_of_cons in Hk as [->|Hk]);
    try (now apply elem_of_nil in Hk);
    repeat (destruct Hp as [[= <- <-]|Hp]; [vm_compute; reflexivity|]);
    destruct Hp.
Qed.

(** What [applyPreset] leaves as it is. *)
Lemma applyPreset_kept (key : string) (st : State) :
  (forall k, k ∈ ["name"; "symbol"; "timeframe"; "days"; "capital"] ->
     prop (params (applyPreset key st)) k = prop (params st) k)
  /\ loading (applyPreset key st) = loading st.
Proof.
  unfold applyPreset. destruct (preset_of key) as [preset|] eqn:Hp;
    [|split; [intros; reflexivity|reflexivity]].
  split; [|reflexivity].
  intros k Hk. cbn [params]. rewrite spread_prop.
  rewrite (preset_leaves_settings key preset k Hp Hk).
  rewrite spread_prop, kept_lookup.
  repeat (apply elem_of_cons in Hk as [->|Hk]);
    try (now apply elem_of_nil in Hk);
    repeat (first [ rewrite decide_True by reflexivity
                  | rewrite decide_False by discriminate ]);
    reflexivity.
Qed.

(** X25: [applyPreset] never changes the name, symbol, timeframe, days or
    capital typed into the form, nor the loading flag: no preset sets one of
    these five fields. *)
Theorem applyPreset_keeps_settings (key : string) (st : State) :
  (forall k, k ∈ ["name"; "symbol"; "timeframe"; "days"; "capital"] ->
     prop (params (applyPreset key st)) k = prop (params st) k)
  /\ loading (applyPreset key st) = loading st.
Proof.
  exact (applyPreset_kept key st).
Qed.

Lemma applyPreset_depends (key : string) (st1 st2 : State) :
  (forall k, k ∈ ["name"; "symbol"; "timeframe"; "days"; "capital"] ->
     prop (params st1) k = prop (params st2) k) ->
  loading st1 = loading st2 ->
  is_Some (preset_of key) ->
  applyPreset key st1 = applyPreset key st2.
Proof.
  intros Hsame Hloading [preset Hp]. unfold applyPreset. rewrite Hp.
  rewrite Hloading.
  rewrite !Hsame
    by (repeat first [apply list_elem_of_here | apply list_elem_of_further]).
  reflexivity.
Qed.

(** X26: a preset overwrites every field but the five settings it keeps:
    applying a preset after another preset, or after an edit of any other
    field, gives the same form as applying it directly. *)
Theorem last_preset_wins (earlier key : string) (st : State) :
  is_Some (preset_of key) ->
  applyPreset key (applyPreset earlier st) = applyPreset key st
  /\ (forall field value,
        field ∉ ["name"; "symbol"; "timeframe"; "days"; "capital"] ->
        applyPreset key (set field value st) = applyPreset key st).
Proof.
  intros Hkey. split.
  - apply applyPreset_depends; [|apply applyPreset_kept|exact Hkey].
    apply applyPreset_kept.
  - intros field value Hfield.
    apply applyPreset_depends; [|reflexivity|exact Hkey].
    intros k Hk. unfold set, prop. cbn [params].
    rewrite lookup_insert_ne; [reflexivity|]. intros ->. contradiction.
Qed.

(** X27: no preset switches all three indicators off: after any preset, and
    after a reset, the "No indicators enabled" warning is hidden and the run
    button is disabled only while a run is loading. *)
Theorem presets_keep_an_indicator (key : string) (st : State) :
  (is_Some (preset_of key) ->
   no_indicator (applyPreset key st) = false
   /\ run_disabled (applyPreset key st) = loading st)
  /\ no_indicator (resetDefaults st) = false
  /\ run_disabled (resetDefaults st) = loading st.
Proof.
  split.
  - intros [preset Hp].
    assert (Hno : no_indicator (applyPreset key st) = false).
    { unfold applyPreset, no_indicator. rewrite Hp. cbn [params].
      rewrite !spread_prop, !kept_lookup.
      repeat (rewrite decide_False by discriminate).
      apply preset_of_inv in Hp.
      repeat (destruct Hp as [[= <- <-]|Hp]; [vm_compute; reflexivity|]).
      destruct Hp. }
    split; [exact Hno|]. unfold run_disabled. rewrite Hno.
    rewrite orb_false_r. unfold applyPreset. rewrite Hp. reflexivity.
  - split; [reflexivity|]. unfold run_disabled.
    change (no_indicator (resetDefaults st)) with false. apply orb_false_r.
Qed.

End FormFacts.

(** ** The further statements at concrete inputs *)

Lemma process_signals_wellformed_witness :
  (length [_make_signal "BTC/USD" bullish 99 "technical/rsi_oversold"
                        1704175200] <= 3)%nat.
Proof.
  refine (proj1 (process_signals_wellformed Textbook.ta default_processor
                   (falling 31) _ _)).
  vm_compute. reflexivity.
Defined.

Lemma macd_signals_crossing_witness :
  _macd_signals (readings [] [Some (-1)%Q; Some (2 # 1000)%Q] (fun _ => []))
                default_processor (_candles_to_df (falling 31)) "BTC/USD" 0
  = [_make_signal "BTC/USD" bullish 30 "technical/macd_crossover" 0].
Proof.
  refine (proj1 (proj2 (macd_signals_crossing
            (readings [] [Some (-1)%Q; Some (2 # 1000)%Q] (fun _ => []))
            default_processor (_candles_to_df (falling 31)) "BTC/USD" 0
            [] (-1)%Q (2 # 1000)%Q _)) _ _).
  - reflexivity.
  - reflexivity.
  - reflexivity.
Defined.

Lemma sma_signals_crossing_witness :
  _sma_signals tied default_processor (_candles_to_df (falling 31))
               "BTC/USD" 0
  = Ok [_make_signal "BTC/USD" bullish 55 "technical/sma_golden_cross" 0].
Proof.
  refine (proj1 (sma_signals_crossing tied default_processor
                   (_candles_to_df (falling 31)) "BTC/USD" 0
                   [] [] 1 3 2 2 _ _) _ _).
  - reflexivity.
  - reflexivity.
  - vm_compute. discriminate.
  - reflexivity.
Defined.

Lemma count_wins_losses_round_trip_witness :
  _count_wins_losses
    ([] ++ [Trade.mk "BTC/USD" buy 1 41000 41000 0;
            Trade.mk "BTC/USD" sell 1 41000 41000 3600])
  = (0%nat, 1%nat).
Proof.
  refine (count_wins_losses_round_trip []
            (Trade.mk "BTC/USD" buy 1 41000 41000 0)
            (Trade.mk "BTC/USD" sell 1 41000 41000 3600) _ _ _);
    reflexivity.
Defined.

Lemma zero_capital_raises_witness :
  exists e,
    run Textbook.ta Textbook.score
        (runner_of (set_risk None None
           {| p_name := ""; p_symbol := "BTC/USD"; p_timeframe := "1h";
              p_days := 90; p_capital := 0; p_position_size_pct := 20;
              p_use_rsi := true; p_rsi_period := 14; p_rsi_oversold := 30;
              p_rsi_overbought := 70; p_use_macd := true; p_macd_fast := 12;
              p_macd_slow := 26; p_macd_signal := 9; p_use_sma := true;
              p_sma_short := 10; p_sma_long := 20; p_stop_loss_pct := None;
              p_take_profit_pct := None |}))
        (falling 31) = Raise e
    /\ engine_error e.
Proof.
  refine (zero_capital_raises Textbook.ta Textbook.score _ (falling 31) _).
  reflexivity.
Defined.

Lemma equity_curve_times_witness :
  exists report,
    run Textbook.ta Textbook.score (runner_of DEFAULTS)
        (falling_then [30000%Q]) = Ok report
    /\ length (equity_curve report) = 3%nat.
Proof.
  destruct (run Textbook.ta Textbook.score (runner_of DEFAULTS)
                (falling_then [30000%Q])) as [report|e] eqn:Hrun;
    [|exfalso; vm_compute in Hrun; discriminate Hrun].
  exists report. split; [reflexivity|].
  destruct (equity_curve_times Textbook.ta Textbook.score (runner_of DEFAULTS)
              (falling_then [30000%Q]) report Hrun)
    as (first & _ & _ & _ & Hlen).
  exact Hlen.
Defined.

Lemma equity_curve_increasing_witness :
  exists report,
    run Textbook.ta Textbook.score (runner_of DEFAULTS)
        (falling_then [30000%Q]) = Ok report
    /\ StronglySorted Z.lt (map time (equity_curve report)).
Proof.
  destruct (run Textbook.ta Textbook.score (runner_of DEFAULTS)
                (falling_then [30000%Q])) as [report|e] eqn:Hrun;
    [|exfalso; vm_compute in Hrun; discriminate Hrun].
  exists report. split; [reflexivity|].
  refine (equity_curve_increasing Textbook.ta Textbook.score
            (runner_of DEFAULTS) (falling_then [30000%Q]) report _ Hrun).
  apply (bool_decide_unpack _). vm_compute. exact I.
Defined.

Lemma short_series_untraded_witness :
  exists report,
    run Textbook.ta Textbook.score (runner_of DEFAULTS) (falling 30) = Ok report
    /\ report_trades report = [] /\ trade_count report = 0%nat
    /\ win_count report = 0%nat /\ loss_count report = 0%nat
    /\ final_value report = _capital (runner_of DEFAULTS)
    /\ (total_return_pct report == 0)%Q
    /\ max_drawdown_pct report = 0%Q
    /\ equity_curve report
       = [{| time := 1704067200 + 3600 * Z.of_nat 0;
             value := _capital (runner_of DEFAULTS) |}].
Proof.
  refine (short_series_untraded Textbook.ta Textbook.score (runner_of DEFAULTS)
            (falling 30)
            (Candle.mk "BTC/USD" "1h" 50000 (50000 + 100) (50000 - 100) 50000
                       1000 (1704067200 + 3600 * Z.of_nat 0)) _ _ _ _).
  - reflexivity.
  - vm_compute. lia.
  - vm_compute. discriminate.
  - vm_compute. discriminate.
Defined.

Lemma last_point_is_final_value_witness :
  exists report,
    run Textbook.ta Textbook.score (runner_of DEFAULTS)
        (falling_then [30000%Q]) = Ok report
    /\ (value <$> last (equity_curve report))
       = Some (round_nd (final_value report) 2).
Proof.
  destruct (run Textbook.ta Textbook.score (runner_of DEFAULTS)
                (falling_then [30000%Q])) as [report|e] eqn:Hrun;
    [|exfalso; vm_compute in Hrun; discriminate Hrun].
  exists report. split; [reflexivity|].
  rewrite (last_point_is_final_value Textbook.ta Textbook.score
             (runner_of DEFAULTS) (falling_then [30000%Q]) report
             (Candle.mk "BTC/USD" "1h" 30000 (30000 + 100) (30000 - 100) 30000
                        1000 (1704067200 + 3600 * Z.of_nat 31))).
  - reflexivity.
  - vm_compute. lia.
  - reflexivity.
  - exact Hrun.
Defined.

Lemma trade_count_bounded_witness :
  exists report,
    run Textbook.ta Textbook.score (runner_of DEFAULTS)
        (falling_then [30000%Q]) = Ok report
    /\ (trade_count report <= 2)%nat.
Proof.
  destruct (run Textbook.ta Textbook.score (runner_of DEFAULTS)
                (falling_then [30000%Q])) as [report|e] eqn:Hrun;
    [|exfalso; vm_compute in Hrun; discriminate Hrun].
  exists report. split; [reflexivity|].
  exact (proj2 (trade_count_bounded Textbook.ta Textbook.score
                  (runner_of DEFAULTS) (falling_then [30000%Q]) report Hrun)).
Defined.

Lemma cash_never_negative_witness :
  (0 <= Portfolio.cash
          (portfolio (executor (state_after DEFAULTS (falling 31) [30%nat]))))%Q.
Proof.
  refine (proj1 (cash_never_negative Textbook.ta Textbook.score
                   (runner_of DEFAULTS) (falling 31)
                   (default (Candle.mk "" "" 0 0 0 0 0 0)
                            (falling 31 !! 0%nat))
                   [30%nat] _ _ _ _ _)).
  - vm_compute. discriminate.
  - vm_compute. discriminate.
  - vm_compute.
    repeat (apply Forall_cons; split; [discriminate|]). apply Forall_nil_2.
  - vm_compute. reflexivity.
Defined.

Lemma list_entry_matches_detail_witness :
  let row :=
    {| Storage.id := "r1"; Storage.name := None; Storage.symbol := "BTC/USD";
       Storage.timeframe := "1h"; Storage.days := 90;
       Storage.params := Storage.Document (∅ : gmap string nat);
       Storage.results :=
         Storage.Document ({[ "equity_curve" := 0%nat; "trade_count" := 1%nat ]}
                           : gmap string nat);
       Storage.created_at := 0 |} in
  length (Storage.list_runs (fun _ => ∅) (Storage.recent [row])) = 1%nat.
Proof.
  intros row.
  refine (proj1 (list_entry_matches_detail nat (fun _ => ∅) [row] "r1" _ _ _)).
  - vm_compute. lia.
  - reflexivity.
Defined.

Lemma ids_round_trip_witness :
  Navigation.ids_of
    (Browser.searchParams_get
       (Navigation.compare ["0b6e-41d2"; "a1f3-77c0"; "c3"]) "ids")
  = ["0b6e-41d2"; "a1f3-77c0"; "c3"].
Proof.
  refine (ids_round_trip Browser.searchParams_get
            ["0b6e-41d2"; "a1f3-77c0"; "c3"] searchParams_get_ids _ _).
  - discriminate.
  - repeat (apply Forall_cons; split; [reflexivity|]). apply Forall_nil_2.
Defined.

Lemma toggle_twice_witness :
  History.toggle "a" (History.toggle "a" (History.after_clicks ["a"; "b"]))
  = History.after_clicks ["a"; "b"].
Proof.
  refine (toggle_twice "a" (History.after_clicks ["a"; "b"]) _).
  vm_compute. lia.
Defined.

Lemma last_preset_wins_witness :
  Form.applyPreset "trend" (Form.applyPreset "momentum" Form.initial)
  = Form.applyPreset "trend" Form.initial.
Proof.
  refine (proj1 (last_preset_wins "momentum" "trend" Form.initial _)).
  eexists. reflexivity.
Defined.

(** A loader that serves a stored series in ascending order meets the
    assumption on the batches. *)
Lemma serve_batches (store : list Candle.t) (T : Z)
    (symbol timeframe : string) (since : Z) (limit : nat)
    (batch : list Candle.t) :
  StronglySorted (fun a b => Candle.timestamp a < Candle.timestamp b) store ->
  Forall (fun c => Candle.timestamp c * 1000 <= T) store ->
  Exchange.serve store symbol timeframe since limit = Ok batch ->
  StronglySorted (fun a b => Candle.timestamp a < Candle.timestamp b) batch
  /\ Forall (fun c => since <= Candle.timestamp c * 1000 <= T) batch.
Proof.
  intros Hsorted Hbound Hserve. unfold Exchange.serve in Hserve.
  injection Hserve as <-. split.
  - apply (sorted_sublist _ _ store); [|exact Hsorted].
    etransitivity; [apply sublist_take|apply sublist_filter].
  - apply Forall_forall. intros c Hc.
    apply elem_of_take in Hc as (i & Hc & _).
    apply list_elem_of_lookup_2 in Hc.
    apply list_elem_of_filter in Hc as [Hsince Hstore].
    rewrite Forall_forall in Hbound. split; [exact Hsince|].
    apply Hbound, Hstore.
Qed.

Lemma fetch_candles_ascending_witness :
  exists r,
    Loader._fetch_candles (Exchange.serve (falling 31)) 1704261599 1002
                          "BTC/USD" "1h" 1 = Some r
    /\ forall candles, r = Ok candles ->
         StronglySorted (fun a b => Candle.timestamp a < Candle.timestamp b)
                        candles
         /\ Forall (fun c => 1704175199000 <= Candle.timestamp c * 1000)
                   candles.
Proof.
  refine (fetch_candles_ascending (Exchange.serve (falling 31)) 1704261599
            1002 "BTC/USD" "1h" 1 1704175200000 _ _).
  - intros since batch. apply serve_batches.
    + apply (bool_decide_unpack _). vm_compute. exact I.
    + apply (bool_decide_unpack _). vm_compute. exact I.
  - vm_compute. lia.
Defined.
